(** * The invocation core of motan-go ([core/motan.go])

    A shallow embedding of the request/response value model, the extension
    factory, the two terminal filters and the filter endpoint, followed by
    the properties established about them.

    Go objects that are reached through pointers and may be aliased
    (attachment maps, RPC contexts, trace contexts) live in an explicit
    [Heap]; a method with a pointer receiver is a computation over the
    receiver's struct and the heap.  A run-time panic is an outcome of its
    own.  Collaborators that the file only knows through an interface
    (serializations, callers, URLs, constructors registered by plug-ins) are
    parameters of the development. *)

From Stdlib Require Import ZArith String List Ascii Bool Lia DecimalString DecimalPos DecimalZ
  Permutation.
From stdpp Require Import base gmap strings list.

Set Default Proof Using "Type".

(** ** Outcomes and the state-and-panic monad *)

Inductive outcome (A : Type) : Type :=
| Returns (a : A)
| Panics (reason : string).
Arguments Returns {A} a.
Arguments Panics {A} reason.

(** The message of Go's run-time error for a method call through a nil
    interface or a nil pointer. *)
Definition nil_dereference : string :=
  "invalid memory address or nil pointer dereference".

(** In Go a pointer always designates a live object; the heap of the model
    is a finite map, and a lookup of an unallocated location, which no Go
    execution can perform, is reported separately. *)
Definition dangling_pointer : string := "dangling pointer".

Definition index_out_of_range : string := "index out of range".

Definition Go (S A : Type) : Type := S -> outcome (A * S).

Definition ret {S A : Type} (a : A) : Go S A := fun s => Returns (a, s).

Definition bind {S A B : Type} (c : Go S A) (k : A -> Go S B) : Go S B :=
  fun s => match c s with
           | Returns (a, s') => k a s'
           | Panics r => Panics r
           end.

Definition panic {S A : Type} (reason : string) : Go S A := fun _ => Panics reason.

Definition get {S : Type} : Go S S := fun s => Returns (s, s).

Definition put {S : Type} (s : S) : Go S unit := fun _ => Returns (tt, s).

Notation "'let!' x ':=' c 'in' k" := (bind c (fun x => k))
  (at level 10, x name, c at level 100, k at level 200).
Notation "'do!' c 'in' k" := (bind c (fun _ => k))
  (at level 10, c at level 100, k at level 200).

(** A computation on the second component of a pair of states: methods of a
    struct run on (receiver, heap) and call into heap-only operations. *)
Definition liftH {R H A : Type} (c : Go H A) : Go (R * H) A :=
  fun s => match c (snd s) with
           | Returns (a, h') => Returns (a, (fst s, h'))
           | Panics r => Panics r
           end.

Definition get_self {R H : Type} : Go (R * H) R := fun s => Returns (fst s, s).

Definition put_self {R H : Type} (r : R) : Go (R * H) unit :=
  fun s => Returns (tt, (r, snd s)).

(** ** Values *)

Abbreviation loc := positive.

(** Go's [error]: nil, or an error carrying a message ([errors.New]). *)
Definition error : Type := option string.
Definition errors_New (msg : string) : error := Some msg.

(** [DeserializableValue]: for lazy deserialization.  [Serialization] is an
    interface value: nil, or a reference to a serialization object. *)
Record DeserializableValue : Type :=
  { Serialization : option loc; Body : list Byte.byte }.

(** [interface{}] values as far as this file distinguishes them: the nil
    interface, scalars, a [*DeserializableValue], and a pointer to an
    object of some other type. *)
Inductive value : Type :=
| VNil
| VBool (b : bool)
| VInt (n : Z)
| VString (s : string)
| VBytes (b : list Byte.byte)
| VDeserializableValue (d : DeserializableValue)
| VPointer (l : loc).

Definition value_is_nil (v : value) : bool :=
  match v with VNil => true | _ => false end.

(** A slice is nil or has elements; [len] of the nil slice is 0. *)
Definition len {A : Type} (s : option (list A)) : nat :=
  match s with Some l => length l | None => 0 end.

Definition is_nil {A : Type} (s : option A) : bool :=
  match s with Some _ => false | None => true end.

Definition index {S A : Type} (s : option (list A)) (i : nat) : Go S A :=
  match s with
  | Some l => match l !! i with
              | Some x => ret x
              | None => panic index_out_of_range
              end
  | None => panic index_out_of_range
  end.

(** The behaviour of the objects behind interface values: what the
    serialization referenced by a [DeserializableValue] decodes, and which
    objects implement [Cloneable] and what their [Clone] returns. *)
Class Objects : Type :=
  { DeSerialize : loc -> list Byte.byte -> value -> value * error;
    DeSerializeMulti :
      loc -> list Byte.byte -> option (list value) -> option (list value) * error;
    implements_Cloneable : loc -> bool;
    call_Clone : loc -> value }.

(** ** RPC context, spans and the heap *)

Record Span : Type := { Name : string; Addr : string; Time : Z }.

Module RPCContext.

Record t : Type :=
  { ExtFactory : option loc;
    OriginalMessage : value;
    Oneway : bool;
    Proxy : bool;
    GzipSize : Z;
    SerializeNum : Z;
    Serialized : bool;
    AsyncCall : bool;
    Result : option loc;
    Reply : value;
    Tc : option loc }.

(** [&RPCContext{}] *)
Definition zero : t :=
  {| ExtFactory := None; OriginalMessage := VNil; Oneway := false; Proxy := false;
     GzipSize := 0%Z; SerializeNum := 0%Z; Serialized := false; AsyncCall := false;
     Result := None; Reply := VNil; Tc := None |}.

Definition set_OriginalMessage (c : t) (v : value) : t :=
  {| ExtFactory := ExtFactory c; OriginalMessage := v; Oneway := Oneway c;
     Proxy := Proxy c; GzipSize := GzipSize c; SerializeNum := SerializeNum c;
     Serialized := Serialized c; AsyncCall := AsyncCall c; Result := Result c;
     Reply := Reply c; Tc := Tc c |}.

End RPCContext.

Record Heap : Type :=
  { stringMaps : gmap loc (gmap string string);
    contexts : gmap loc RPCContext.t;
    traceContexts : gmap loc (list Span) }.

Definition set_stringMaps (h : Heap) (m : gmap loc (gmap string string)) : Heap :=
  {| stringMaps := m; contexts := contexts h; traceContexts := traceContexts h |}.

Definition set_contexts (h : Heap) (c : gmap loc RPCContext.t) : Heap :=
  {| stringMaps := stringMaps h; contexts := c; traceContexts := traceContexts h |}.

Definition set_traceContexts (h : Heap) (t : gmap loc (list Span)) : Heap :=
  {| stringMaps := stringMaps h; contexts := contexts h; traceContexts := t |}.

Definition empty_heap : Heap :=
  {| stringMaps := ∅; contexts := ∅; traceContexts := ∅ |}.

Definition new_context (c : RPCContext.t) : Go Heap loc :=
  fun h => let l := fresh (dom (contexts h)) in
           Returns (l, set_contexts h (<[l := c]> (contexts h))).

Definition load_context (l : loc) : Go Heap RPCContext.t :=
  fun h => match contexts h !! l with
           | Some c => Returns (c, h)
           | None => Panics dangling_pointer
           end.

(** A field of the context behind a possibly nil [*RPCContext]. *)
Definition context_field {A : Type} (c : option loc) (f : RPCContext.t -> A) : Go Heap A :=
  match c with
  | Some l => let! x := load_context l in ret (f x)
  | None => panic nil_dereference
  end.

(** ** StringMap *)

Module StringMap.

(** Modelled from the spec: the attachment map type [StringMap] and its
    methods [NewStringMap], [LoadOrEmpty], [Store] and [Copy], whose source
    file is not among the sources.  The spec describes it as a mapping
    from string to string with unique keys, owned by its request or
    response, and its copy as an independently owned shallow value copy.
    A [*StringMap] is a location of the heap. *)
Definition NewStringMap (cap : Z) : Go Heap loc :=
  fun h => let l := fresh (dom (stringMaps h)) in
           Returns (l, set_stringMaps h (<[l := ∅]> (stringMaps h))).

(** Modelled from the spec: the value stored under [key], the empty string
    when there is none. *)
Definition LoadOrEmpty (m : loc) (key : string) : Go Heap string :=
  fun h => match stringMaps h !! m with
           | Some am => Returns (default EmptyString (am !! key), h)
           | None => Panics dangling_pointer
           end.

(** Modelled from the spec: insert or overwrite the entry of [key]. *)
Definition Store (m : loc) (key val : string) : Go Heap unit :=
  fun h => match stringMaps h !! m with
           | Some am => Returns (tt, set_stringMaps h (<[m := <[key := val]> am]> (stringMaps h)))
           | None => Panics dangling_pointer
           end.

(** Modelled from the spec: a new map with the same entries. *)
Definition Copy (m : loc) : Go Heap loc :=
  fun h => match stringMaps h !! m with
           | Some am =>
               let l := fresh (dom (stringMaps h)) in
               Returns (l, set_stringMaps h (<[l := am]> (stringMaps h)))
           | None => Panics dangling_pointer
           end.

End StringMap.

Definition DefaultAttachmentSize : Z := 16.

(** ** DeserializableValue *)

Section Deserializable.
Context {Objs : Objects}.

Definition Deserialize (d : DeserializableValue) (v : value) : value * error :=
  match Serialization d with
  | None => (VNil, errors_New "deserialize fail in DeserializableValue, Serialization is nil")
  | Some s => DeSerialize s (Body d) v
  end.

Definition DeserializeMulti (d : DeserializableValue) (v : option (list value))
  : option (list value) * error :=
  match Serialization d with
  | None => (None, errors_New "deserialize fail in DeserializableValue, Serialization is nil")
  | Some s => DeSerializeMulti s (Body d) v
  end.

(** [oldMessage, ok := x.(Cloneable)]: the comma-ok type assertion yields
    the value itself when its dynamic type implements [Cloneable], and the
    zero value of [Cloneable], the nil interface, when it does not. *)
Definition assert_Cloneable (x : value) : value * bool :=
  match x with
  | VPointer l => if implements_Cloneable l then (x, true) else (VNil, false)
  | _ => (VNil, false)
  end.

(** [x.Clone()] through a [Cloneable] interface value. *)
Definition invoke_Clone {S : Type} (x : value) : Go S value :=
  match x with
  | VPointer l => ret (call_Clone l)
  | _ => panic nil_dereference
  end.

End Deserializable.

(** ** MotanRequest : the default Request *)

Module MotanRequest.

(** The mutex [mu] only serialises the lazy creation of the attachment map
    between goroutines; a method call is modelled as one uninterrupted
    execution, where locking and unlocking have no effect. *)
Record t : Type :=
  { RequestID : N;
    ServiceName : string;
    Method : string;
    MethodDesc : string;
    Arguments : option (list value);
    Attachment : option loc;
    RPCContext : option loc }.

Definition set_Arguments (m : t) (a : option (list value)) : t :=
  {| RequestID := RequestID m; ServiceName := ServiceName m; Method := Method m;
     MethodDesc := MethodDesc m; Arguments := a; Attachment := Attachment m;
     RPCContext := RPCContext m |}.

Definition set_Attachment (m : t) (a : option loc) : t :=
  {| RequestID := RequestID m; ServiceName := ServiceName m; Method := Method m;
     MethodDesc := MethodDesc m; Arguments := Arguments m; Attachment := a;
     RPCContext := RPCContext m |}.

Definition set_RPCContext (m : t) (c : option loc) : t :=
  {| RequestID := RequestID m; ServiceName := ServiceName m; Method := Method m;
     MethodDesc := MethodDesc m; Arguments := Arguments m; Attachment := Attachment m;
     RPCContext := c |}.

Definition GetAttachment (key : string) : Go (t * Heap) string :=
  let! m := get_self in
  match Attachment m with
  | None => ret EmptyString
  | Some a => liftH (StringMap.LoadOrEmpty a key)
  end.

Definition GetServiceName : Go (t * Heap) string :=
  let! m := get_self in ret (ServiceName m).

Definition GetMethod : Go (t * Heap) string :=
  let! m := get_self in ret (Method m).

Definition GetMethodDesc : Go (t * Heap) string :=
  let! m := get_self in ret (MethodDesc m).

Definition GetArguments : Go (t * Heap) (option (list value)) :=
  let! m := get_self in ret (Arguments m).

Definition GetRequestID : Go (t * Heap) N :=
  let! m := get_self in ret (RequestID m).

Definition SetArguments (arguments : option (list value)) : Go (t * Heap) unit :=
  let! m := get_self in put_self (set_Arguments m arguments).

(** The atomic load of the fast path and the re-check under the lock read
    the same field. *)
Definition GetAttachments : Go (t * Heap) loc :=
  let! m := get_self in
  match Attachment m with
  | Some attachment => ret attachment
  | None =>
      let! m := get_self in
      match Attachment m with
      | None =>
          let! attachment := liftH (StringMap.NewStringMap DefaultAttachmentSize) in
          do! put_self (set_Attachment m (Some attachment)) in
          ret attachment
      | Some attachment => ret attachment
      end
  end.

Definition SetAttachment (key val : string) : Go (t * Heap) unit :=
  let! a := GetAttachments in liftH (StringMap.Store a key val).

Definition GetRPCContext (canCreate : bool) : Go (t * Heap) (option loc) :=
  let! m := get_self in
  do! (if is_nil (RPCContext m) && canCreate
       then let! c := liftH (new_context RPCContext.zero) in
            put_self (set_RPCContext m (Some c))
       else ret tt) in
  let! m := get_self in
  ret (RPCContext m).

Section WithObjects.
Context {Objs : Objects}.

(** The receiver is left as it is; the new request is returned. *)
Definition Clone : Go (t * Heap) t :=
  let! m := get_self in
  let newRequest :=
    {| RequestID := RequestID m; ServiceName := ServiceName m; Method := Method m;
       MethodDesc := MethodDesc m; Arguments := Arguments m;
       Attachment := None; RPCContext := None |} in
  let! newRequest :=
    match Attachment m with
    | Some a =>
        let! a' := liftH (StringMap.Copy a) in
        ret (set_Attachment newRequest (Some a'))
    | None => ret newRequest
    end in
  match RPCContext m with
  | Some c =>
      let! old := liftH (load_context c) in
      let newContext :=
        {| RPCContext.ExtFactory := RPCContext.ExtFactory old;
           RPCContext.OriginalMessage := VNil;
           RPCContext.Oneway := RPCContext.Oneway old;
           RPCContext.Proxy := RPCContext.Proxy old;
           RPCContext.GzipSize := RPCContext.GzipSize old;
           RPCContext.SerializeNum := RPCContext.SerializeNum old;
           RPCContext.Serialized := RPCContext.Serialized old;
           RPCContext.AsyncCall := RPCContext.AsyncCall old;
           RPCContext.Result := RPCContext.Result old;
           RPCContext.Reply := RPCContext.Reply old;
           RPCContext.Tc := RPCContext.Tc old |} in
      let! newContext :=
        if negb (value_is_nil (RPCContext.OriginalMessage old)) then
          let '(oldMessage, ok) := assert_Cloneable (RPCContext.OriginalMessage old) in
          if ok then
            let! cloned := invoke_Clone oldMessage in
            ret (RPCContext.set_OriginalMessage newContext cloned)
          else
            ret (RPCContext.set_OriginalMessage newContext oldMessage)
        else ret newContext in
      let! c' := liftH (new_context newContext) in
      ret (set_RPCContext newRequest (Some c'))
  | None => ret newRequest
  end.

(** [ProcessDeserializable]: DeserializableValue to real params according
    to [toTypes]. *)
Definition ProcessDeserializable (toTypes : option (list value)) : Go (t * Heap) error :=
  let! args := GetArguments in
  let! args' := GetArguments in
  if negb (is_nil args) && (len args' =? 1)%nat then
    let! args'' := GetArguments in
    let! x := index args'' 0 in
    match x with
    | VDeserializableValue d =>
        let '(v, err) := DeserializeMulti d toTypes in
        match err with
        | Some e => ret (Some e)
        | None => do! SetArguments v in ret None
        end
    | _ => ret None
    end
  else ret None.

End WithObjects.

End MotanRequest.

(** ** MotanResponse *)

Module Exception.

Record t : Type := { ErrCode : Z; ErrMsg : string; ErrType : Z }.

End Exception.

Module MotanResponse.

Record t : Type :=
  { RequestID : N;
    Value : value;
    Exception : option Exception.t;
    ProcessTime : Z;
    Attachment : option loc;
    RPCContext : option loc }.

Definition set_Value (m : t) (v : value) : t :=
  {| RequestID := RequestID m; Value := v; Exception := Exception m;
     ProcessTime := ProcessTime m; Attachment := Attachment m;
     RPCContext := RPCContext m |}.

Definition set_ProcessTime (m : t) (time : Z) : t :=
  {| RequestID := RequestID m; Value := Value m; Exception := Exception m;
     ProcessTime := time; Attachment := Attachment m; RPCContext := RPCContext m |}.

Definition set_Attachment (m : t) (a : option loc) : t :=
  {| RequestID := RequestID m; Value := Value m; Exception := Exception m;
     ProcessTime := ProcessTime m; Attachment := a; RPCContext := RPCContext m |}.

Definition set_RPCContext (m : t) (c : option loc) : t :=
  {| RequestID := RequestID m; Value := Value m; Exception := Exception m;
     ProcessTime := ProcessTime m; Attachment := Attachment m; RPCContext := c |}.

Definition GetAttachment (key : string) : Go (t * Heap) string :=
  let! m := get_self in
  match Attachment m with
  | None => ret EmptyString
  | Some a => liftH (StringMap.LoadOrEmpty a key)
  end.

Definition GetValue : Go (t * Heap) value :=
  let! m := get_self in ret (Value m).

Definition GetException : Go (t * Heap) (option Exception.t) :=
  let! m := get_self in ret (Exception m).

Definition GetRequestID : Go (t * Heap) N :=
  let! m := get_self in ret (RequestID m).

Definition GetProcessTime : Go (t * Heap) Z :=
  let! m := get_self in ret (ProcessTime m).

Definition GetAttachments : Go (t * Heap) loc :=
  let! m := get_self in
  match Attachment m with
  | Some attachment => ret attachment
  | None =>
      let! m := get_self in
      match Attachment m with
      | None =>
          let! attachment := liftH (StringMap.NewStringMap DefaultAttachmentSize) in
          do! put_self (set_Attachment m (Some attachment)) in
          ret attachment
      | Some attachment => ret attachment
      end
  end.

Definition SetAttachment (key val : string) : Go (t * Heap) unit :=
  let! a := GetAttachments in liftH (StringMap.Store a key val).

Definition GetRPCContext (canCreate : bool) : Go (t * Heap) (option loc) :=
  let! m := get_self in
  do! (if is_nil (RPCContext m) && canCreate
       then let! c := liftH (new_context RPCContext.zero) in
            put_self (set_RPCContext m (Some c))
       else ret tt) in
  let! m := get_self in
  ret (RPCContext m).

Definition SetProcessTime (time : Z) : Go (t * Heap) unit :=
  let! m := get_self in put_self (set_ProcessTime m time).

Section WithObjects.
Context {Objs : Objects}.

(** [ProcessDeserializable]: same with MotanRequest. *)
Definition ProcessDeserializable (toType : value) : Go (t * Heap) error :=
  let! v0 := GetValue in
  if negb (value_is_nil v0) then
    let! v1 := GetValue in
    match v1 with
    | VDeserializableValue d =>
        let '(v, err) := Deserialize d toType in
        match err with
        | Some e => ret (Some e)
        | None => let! m := get_self in do! put_self (set_Value m v) in ret None
        end
    | _ => ret None
    end
  else ret None.

End WithObjects.

Definition BuildExceptionResponse (requestid : N) (e : option Exception.t) : t :=
  {| RequestID := requestid; Value := VNil; Exception := e; ProcessTime := 0%Z;
     Attachment := None; RPCContext := None |}.

End MotanResponse.

(** ** Collaborators named by the file and defined elsewhere *)

(** The URL value type, as far as this file reads it: the protocol field,
    a named parameter with a default, the identity string and the address
    string.  Its source file is not among the sources. *)
Class URLs : Type :=
  { URL : Type;
    Protocol : URL -> string;
    GetParam : URL -> string -> string -> string;
    GetIdentity : URL -> string;
    GetAddressStr : URL -> string }.

(** Constants and helpers of the package that this file uses and other
    files define: the URL parameter keys, the span names, and the parser
    of an export descriptor (protocol name, port, error). *)
Class Constants : Type :=
  { Hakey : string;
    Lbkey : string;
    ProviderKey : string;
    ProxyKey : string;
    EpFilterStart : string;
    EpFilterEnd : string;
    ClustFliter : string;
    EndPointFilterType : Z;
    ClusterFilterType : Z;
    ParseExportInfo : string -> string * Z * error }.

(** A Go string literal that ends in a line feed. *)
Definition line (s : string) : string :=
  String.append s (String (ascii_of_nat 10) EmptyString).

(** The logger [vlog]: every call appends one entry, the format string with
    its arguments, to the log. *)
Record LogEntry : Type := { level : string; format : string; args : list string }.

Definition vlog_Errorf (fmt : string) (a : list string) : Go (list LogEntry) unit :=
  fun l => Returns (tt, l ++ [ {| level := "error"; format := fmt; args := a |} ]).

Definition vlog_Warningln (a : list string) : Go (list LogEntry) unit :=
  fun l => Returns (tt, l ++ [ {| level := "warning"; format := EmptyString; args := a |} ]).

(** Modelled from the spec: the tracing handle [TraceContext] and its
    method [PutReqSpan], defined outside the sources: it appends a named
    span carrying a timestamp and an optional address. *)
Definition PutReqSpan (tc : loc) (span : Span) : Go Heap unit :=
  fun h => match traceContexts h !! tc with
           | Some spans =>
               Returns (tt, set_traceContexts h (<[tc := spans ++ [span]]> (traceContexts h)))
           | None => Panics dangling_pointer
           end.

(** A method call through an interface value or a pointer that may be nil. *)
Definition invoke {S T A : Type} (o : option T) (method : T -> Go S A) : Go S A :=
  match o with
  | Some x => method x
  | None => panic nil_dereference
  end.

(** ** Callers, strategies and filters *)

Section Callers.
Context {Urls : URLs} {Consts : Constants}.

(** [Response] is an interface value: nil or a response. *)
Definition Response : Type := option MotanResponse.t.

(** [Status]: for cluster or endpoint to check is available. *)
Record Status : Type := { Status_IsAvailable : bool }.

(** [Caller]: an object that can process a request.  Its [Call] runs on
    the request it is handed and on the heap. *)
Record Caller : Type :=
  { Caller_GetURL : URL;
    Caller_IsAvailable : bool;
    Caller_Call : Go (MotanRequest.t * Heap) Response }.

(** [LoadBalance] is passed through to the strategy untouched. *)
Definition LoadBalance : Type := option loc.

Record HaStrategy : Type :=
  { Ha_GetName : string;
    Ha_Call : LoadBalance -> Go (MotanRequest.t * Heap) Response }.

(** The methods of the [Filter] interface that this file calls on a filter
    it does not define. *)
Record Filter : Type :=
  { Filter_GetName : string;
    Filter_HasNext : bool;
    Filter_GetIndex : Z;
    Filter_GetType : Z }.

(** [EndPointFilter] and [ClusterFilter] are interface values: nil or a
    filter. *)
Definition EndPointFilter : Type := option Filter.
Definition ClusterFilter : Type := option Filter.

End Callers.

Module lastEndPointFilter.
Section Methods.
Context {Urls : URLs} {Consts : Constants}.

(** [type lastEndPointFilter struct{}] *)
Inductive t : Type := new.

Definition GetName (l : t) : string := "lastEndPointFilter".

(** [now] is the reading of the clock that [time.Now()] takes. *)
Definition Filter (l : t) (caller : option Caller) (now : Z)
  : Go (MotanRequest.t * Heap) Response :=
  let! c := MotanRequest.GetRPCContext true in
  let! tc := liftH (context_field c RPCContext.Tc) in
  do! (if negb (is_nil tc) then
         let! c' := MotanRequest.GetRPCContext true in
         let! tc' := liftH (context_field c' RPCContext.Tc) in
         let! addr := invoke caller (fun x => ret (GetAddressStr (Caller_GetURL x))) in
         liftH (invoke tc' (fun x =>
           PutReqSpan x {| Name := EpFilterEnd; Addr := addr; Time := now |}))
       else ret tt) in
  invoke caller Caller_Call.

Definition HasNext (l : t) : bool := false.

Definition SetNext (nextFilter : EndPointFilter) : Go (t * list LogEntry) unit :=
  let! name := invoke nextFilter (fun x => ret (Filter_GetName x)) in
  liftH (vlog_Errorf (line "should not set next in lastEndPointFilter! filer:%s") [name]).

Definition GetNext (l : t) : EndPointFilter := None.

Definition GetIndex (l : t) : Z := 100.

Definition GetType (l : t) : Z := EndPointFilterType.

End Methods.
End lastEndPointFilter.

Module lastClusterFilter.
Section Methods.
Context {Urls : URLs} {Consts : Constants}.

(** [type lastClusterFilter struct{}] *)
Inductive t : Type := new.

Definition GetName (l : t) : string := "lastClusterFilter".

Definition Filter (l : t) (haStrategy : option HaStrategy) (loadBalance : LoadBalance)
  (now : Z) : Go (MotanRequest.t * Heap) Response :=
  let! c := MotanRequest.GetRPCContext true in
  let! tc := liftH (context_field c RPCContext.Tc) in
  do! (if negb (is_nil tc) then
         let! c' := MotanRequest.GetRPCContext true in
         let! tc' := liftH (context_field c' RPCContext.Tc) in
         liftH (invoke tc' (fun x =>
           PutReqSpan x {| Name := ClustFliter; Addr := EmptyString; Time := now |}))
       else ret tt) in
  invoke haStrategy (fun x => Ha_Call x loadBalance).

Definition HasNext (l : t) : bool := false.

Definition SetNext (nextFilter : ClusterFilter) : Go (t * list LogEntry) unit :=
  let! name := invoke nextFilter (fun x => ret (Filter_GetName x)) in
  liftH (vlog_Errorf (line "should not set next in lastClusterFilter! filer:%s") [name]).

Definition GetNext (l : t) : ClusterFilter := None.

Definition GetIndex (l : t) : Z := 100.

Definition GetType (l : t) : Z := ClusterFilterType.

End Methods.
End lastClusterFilter.

(** ** FilterEndPoint *)

Module FilterEndPoint.
Section Methods.
Context {Urls : URLs} {Consts : Constants}.

(** [Caller] may be nil: [Destroy] tests it before it calls through it. *)
Record t : Type :=
  { StatusFilters : option (list Status);
    Caller : option Caller;
    Filter : EndPointFilter;
    URL : option URL }.


Definition SetURL (f : t) (url : option _) : t :=
  {| StatusFilters := StatusFilters f; Caller := Caller f; Filter := Filter f;
     URL := url |}.

Definition GetName (f : t) : string := "FilterEndPoint".

(** [for i := len(f.StatusFilters) - 1; i >= 0; i--], entered with
    [n = i + 1]: [Returns false] is the [return false] of the body,
    [Returns true] the normal end of the loop. *)
Fixpoint scan_down (filters : list Status) (n : nat) : outcome bool :=
  match n with
  | O => Returns true
  | S i =>
      match filters !! i with
      | Some s =>
          if negb (Status_IsAvailable s) then Returns false
          else scan_down filters i
      | None => Panics index_out_of_range
      end
  end.

Definition IsAvailable (f : t) : outcome bool :=
  let scanned :=
    if negb (is_nil (StatusFilters f)) && (0 <? len (StatusFilters f))%nat
    then scan_down (default [] (StatusFilters f)) (len (StatusFilters f))
    else Returns true in
  match scanned with
  | Returns true =>
      match Caller f with
      | Some c => Returns (Caller_IsAvailable c)
      | None => Panics nil_dereference
      end
  | Returns false => Returns false
  | Panics r => Panics r
  end.

End Methods.
End FilterEndPoint.

(** ** Two functions of Go's standard library *)

(** [strconv.Itoa]: the decimal representation, with a leading minus sign
    for a negative number. *)
Definition Itoa (i : Z) : string := NilZero.string_of_int (Z.to_int i).

Definition bytes_of (codes : list nat) : string :=
  fold_right (fun c s => String (ascii_of_nat c) s) EmptyString codes.

(** The UTF-8 encodings of the characters that [unicode.IsSpace] accepts:
    U+0009..U+000D, U+0020, U+0085, U+00A0, U+1680, U+2000..U+200A, U+2028,
    U+2029, U+202F, U+205F and U+3000. *)
Definition white_space : list string :=
  map bytes_of
    [ [9]; [10]; [11]; [12]; [13]; [32]; [194; 133]; [194; 160]; [225; 154; 128];
      [226; 128; 128]; [226; 128; 129]; [226; 128; 130]; [226; 128; 131];
      [226; 128; 132]; [226; 128; 133]; [226; 128; 134]; [226; 128; 135];
      [226; 128; 136]; [226; 128; 137]; [226; 128; 138]; [226; 128; 168];
      [226; 128; 169]; [226; 128; 175]; [226; 129; 159]; [227; 128; 128] ].

Fixpoint drop_prefix (p s : string) : option string :=
  match p, s with
  | EmptyString, _ => Some s
  | String a p', String b s' => if Ascii.eqb a b then drop_prefix p' s' else None
  | String _ _, EmptyString => None
  end.

Fixpoint drop_first (ps : list string) (s : string) : option string :=
  match ps with
  | [] => None
  | p :: ps' =>
      match drop_prefix p s with
      | Some rest => Some rest
      | None => drop_first ps' s
      end
  end.

Fixpoint trim_left (ps : list string) (fuel : nat) (s : string) : string :=
  match fuel with
  | O => s
  | S n =>
      match drop_first ps s with
      | Some rest => trim_left ps n rest
      | None => s
      end
  end.

Definition reverse_string (s : string) : string :=
  string_of_list_ascii (rev (list_ascii_of_string s)).

(** [strings.TrimSpace]: all leading and trailing white space removed.  A
    trailing character is found by its encoding read backwards. *)
Definition TrimSpace (s : string) : string :=
  let s1 := trim_left white_space (String.length s) s in
  reverse_string
    (trim_left (map reverse_string white_space) (String.length s1) (reverse_string s1)).

(** ** The extension factory *)

(** An extension instance is an interface value: nil or a reference to the
    object that a constructor returned. *)
Abbreviation instance := (option loc).

(** The side of the plug-ins: the state that registered constructors and
    initialisation hooks read and change, and the objects that implement
    [Initializable]. *)
Class Plugins : Type :=
  { World : Type;
    as_Initializable : loc -> option (Go World unit) }.

Inductive Role : Type :=
| RFilter | RHa | RLb | REndpoint | RProvider | RRegistry | RServer
| RMessageHandler | RSerialization.

Section Runtime.
Context {Urls : URLs} {Plug : Plugins}.

(** What the factory does to its surroundings, in order: the constructor
    registered under [name] for [role] is invoked on [url] (on nothing, for
    a constructor without argument), or the [Initialize] hook of an object
    runs. *)
Inductive Event : Type :=
| Invoked (role : Role) (name : string) (url : option URL)
| Initialized (object : loc).

Record Runtime : Type :=
  { world : World;
    events : list Event;
    log : list LogEntry }.

Definition call {R A : Type} (c : Go World A) : Go (R * Runtime) A :=
  fun s => match c (world (snd s)) with
           | Returns (a, w) =>
               Returns (a, (fst s, {| world := w; events := events (snd s);
                                      log := log (snd s) |}))
           | Panics r => Panics r
           end.

Definition record {R : Type} (e : Event) : Go (R * Runtime) unit :=
  fun s => Returns (tt, (fst s, {| world := world (snd s); events := events (snd s) ++ [e];
                                   log := log (snd s) |})).

Definition logging {R A : Type} (c : Go (list LogEntry) A) : Go (R * Runtime) A :=
  fun s => match c (log (snd s)) with
           | Returns (a, l) =>
               Returns (a, (fst s, {| world := world (snd s); events := events (snd s);
                                      log := l |}))
           | Panics r => Panics r
           end.

(** [Initialize]: Initialize if implement Initializable.  The type
    assertion fails on the nil interface. *)
Definition Initialize {R : Type} (s : instance) : Go (R * Runtime) unit :=
  match s with
  | Some o =>
      match as_Initializable o with
      | Some init => do! record (Initialized o) in call init
      | None => ret tt
      end
  | None => ret tt
  end.

End Runtime.

Module DefaultExtensionFactory.

(** The constructor types: a constructor runs on the side of the plug-ins
    and returns an instance. *)
Abbreviation DefaultFilterFunc := (Go World instance).
Abbreviation NewHaFunc := (URL -> Go World instance).
Abbreviation NewLbFunc := (URL -> Go World instance).
Abbreviation NewEndpointFunc := (URL -> Go World instance).
Abbreviation NewProviderFunc := (URL -> Go World instance).
Abbreviation NewRegistryFunc := (URL -> Go World instance).
Abbreviation NewServerFunc := (URL -> Go World instance).
Abbreviation NewMessageHandlerFunc := (Go World instance).
Abbreviation NewSerializationFunc := (Go World instance).

Section Methods.
Context {Urls : URLs} {Consts : Constants} {Plug : Plugins}.

(** The maps are those that [Initialize] makes.  [newRegistryLock] orders
    the slow path of [GetRegistry] between goroutines; a call is modelled
    as one uninterrupted execution, where it has no effect. *)
Record t : Type :=
  { filterFactories : gmap string DefaultFilterFunc;
    haFactories : gmap string NewHaFunc;
    lbFactories : gmap string NewLbFunc;
    endpointFactories : gmap string NewEndpointFunc;
    providerFactories : gmap string NewProviderFunc;
    registryFactories : gmap string NewRegistryFunc;
    servers : gmap string NewServerFunc;
    messageHandlers : gmap string NewMessageHandlerFunc;
    serializations : gmap string NewSerializationFunc;
    registries : gmap string instance }.

Definition set_filterFactories (d : t) (m : gmap string DefaultFilterFunc) : t :=
  {| filterFactories := m; haFactories := haFactories d; lbFactories := lbFactories d;
     endpointFactories := endpointFactories d; providerFactories := providerFactories d;
     registryFactories := registryFactories d; servers := servers d;
     messageHandlers := messageHandlers d; serializations := serializations d;
     registries := registries d |}.

Definition set_haFactories (d : t) (m : gmap string NewHaFunc) : t :=
  {| filterFactories := filterFactories d; haFactories := m; lbFactories := lbFactories d;
     endpointFactories := endpointFactories d; providerFactories := providerFactories d;
     registryFactories := registryFactories d; servers := servers d;
     messageHandlers := messageHandlers d; serializations := serializations d;
     registries := registries d |}.

Definition set_lbFactories (d : t) (m : gmap string NewLbFunc) : t :=
  {| filterFactories := filterFactories d; haFactories := haFactories d; lbFactories := m;
     endpointFactories := endpointFactories d; providerFactories := providerFactories d;
     registryFactories := registryFactories d; servers := servers d;
     messageHandlers := messageHandlers d; serializations := serializations d;
     registries := registries d |}.

Definition set_endpointFactories (d : t) (m : gmap string NewEndpointFunc) : t :=
  {| filterFactories := filterFactories d; haFactories := haFactories d;
     lbFactories := lbFactories d; endpointFactories := m;
     providerFactories := providerFactories d; registryFactories := registryFactories d;
     servers := servers d; messageHandlers := messageHandlers d;
     serializations := serializations d; registries := registries d |}.

Definition set_providerFactories (d : t) (m : gmap string NewProviderFunc) : t :=
  {| filterFactories := filterFactories d; haFactories := haFactories d;
     lbFactories := lbFactories d; endpointFactories := endpointFactories d;
     providerFactories := m; registryFactories := registryFactories d;
     servers := servers d; messageHandlers := messageHandlers d;
     serializations := serializations d; registries := registries d |}.

Definition set_registryFactories (d : t) (m : gmap string NewRegistryFunc) : t :=
  {| filterFactories := filterFactories d; haFactories := haFactories d;
     lbFactories := lbFactories d; endpointFactories := endpointFactories d;
     providerFactories := providerFactories d; registryFactories := m;
     servers := servers d; messageHandlers := messageHandlers d;
     serializations := serializations d; registries := registries d |}.

Definition set_servers (d : t) (m : gmap string NewServerFunc) : t :=
  {| filterFactories := filterFactories d; haFactories := haFactories d;
     lbFactories := lbFactories d; endpointFactories := endpointFactories d;
     providerFactories := providerFactories d; registryFactories := registryFactories d;
     servers := m; messageHandlers := messageHandlers d;
     serializations := serializations d; registries := registries d |}.

Definition set_messageHandlers (d : t) (m : gmap string NewMessageHandlerFunc) : t :=
  {| filterFactories := filterFactories d; haFactories := haFactories d;
     lbFactories := lbFactories d; endpointFactories := endpointFactories d;
     providerFactories := providerFactories d; registryFactories := registryFactories d;
     servers := servers d; messageHandlers := m;
     serializations := serializations d; registries := registries d |}.

Definition set_serializations (d : t) (m : gmap string NewSerializationFunc) : t :=
  {| filterFactories := filterFactories d; haFactories := haFactories d;
     lbFactories := lbFactories d; endpointFactories := endpointFactories d;
     providerFactories := providerFactories d; registryFactories := registryFactories d;
     servers := servers d; messageHandlers := messageHandlers d;
     serializations := m; registries := registries d |}.

Definition set_registries (d : t) (m : gmap string instance) : t :=
  {| filterFactories := filterFactories d; haFactories := haFactories d;
     lbFactories := lbFactories d; endpointFactories := endpointFactories d;
     providerFactories := providerFactories d; registryFactories := registryFactories d;
     servers := servers d; messageHandlers := messageHandlers d;
     serializations := serializations d; registries := m |}.

Definition GetHa (url : URL) : Go (t * Runtime) instance :=
  let haName := GetParam url Hakey "failover" in
  let! d := get_self in
  match haFactories d !! haName with
  | Some newHa =>
      do! record (Invoked RHa haName (Some url)) in call (newHa url)
  | None =>
      do! logging (vlog_Errorf
                     (line "HaStrategy name %s is not found in DefaultExtensionFactory!")
                     [haName]) in
      ret None
  end.

Definition GetLB (url : URL) : Go (t * Runtime) instance :=
  let lbName := GetParam url Lbkey "random" in
  let! d := get_self in
  match lbFactories d !! lbName with
  | Some newLb =>
      do! record (Invoked RLb lbName (Some url)) in call (newLb url)
  | None =>
      do! logging (vlog_Errorf
                     (line "LoadBalance name %s is not found in DefaultExtensionFactory!")
                     [lbName]) in
      ret None
  end.

Definition GetFilter (name : string) : Go (t * Runtime) instance :=
  let! d := get_self in
  match filterFactories d !! TrimSpace name with
  | Some newDefualt =>
      do! record (Invoked RFilter (TrimSpace name) None) in call newDefualt
  | None =>
      do! logging (vlog_Errorf
                     (line "filter name %s is not found in DefaultExtensionFactory!")
                     [name]) in
      ret None
  end.

Definition GetRegistry (url : URL) : Go (t * Runtime) instance :=
  let key := GetIdentity url in
  let! d := get_self in
  match registries d !! key with
  | Some registry => ret registry
  | None =>
      let! d := get_self in
      match registries d !! key with
      | Some registry => ret registry
      | None =>
          match registryFactories d !! Protocol url with
          | Some newRegistry =>
              do! record (Invoked RRegistry (Protocol url) (Some url)) in
              let! registry := call (newRegistry url) in
              do! Initialize registry in
              let! d := get_self in
              do! put_self (set_registries d (<[key := registry]> (registries d))) in
              ret registry
          | None =>
              do! logging (vlog_Errorf
                             (line "Registry name %s is not found in DefaultExtensionFactory!")
                             [Protocol url]) in
              ret None
          end
      end
  end.

Definition GetEndPoint (url : URL) : Go (t * Runtime) instance :=
  let! d := get_self in
  match endpointFactories d !! Protocol url with
  | Some newEp =>
      do! record (Invoked REndpoint (Protocol url) (Some url)) in
      let! endpoint := call (newEp url) in
      ret endpoint
  | None =>
      do! logging (vlog_Errorf
                     (line "EndPoint(protocol) name %s is not found in DefaultExtensionFactory!")
                     [Protocol url]) in
      ret None
  end.

Definition GetProvider (url : URL) : Go (t * Runtime) instance :=
  let pName := GetParam url ProviderKey EmptyString in
  let pName :=
    if String.eqb pName EmptyString then
      let proxy := GetParam url ProxyKey EmptyString in
      if negb (String.eqb proxy EmptyString) then
        let '(name, _, _) := ParseExportInfo proxy in name
      else "default"
    else pName in
  let! d := get_self in
  match providerFactories d !! pName with
  | Some newProviderFunc =>
      do! record (Invoked RProvider pName (Some url)) in call (newProviderFunc url)
  | None =>
      do! logging (vlog_Errorf
                     (line "provider name %s is not found in DefaultExtensionFactory!")
                     [pName]) in
      ret None
  end.

Definition GetServer (url : URL) : Go (t * Runtime) instance :=
  let sname := Protocol url in
  let! sname :=
    if String.eqb sname EmptyString then
      do! logging (vlog_Warningln ["not find server key. motan2 server will used."]) in
      ret "motan2"
    else ret sname in
  let! d := get_self in
  match servers d !! sname with
  | Some f =>
      do! record (Invoked RServer sname (Some url)) in
      let! s := call (f url) in
      do! Initialize s in
      ret s
  | None =>
      do! logging (vlog_Errorf
                     (line "server name %s is not found in DefaultExtensionFactory!")
                     [sname]) in
      ret None
  end.

Definition GetMessageHandler (name : string) : Go (t * Runtime) instance :=
  let! d := get_self in
  match messageHandlers d !! TrimSpace name with
  | Some newMessageHandler =>
      do! record (Invoked RMessageHandler (TrimSpace name) None) in
      let! handler := call newMessageHandler in
      do! Initialize handler in
      ret handler
  | None =>
      do! logging (vlog_Errorf
                     (line "messageHandler name %s is not found in DefaultExtensionFactory!")
                     [name]) in
      ret None
  end.

Definition GetSerialization (name : string) (id : Z) : Go (t * Runtime) instance :=
  let! d := get_self in
  if negb (String.eqb name EmptyString) then
    match serializations d !! TrimSpace name with
    | Some newSerialization =>
        do! record (Invoked RSerialization (TrimSpace name) None) in
        call newSerialization
    | None => ret None
    end
  else if (-1 <? id)%Z then
    match serializations d !! Itoa id with
    | Some newSerialization =>
        do! record (Invoked RSerialization (Itoa id) None) in
        call newSerialization
    | None => ret None
    end
  else ret None.

Definition RegistExtFilter (name : string) (newFilter : DefaultFilterFunc)
  : Go (t * Runtime) unit :=
  let! d := get_self in
  put_self (set_filterFactories d (<[name := newFilter]> (filterFactories d))).

Definition RegistExtHa (name : string) (newHa : NewHaFunc) : Go (t * Runtime) unit :=
  let! d := get_self in
  put_self (set_haFactories d (<[name := newHa]> (haFactories d))).

Definition RegistExtLb (name : string) (newLb : NewLbFunc) : Go (t * Runtime) unit :=
  let! d := get_self in
  put_self (set_lbFactories d (<[name := newLb]> (lbFactories d))).

Definition RegistExtEndpoint (name : string) (newEndpoint : NewEndpointFunc)
  : Go (t * Runtime) unit :=
  let! d := get_self in
  put_self (set_endpointFactories d (<[name := newEndpoint]> (endpointFactories d))).

Definition RegistExtProvider (name : string) (newProvider : NewProviderFunc)
  : Go (t * Runtime) unit :=
  let! d := get_self in
  put_self (set_providerFactories d (<[name := newProvider]> (providerFactories d))).

Definition RegistExtRegistry (name : string) (newRegistry : NewRegistryFunc)
  : Go (t * Runtime) unit :=
  let! d := get_self in
  put_self (set_registryFactories d (<[name := newRegistry]> (registryFactories d))).

Definition RegistExtServer (name : string) (newServer : NewServerFunc)
  : Go (t * Runtime) unit :=
  let! d := get_self in
  put_self (set_servers d (<[name := newServer]> (servers d))).

Definition RegistryExtMessageHandler (name : string) (newMessage : NewMessageHandlerFunc)
  : Go (t * Runtime) unit :=
  let! d := get_self in
  put_self (set_messageHandlers d (<[name := newMessage]> (messageHandlers d))).

Definition RegistryExtSerialization (name : string) (id : Z)
  (newSerialization : NewSerializationFunc) : Go (t * Runtime) unit :=
  let! d := get_self in
  do! put_self (set_serializations d (<[name := newSerialization]> (serializations d))) in
  let! d := get_self in
  put_self (set_serializations d (<[Itoa id := newSerialization]> (serializations d))).

(** A factory whose maps have just been made. *)
Definition initialized : t :=
  {| filterFactories := ∅; haFactories := ∅; lbFactories := ∅; endpointFactories := ∅;
     providerFactories := ∅; registryFactories := ∅; servers := ∅; messageHandlers := ∅;
     serializations := ∅; registries := ∅ |}.

(** The method [Initialize] of the factory: every map is made anew. *)
Definition Initialize : Go (t * Runtime) unit := put_self initialized.

End Methods.
End DefaultExtensionFactory.

(** ** Vocabulary of the statements about the factory *)

Section Vocabulary.
Context {Urls : URLs} {Consts : Constants} {Plug : Plugins}.

(** The invocation of a registry constructor on a URL of identity [key]. *)
Definition is_registry_construction (key : string) (e : Event) : bool :=
  match e with
  | Invoked RRegistry _ (Some url) => String.eqb (GetIdentity url) key
  | _ => false
  end.

Definition registry_constructions (key : string) (evs : list Event) : nat :=
  length (List.filter (is_registry_construction key) evs).

(** The calls on a factory that read or write its registry maps. *)
Inductive RegistryOp : Type :=
| OpGetRegistry (url : URL)
| OpRegistExtRegistry (name : string) (newRegistry : DefaultExtensionFactory.NewRegistryFunc).

Definition exec (op : RegistryOp) : Go (DefaultExtensionFactory.t * Runtime) unit :=
  match op with
  | OpGetRegistry url => do! DefaultExtensionFactory.GetRegistry url in ret tt
  | OpRegistExtRegistry name f => DefaultExtensionFactory.RegistExtRegistry name f
  end.

Fixpoint run (ops : list RegistryOp) : Go (DefaultExtensionFactory.t * Runtime) unit :=
  match ops with
  | [] => ret tt
  | op :: ops' => do! exec op in run ops'
  end.

(** Every identity has been constructed at most once, and only identities
    that have an entry in [registries] have been constructed. *)
Definition constructed_once (s : DefaultExtensionFactory.t * Runtime) : Prop :=
  forall key,
    registry_constructions key (events (snd s)) <= 1
    /\ (DefaultExtensionFactory.registries (fst s) !! key = None ->
        registry_constructions key (events (snd s)) = 0).

(** The outcome of [GetProvider] once the provider name is resolved: the
    constructor registered under the name is invoked on the URL, and
    without one the miss is logged and nil returned. *)
Definition provider_from (name : string) (url : URL)
  (s : DefaultExtensionFactory.t * Runtime)
  : outcome (instance * (DefaultExtensionFactory.t * Runtime)) :=
  match DefaultExtensionFactory.providerFactories (fst s) !! name with
  | Some newProviderFunc =>
      (do! record (Invoked RProvider name (Some url)) in call (newProviderFunc url)) s
  | None =>
      (do! logging (vlog_Errorf
                      (line "provider name %s is not found in DefaultExtensionFactory!")
                      [name]) in
       ret None) s
  end.

End Vocabulary.

(** ** Concrete collaborators

    A URL type, the constants of the package, plug-ins and objects, on
    which the statements below are instantiated. *)

Module Example.

Record url : Type :=
  { protocol : string;
    parameters : list (string * string);
    identity : string;
    address : string }.

Fixpoint param (ps : list (string * string)) (key def : string) : string :=
  match ps with
  | [] => def
  | (k, v) :: ps' => if String.eqb k key then v else param ps' key def
  end.

Definition urls : URLs :=
  {| URL := url;
     Protocol := protocol;
     GetParam := fun u key def => param (parameters u) key def;
     GetIdentity := identity;
     GetAddressStr := address |}.

(** An export descriptor is read as the motan2 protocol on port 8002. *)
Definition constants : Constants :=
  {| Hakey := "haStrategy";
     Lbkey := "loadbalance";
     ProviderKey := "provider";
     ProxyKey := "proxy";
     EpFilterStart := "epFilterStart";
     EpFilterEnd := "epFilterEnd";
     ClustFliter := "clusterFilter";
     EndPointFilterType := 0%Z;
     ClusterFilterType := 1%Z;
     ParseExportInfo := fun _ => ("motan2", 8002%Z, None) |}.

(** The world of the plug-ins counts the objects made so far; no object
    has an initialisation hook. *)
Definition plugins : Plugins :=
  {| World := nat;
     as_Initializable := fun _ => None |}.

(** A constructor that makes a new object at every invocation. *)
Definition make_object : Go (@World plugins) instance :=
  fun n : nat => Returns (Some (Pos.of_succ_nat n), S n).

(** A serialization that decodes a body as the one value holding it; the
    object at location 1 implements [Cloneable]. *)
Definition objects : Objects :=
  {| DeSerialize := fun _ body _ => (VBytes body, None);
     DeSerializeMulti := fun _ body _ => (Some [VBytes body], None);
     implements_Cloneable := fun l => Pos.eqb l 1;
     call_Clone := fun l => VPointer (Pos.succ l) |}.

Definition request (arguments : option (list value)) (attachment context : option loc)
  : MotanRequest.t :=
  {| MotanRequest.RequestID := 7%N;
     MotanRequest.ServiceName := "com.weibo.HelloService";
     MotanRequest.Method := "hello";
     MotanRequest.MethodDesc := EmptyString;
     MotanRequest.Arguments := arguments;
     MotanRequest.Attachment := attachment;
     MotanRequest.RPCContext := context |}.

Definition response : MotanResponse.t := MotanResponse.BuildExceptionResponse 7%N None.

(** A heap with the attachment map [{"a": "1"}] at location 1. *)
Definition heap_with_attachment : Heap :=
  set_stringMaps empty_heap {[ 1%positive := {[ "a" := "1" ]} ]}.

(** A heap with a context at location 1 that holds [message] and the
    tracing handle [tc], and an empty trace context at location 2. *)
Definition heap_with_context (message : value) (tc : option loc) : Heap :=
  set_traceContexts
    (set_contexts empty_heap
       {[ 1%positive :=
            {| RPCContext.ExtFactory := None; RPCContext.OriginalMessage := message;
               RPCContext.Oneway := false; RPCContext.Proxy := true;
               RPCContext.GzipSize := 0%Z; RPCContext.SerializeNum := 0%Z;
               RPCContext.Serialized := false; RPCContext.AsyncCall := true;
               RPCContext.Result := Some 5%positive; RPCContext.Reply := VString "reply";
               RPCContext.Tc := tc |} ]})
    {[ 2%positive := [] ]}.

Definition zookeeper (parameters : list (string * string)) : url :=
  {| protocol := "zookeeper"; parameters := parameters;
     identity := "zookeeper://127.0.0.1:2181/registry"; address := "127.0.0.1:2181" |}.

Definition runtime : @Runtime urls plugins :=
  @Build_Runtime urls plugins 0%nat [] [].

(** A factory as [Initialize] leaves it, with a registry constructor
    registered for zookeeper and provider constructors registered as
    default and cgi. *)
Definition factory : @DefaultExtensionFactory.t urls plugins :=
  @DefaultExtensionFactory.set_providerFactories urls plugins
    (@DefaultExtensionFactory.set_registryFactories urls plugins
       (@DefaultExtensionFactory.initialized urls plugins)
       {[ "zookeeper" := fun _ : url => make_object ]})
    (<[ "cgi" := fun _ : url => make_object ]>
       {[ "default" := fun _ : url => make_object ]}).

(** The calls that follow the first lookup of the zookeeper registry:
    a lookup through another URL of the same identity, a registration that
    replaces the constructor, and a lookup through the first URL. *)
Definition later_calls : list (@RegistryOp urls plugins) :=
  [ @OpGetRegistry urls plugins (zookeeper [("group", "motan-demo")]);
    @OpRegistExtRegistry urls plugins "zookeeper" (fun _ : url => make_object);
    @OpGetRegistry urls plugins (zookeeper []) ].

Definition echo_caller : @Caller urls :=
  @Build_Caller urls (zookeeper []) true (fun s => Returns (Some response, s)).

Definition failover : HaStrategy :=
  {| Ha_GetName := "failover";
     Ha_Call := fun _ s => Returns (Some response, s) |}.

Definition final_state {A S : Type} (o : outcome (A * S)) (otherwise : S) : S :=
  match o with
  | Returns (_, s) => s
  | Panics _ => otherwise
  end.

(** The state after the first lookup of the zookeeper registry, and after
    the later calls. *)
Definition after_first_lookup : @DefaultExtensionFactory.t urls plugins * @Runtime urls plugins :=
  final_state
    (@DefaultExtensionFactory.GetRegistry urls plugins (zookeeper []) (factory, runtime))
    (factory, runtime).

Definition after_later_calls : @DefaultExtensionFactory.t urls plugins * @Runtime urls plugins :=
  final_state (@run urls plugins later_calls after_first_lookup) after_first_lookup.

End Example.

(** ** Vocabulary of the statements about lookups *)

Section Lookups.
Context {Urls : URLs} {Consts : Constants} {Plug : Plugins}.

(** A call of one of the getters of the factory. *)
Inductive Lookup : Type :=
| AskHa (url : URL)
| AskLB (url : URL)
| AskFilter (name : string)
| AskRegistry (url : URL)
| AskEndPoint (url : URL)
| AskProvider (url : URL)
| AskServer (url : URL)
| AskMessageHandler (name : string)
| AskSerialization (name : string) (id : Z).

Definition perform (q : Lookup) : Go (DefaultExtensionFactory.t * Runtime) instance :=
  match q with
  | AskHa url => DefaultExtensionFactory.GetHa url
  | AskLB url => DefaultExtensionFactory.GetLB url
  | AskFilter name => DefaultExtensionFactory.GetFilter name
  | AskRegistry url => DefaultExtensionFactory.GetRegistry url
  | AskEndPoint url => DefaultExtensionFactory.GetEndPoint url
  | AskProvider url => DefaultExtensionFactory.GetProvider url
  | AskServer url => DefaultExtensionFactory.GetServer url
  | AskMessageHandler name => DefaultExtensionFactory.GetMessageHandler name
  | AskSerialization name id => DefaultExtensionFactory.GetSerialization name id
  end.

(** The getters called one after the other; the results in order. *)
Fixpoint perform_all (qs : list Lookup)
  : Go (DefaultExtensionFactory.t * Runtime) (list instance) :=
  match qs with
  | [] => ret []
  | q :: qs' =>
      let! r := perform q in
      let! rs := perform_all qs' in
      ret (r :: rs)
  end.

Definition is_registry_lookup (q : Lookup) : bool :=
  match q with AskRegistry _ => true | _ => false end.

(** What a call may do to the runtime: the events and the log only grow. *)
Definition grows (rt rt' : Runtime) : Prop :=
  events rt `prefix_of` events rt' /\ log rt `prefix_of` log rt'.

(** What a call on a factory shows to its caller: the result and the
    runtime it leaves, without the factory. *)
Definition outside {A R : Type} (o : outcome (A * (R * Runtime))) : outcome (A * Runtime) :=
  match o with
  | Returns (a, (_, rt)) => Returns (a, rt)
  | Panics r => Panics r
  end.

Definition role_of (q : Lookup) : Role :=
  match q with
  | AskHa _ => RHa
  | AskLB _ => RLb
  | AskFilter _ => RFilter
  | AskRegistry _ => RRegistry
  | AskEndPoint _ => REndpoint
  | AskProvider _ => RProvider
  | AskServer _ => RServer
  | AskMessageHandler _ => RMessageHandler
  | AskSerialization _ _ => RSerialization
  end.

(** A call of one of the registration methods of the factory. *)
Inductive Registration : Type :=
| AddFilter (name : string) (newFilter : DefaultExtensionFactory.DefaultFilterFunc)
| AddHa (name : string) (newHa : DefaultExtensionFactory.NewHaFunc)
| AddLb (name : string) (newLb : DefaultExtensionFactory.NewLbFunc)
| AddEndpoint (name : string) (newEndpoint : DefaultExtensionFactory.NewEndpointFunc)
| AddProvider (name : string) (newProvider : DefaultExtensionFactory.NewProviderFunc)
| AddRegistry (name : string) (newRegistry : DefaultExtensionFactory.NewRegistryFunc)
| AddServer (name : string) (newServer : DefaultExtensionFactory.NewServerFunc)
| AddMessageHandler (name : string)
    (newMessage : DefaultExtensionFactory.NewMessageHandlerFunc)
| AddSerialization (name : string) (id : Z)
    (newSerialization : DefaultExtensionFactory.NewSerializationFunc).

Definition register (r : Registration) : Go (DefaultExtensionFactory.t * Runtime) unit :=
  match r with
  | AddFilter name f => DefaultExtensionFactory.RegistExtFilter name f
  | AddHa name f => DefaultExtensionFactory.RegistExtHa name f
  | AddLb name f => DefaultExtensionFactory.RegistExtLb name f
  | AddEndpoint name f => DefaultExtensionFactory.RegistExtEndpoint name f
  | AddProvider name f => DefaultExtensionFactory.RegistExtProvider name f
  | AddRegistry name f => DefaultExtensionFactory.RegistExtRegistry name f
  | AddServer name f => DefaultExtensionFactory.RegistExtServer name f
  | AddMessageHandler name f => DefaultExtensionFactory.RegistryExtMessageHandler name f
  | AddSerialization name id f => DefaultExtensionFactory.RegistryExtSerialization name id f
  end.

Definition role_registered (r : Registration) : Role :=
  match r with
  | AddFilter _ _ => RFilter
  | AddHa _ _ => RHa
  | AddLb _ _ => RLb
  | AddEndpoint _ _ => REndpoint
  | AddProvider _ _ => RProvider
  | AddRegistry _ _ => RRegistry
  | AddServer _ _ => RServer
  | AddMessageHandler _ _ => RMessageHandler
  | AddSerialization _ _ _ => RSerialization
  end.

(** What a caller sees of a constructor that the factory invokes: its
    result and its effect on the plug-ins, the invocation recorded. *)
Definition invoking (e : Event) (c : Go World instance) (rt : Runtime)
  : outcome (instance * Runtime) :=
  match c (world rt) with
  | Returns (r, w) =>
      Returns (r, {| world := w; events := events rt ++ [e]; log := log rt |})
  | Panics m => Panics m
  end.

(** The same followed by the [Initialize] hook of the object returned, where
    it has one. *)
Definition invoking_initializing (e : Event) (c : Go World instance) (rt : Runtime)
  : outcome (instance * Runtime) :=
  match c (world rt) with
  | Returns (Some o, w) =>
      match as_Initializable o with
      | Some init =>
          match init w with
          | Returns (_, w') =>
              Returns (Some o, {| world := w'; events := events rt ++ [e; Initialized o];
                                  log := log rt |})
          | Panics m => Panics m
          end
      | None => Returns (Some o, {| world := w; events := events rt ++ [e]; log := log rt |})
      end
  | Returns (None, w) =>
      Returns (None, {| world := w; events := events rt ++ [e]; log := log rt |})
  | Panics m => Panics m
  end.

(** A lookup that finds nothing: nil, and one error entry in the log. *)
Definition not_found (fmt name : string) (rt : Runtime) : outcome (instance * Runtime) :=
  Returns (None, {| world := world rt; events := events rt;
                    log := log rt ++ [ {| level := "error"; format := line fmt;
                                          args := [name] |} ] |}).

End Lookups.


(** ** The method [Call] of the filter endpoint *)

Module FilterEndPointCall.
Section Methods.
Context {Urls : URLs} {Consts : Constants}.

(** What other files define: the method [Filter] of the endpoint filter
    that the endpoint holds, and the outcome of [GetAddressStr] on a nil
    URL. *)
Variable EndPointFilter_Filter :
  Filter -> option Caller -> Go (MotanRequest.t * Heap) Response.
Variable GetAddressStr_nil : outcome string.

Definition address {S : Type} (url : option URL) : Go S string :=
  match url with
  | Some u => ret (GetAddressStr u)
  | None => fun s => match GetAddressStr_nil with
                     | Returns a => Returns (a, s)
                     | Panics r => Panics r
                     end
  end.


End Methods.
End FilterEndPointCall.

(** Further objects of the examples: an endpoint in front of the terminal
    endpoint filter, plug-ins whose objects have an initialisation hook, and
    the lookups of a client that starts up. *)
Module Scenario.

(** The terminal endpoint filter seen through the [Filter] interface. *)
Definition terminal : Filter :=
  {| Filter_GetName := lastEndPointFilter.GetName lastEndPointFilter.new;
     Filter_HasNext := lastEndPointFilter.HasNext lastEndPointFilter.new;
     Filter_GetIndex := lastEndPointFilter.GetIndex lastEndPointFilter.new;
     Filter_GetType := @lastEndPointFilter.GetType Example.constants lastEndPointFilter.new |}.


Definition endpoint : @FilterEndPoint.t Example.urls :=
  @FilterEndPoint.Build_t Example.urls None (Some Example.echo_caller) (Some terminal)
    (Some (Example.zookeeper [])).

(** The context of [Example.heap_with_context]. *)
Definition context (message : value) (tc : option loc) : RPCContext.t :=
  {| RPCContext.ExtFactory := None; RPCContext.OriginalMessage := message;
     RPCContext.Oneway := false; RPCContext.Proxy := true;
     RPCContext.GzipSize := 0%Z; RPCContext.SerializeNum := 0%Z;
     RPCContext.Serialized := false; RPCContext.AsyncCall := true;
     RPCContext.Result := Some 5%positive; RPCContext.Reply := VString "reply";
     RPCContext.Tc := tc |}.

(** The lookups of a client that starts up against [Example.factory]. *)
Definition startup : list (@Lookup Example.urls) :=
  [ @AskRegistry Example.urls (Example.zookeeper []);
    @AskProvider Example.urls (Example.zookeeper []);
    @AskHa Example.urls (Example.zookeeper []) ].

Definition after_startup
  : @DefaultExtensionFactory.t Example.urls Example.plugins
    * @Runtime Example.urls Example.plugins :=
  Example.final_state
    (@perform_all Example.urls Example.constants Example.plugins startup
       (Example.factory, Example.runtime))
    (Example.factory, Example.runtime).

Definition started : list instance :=
  match @perform_all Example.urls Example.constants Example.plugins startup
          (Example.factory, Example.runtime) with
  | Returns (rs, _) => rs
  | Panics _ => []
  end.

(** Plug-ins whose objects all have an initialisation hook, which adds 100
    to the count of the world. *)
Definition hooked : Plugins :=
  {| World := nat;
     as_Initializable := fun _ => Some (fun n : nat => Returns (tt, (n + 100)%nat)) |}.

Definition make_hooked : Go (@World hooked) instance :=
  fun n : nat => Returns (Some (Pos.of_succ_nat n), S n).

(** A URL without protocol. *)
Definition anonymous : Example.url :=
  {| Example.protocol := EmptyString; Example.parameters := [];
     Example.identity := "//127.0.0.1:8002/service"; Example.address := "127.0.0.1:8002" |}.

Definition hooked_runtime : @Runtime Example.urls hooked :=
  @Build_Runtime Example.urls hooked 0%nat [] [].

(** A registry constructor that fails to connect and returns nil. *)
Definition unreachable : Example.url -> Go (@World Example.plugins) instance :=
  fun _ (n : nat) => Returns (None, S n).

Definition failing_factory : @DefaultExtensionFactory.t Example.urls Example.plugins :=
  @DefaultExtensionFactory.set_registryFactories Example.urls Example.plugins
    (@DefaultExtensionFactory.initialized Example.urls Example.plugins)
    {[ "zookeeper" := unreachable ]}.

Definition after_failure
  : @DefaultExtensionFactory.t Example.urls Example.plugins
    * @Runtime Example.urls Example.plugins :=
  Example.final_state
    (@DefaultExtensionFactory.GetRegistry Example.urls Example.plugins
       (Example.zookeeper []) (failing_factory, Example.runtime))
    (failing_factory, Example.runtime).

End Scenario.
(** * Properties *)

(** Unfolds the monadic plumbing of a method run on a given state. *)
Ltac run_go :=
  unfold bind, ret, panic, get, put, get_self, put_self, liftH, invoke; simpl.

(** ** Requests and responses with absent parts *)

Lemma fresh_context_unallocated (h : Heap) :
  contexts h !! fresh (dom (contexts h)) = None.
Proof. apply not_elem_of_dom, is_fresh. Qed.

Lemma fresh_stringMap_unallocated (h : Heap) :
  stringMaps h !! fresh (dom (stringMaps h)) = None.
Proof. apply not_elem_of_dom, is_fresh. Qed.

Lemma request_GetRPCContext_present (m : MotanRequest.t) (h : Heap) (c : loc) (b : bool) :
  MotanRequest.RPCContext m = Some c ->
  MotanRequest.GetRPCContext b (m, h) = Returns (Some c, (m, h)).
Proof.
  intros Hc. unfold MotanRequest.GetRPCContext. run_go. rewrite Hc. simpl.
  rewrite Hc. reflexivity.
Qed.

Lemma response_GetRPCContext_present (m : MotanResponse.t) (h : Heap) (c : loc) (b : bool) :
  MotanResponse.RPCContext m = Some c ->
  MotanResponse.GetRPCContext b (m, h) = Returns (Some c, (m, h)).
Proof.
  intros Hc. unfold MotanResponse.GetRPCContext. run_go. rewrite Hc. simpl.
  rewrite Hc. reflexivity.
Qed.

Lemma request_GetRPCContext_create (m : MotanRequest.t) (h : Heap) :
  MotanRequest.RPCContext m = None ->
  MotanRequest.GetRPCContext true (m, h) =
    Returns (Some (fresh (dom (contexts h))),
             (MotanRequest.set_RPCContext m (Some (fresh (dom (contexts h)))),
              set_contexts h (<[fresh (dom (contexts h)) := RPCContext.zero]> (contexts h)))).
Proof.
  intros Hc. unfold MotanRequest.GetRPCContext, new_context. run_go.
  rewrite Hc. reflexivity.
Qed.

Lemma response_GetRPCContext_create (m : MotanResponse.t) (h : Heap) :
  MotanResponse.RPCContext m = None ->
  MotanResponse.GetRPCContext true (m, h) =
    Returns (Some (fresh (dom (contexts h))),
             (MotanResponse.set_RPCContext m (Some (fresh (dom (contexts h)))),
              set_contexts h (<[fresh (dom (contexts h)) := RPCContext.zero]> (contexts h)))).
Proof.
  intros Hc. unfold MotanResponse.GetRPCContext, new_context. run_go.
  rewrite Hc. reflexivity.
Qed.

(** C9.  A request or response whose attachment map is nil answers
    [GetAttachment] with the empty string for every key, creating nothing
    and without a panic.  With a nil RPC context, [GetRPCContext(false)]
    returns nil and creates nothing, and [GetRPCContext(true)] allocates a
    context that was not on the heap before, stores it in the receiver, and
    every later call, with either flag, returns that same context and
    changes nothing. *)
Theorem absent_attachments_and_context_tolerated
  (req : MotanRequest.t) (res : MotanResponse.t) (h : Heap) (key : string) :
  (MotanRequest.Attachment req = None ->
   MotanRequest.GetAttachment key (req, h) = Returns (EmptyString, (req, h)))
  /\ (MotanResponse.Attachment res = None ->
      MotanResponse.GetAttachment key (res, h) = Returns (EmptyString, (res, h)))
  /\ (MotanRequest.RPCContext req = None ->
      MotanRequest.GetRPCContext false (req, h) = Returns (None, (req, h))
      /\ exists c req' h',
          MotanRequest.GetRPCContext true (req, h) = Returns (Some c, (req', h'))
          /\ contexts h !! c = None
          /\ contexts h' !! c = Some RPCContext.zero
          /\ MotanRequest.RPCContext req' = Some c
          /\ forall b, MotanRequest.GetRPCContext b (req', h') = Returns (Some c, (req', h')))
  /\ (MotanResponse.RPCContext res = None ->
      MotanResponse.GetRPCContext false (res, h) = Returns (None, (res, h))
      /\ exists c res' h',
          MotanResponse.GetRPCContext true (res, h) = Returns (Some c, (res', h'))
          /\ contexts h !! c = None
          /\ contexts h' !! c = Some RPCContext.zero
          /\ MotanResponse.RPCContext res' = Some c
          /\ forall b, MotanResponse.GetRPCContext b (res', h') = Returns (Some c, (res', h'))).
Proof.
  split; [|split; [|split]].
  - intros Ha. unfold MotanRequest.GetAttachment. run_go. rewrite Ha. reflexivity.
  - intros Ha. unfold MotanResponse.GetAttachment. run_go. rewrite Ha. reflexivity.
  - intros Hc. split.
    + unfold MotanRequest.GetRPCContext. run_go. rewrite Hc. simpl.
      rewrite Hc. reflexivity.
    + eexists _, _, _. split; [apply request_GetRPCContext_create; assumption|].
      split; [apply fresh_context_unallocated|].
      split; [simpl; apply lookup_insert_eq|].
      split; [reflexivity|].
      intros b. apply request_GetRPCContext_present. reflexivity.
  - intros Hc. split.
    + unfold MotanResponse.GetRPCContext. run_go. rewrite Hc. simpl.
      rewrite Hc. reflexivity.
    + eexists _, _, _. split; [apply response_GetRPCContext_create; assumption|].
      split; [apply fresh_context_unallocated|].
      split; [simpl; apply lookup_insert_eq|].
      split; [reflexivity|].
      intros b. apply response_GetRPCContext_present. reflexivity.
Qed.

(** ** Cloning a request *)

(** What [Clone] returns and what it leaves on the heap, for a request
    whose attachment map and context are allocated. *)
Lemma Clone_returns {Objs : Objects} (m : MotanRequest.t) (h : Heap) :
  (forall a, MotanRequest.Attachment m = Some a -> is_Some (stringMaps h !! a)) ->
  (forall c, MotanRequest.RPCContext m = Some c -> is_Some (contexts h !! c)) ->
  exists clone h',
    MotanRequest.Clone (m, h) = Returns (clone, (m, h'))
    /\ MotanRequest.RequestID clone = MotanRequest.RequestID m
    /\ MotanRequest.ServiceName clone = MotanRequest.ServiceName m
    /\ MotanRequest.Method clone = MotanRequest.Method m
    /\ MotanRequest.MethodDesc clone = MotanRequest.MethodDesc m
    /\ MotanRequest.Arguments clone = MotanRequest.Arguments m
    /\ traceContexts h' = traceContexts h
    /\ match MotanRequest.Attachment m with
       | None => MotanRequest.Attachment clone = None /\ stringMaps h' = stringMaps h
       | Some a =>
           exists a', MotanRequest.Attachment clone = Some a'
                      /\ stringMaps h !! a' = None
                      /\ stringMaps h' = <[a' := default ∅ (stringMaps h !! a)]> (stringMaps h)
       end
    /\ match MotanRequest.RPCContext m with
       | None => MotanRequest.RPCContext clone = None /\ contexts h' = contexts h
       | Some c =>
           exists c' new,
             MotanRequest.RPCContext clone = Some c'
             /\ contexts h !! c' = None
             /\ contexts h' = <[c' := new]> (contexts h)
             /\ forall old, contexts h !! c = Some old ->
                  RPCContext.ExtFactory new = RPCContext.ExtFactory old
                  /\ RPCContext.Oneway new = RPCContext.Oneway old
                  /\ RPCContext.Proxy new = RPCContext.Proxy old
                  /\ RPCContext.GzipSize new = RPCContext.GzipSize old
                  /\ RPCContext.SerializeNum new = RPCContext.SerializeNum old
                  /\ RPCContext.Serialized new = RPCContext.Serialized old
                  /\ RPCContext.AsyncCall new = RPCContext.AsyncCall old
                  /\ RPCContext.Result new = RPCContext.Result old
                  /\ RPCContext.Reply new = RPCContext.Reply old
                  /\ RPCContext.Tc new = RPCContext.Tc old
                  /\ RPCContext.OriginalMessage new =
                       match RPCContext.OriginalMessage old with
                       | VPointer l => if implements_Cloneable l then call_Clone l else VNil
                       | _ => VNil
                       end
       end.
Proof.
  intros Ha Hc.
  unfold MotanRequest.Clone, StringMap.Copy, load_context, new_context, invoke_Clone,
    assert_Cloneable.
  run_go.
  destruct (MotanRequest.Attachment m) as [a|] eqn:Ea; simpl;
    [destruct (Ha a eq_refl) as [am Ham]; rewrite Ham|]; simpl;
    (destruct (MotanRequest.RPCContext m) as [c|] eqn:Ec; simpl;
     [destruct (Hc c eq_refl) as [old Hold]; rewrite Hold; simpl;
      destruct (RPCContext.OriginalMessage old) as [| | | | | |l] eqn:Em; simpl;
      try (destruct (implements_Cloneable l) eqn:El; simpl)|]).
  all: eexists _, _; split; [reflexivity|]; simpl.
  all: do 6 (split; [reflexivity|]).
  all: split.
  all: lazymatch goal with
       | |- _ = None /\ _ => split; reflexivity
       | |- exists a', _ = Some a' /\ _ !! a' = None /\ _ =>
           eexists; split; [reflexivity|];
           split; [apply fresh_stringMap_unallocated | rewrite ?Ham; reflexivity]
       | |- exists c' new, _ =>
           eexists _, _; split; [reflexivity|];
           split; [apply fresh_context_unallocated|];
           split; [reflexivity|];
           intros old' Hold'; rewrite ?Hold in Hold'; injection Hold' as <-;
           simpl; rewrite ?Em, ?El; repeat split
       end.
Qed.

Lemma GetAttachment_allocated (m : MotanRequest.t) (h : Heap) (a : loc)
  (am : gmap string string) (k : string) :
  MotanRequest.Attachment m = Some a ->
  stringMaps h !! a = Some am ->
  MotanRequest.GetAttachment k (m, h) = Returns (default EmptyString (am !! k), (m, h)).
Proof.
  intros Ha Ham. unfold MotanRequest.GetAttachment, StringMap.LoadOrEmpty. run_go.
  rewrite Ha. simpl. rewrite Ham. reflexivity.
Qed.

Lemma SetAttachment_allocated (m : MotanRequest.t) (h : Heap) (a : loc)
  (am : gmap string string) (k v : string) :
  MotanRequest.Attachment m = Some a ->
  stringMaps h !! a = Some am ->
  MotanRequest.SetAttachment k v (m, h) =
    Returns (tt, (m, set_stringMaps h (<[a := <[k := v]> am]> (stringMaps h)))).
Proof.
  intros Ha Ham.
  unfold MotanRequest.SetAttachment, MotanRequest.GetAttachments, StringMap.Store. run_go.
  rewrite Ha. simpl. rewrite Ham. reflexivity.
Qed.

(** C5.  [Clone] of a request with a non-nil attachment map returns a new
    request whose attachment map is another map with the same entries;
    storing a pair in the clone's attachments afterwards is seen by the
    clone and leaves the map of the original, and so every attachment value
    of the original, as it was. *)
Theorem Clone_attachments_independent {Objs : Objects}
  (m : MotanRequest.t) (h : Heap) (a : loc) (am : gmap string string) (key val : string) :
  MotanRequest.Attachment m = Some a ->
  stringMaps h !! a = Some am ->
  (forall c, MotanRequest.RPCContext m = Some c -> is_Some (contexts h !! c)) ->
  exists clone h1 a' clone' h2,
    MotanRequest.Clone (m, h) = Returns (clone, (m, h1))
    /\ MotanRequest.Attachment clone = Some a'
    /\ a' <> a
    /\ stringMaps h1 !! a' = Some am
    /\ stringMaps h1 !! a = Some am
    /\ MotanRequest.SetAttachment key val (clone, h1) = Returns (tt, (clone', h2))
    /\ MotanRequest.GetAttachment key (clone', h2) = Returns (val, (clone', h2))
    /\ stringMaps h2 !! a = Some am
    /\ forall k,
         MotanRequest.GetAttachment k (m, h) = Returns (default EmptyString (am !! k), (m, h))
         /\ MotanRequest.GetAttachment k (m, h2) =
              Returns (default EmptyString (am !! k), (m, h2)).
Proof.
  intros Ha Ham Hc.
  destruct (Clone_returns m h) as (clone & h1 & Hclone & _ & _ & _ & _ & _ & _ & Hatt & _).
  { intros a0 Ha0. rewrite Ha in Ha0. injection Ha0 as <-. eauto. }
  { exact Hc. }
  rewrite Ha in Hatt. destruct Hatt as (a' & Hca & Hfresh & Hmaps).
  rewrite Ham in Hmaps. simpl in Hmaps.
  assert (Hne : a' <> a) by (intros ->; congruence).
  assert (H1a' : stringMaps h1 !! a' = Some am)
    by (rewrite Hmaps; apply lookup_insert_eq).
  assert (H1a : stringMaps h1 !! a = Some am)
    by (rewrite Hmaps, lookup_insert_ne; assumption).
  exists clone, h1, a', clone,
    (set_stringMaps h1 (<[a' := <[key := val]> am]> (stringMaps h1))).
  split; [exact Hclone|]. split; [exact Hca|]. split; [exact Hne|].
  split; [exact H1a'|]. split; [exact H1a|].
  split; [apply SetAttachment_allocated; assumption|].
  split.
  { rewrite (GetAttachment_allocated clone _ a' (<[key := val]> am) key Hca).
    - rewrite lookup_insert_eq. reflexivity.
    - simpl. apply lookup_insert_eq. }
  assert (H2a : stringMaps (set_stringMaps h1 (<[a' := <[key := val]> am]> (stringMaps h1)))
                  !! a = Some am)
    by (simpl; rewrite lookup_insert_ne; assumption).
  split; [exact H2a|].
  intros k. split; apply GetAttachment_allocated with (a := a); assumption.
Qed.

(** C6, as the code has it.  For a request whose context holds a non-nil
    original message that does not implement [Cloneable], the context of
    the clone holds the nil interface: the branch taken on a failed type
    assertion assigns the variable that the assertion bound, which then is
    the zero value, and the message is not shared.  A message that
    implements [Cloneable] is replaced by the result of its [Clone];
    [Result], [Reply] and [Tc] are the same references in both contexts. *)
Theorem Clone_original_message {Objs : Objects}
  (m : MotanRequest.t) (h : Heap) (c : loc) (old : RPCContext.t) :
  MotanRequest.RPCContext m = Some c ->
  contexts h !! c = Some old ->
  (forall a, MotanRequest.Attachment m = Some a -> is_Some (stringMaps h !! a)) ->
  value_is_nil (RPCContext.OriginalMessage old) = false ->
  exists clone h' c' new,
    MotanRequest.Clone (m, h) = Returns (clone, (m, h'))
    /\ MotanRequest.RPCContext clone = Some c'
    /\ c' <> c
    /\ contexts h' !! c' = Some new
    /\ contexts h' !! c = Some old
    /\ RPCContext.Result new = RPCContext.Result old
    /\ RPCContext.Reply new = RPCContext.Reply old
    /\ RPCContext.Tc new = RPCContext.Tc old
    /\ (forall l, RPCContext.OriginalMessage old = VPointer l ->
                  implements_Cloneable l = true ->
                  RPCContext.OriginalMessage new = call_Clone l)
    /\ (snd (assert_Cloneable (RPCContext.OriginalMessage old)) = false ->
        RPCContext.OriginalMessage new = VNil
        /\ RPCContext.OriginalMessage new <> RPCContext.OriginalMessage old).
Proof.
  intros Hc Hold Ha Hnil.
  destruct (Clone_returns m h Ha) as (clone & h' & Hclone & _ & _ & _ & _ & _ & _ & _ & Hctx).
  { intros c0 Hc0. rewrite Hc in Hc0. injection Hc0 as <-. eauto. }
  rewrite Hc in Hctx. destruct Hctx as (c' & new & Hcc & Hfresh & Hmap & Hfields).
  destruct (Hfields old Hold) as (_ & _ & _ & _ & _ & _ & _ & HR & HRe & HTc & HOM).
  assert (Hne : c' <> c) by (intros ->; congruence).
  exists clone, h', c', new.
  split; [exact Hclone|]. split; [exact Hcc|]. split; [exact Hne|].
  split; [rewrite Hmap; apply lookup_insert_eq|].
  split; [rewrite Hmap, lookup_insert_ne; assumption|].
  split; [exact HR|]. split; [exact HRe|]. split; [exact HTc|].
  split.
  - intros l Hl Hi. rewrite HOM, Hl, Hi. reflexivity.
  - intros Hno. unfold assert_Cloneable in Hno.
    destruct (RPCContext.OriginalMessage old) as [| | | | | |l] eqn:Em;
      try discriminate; rewrite HOM.
    all: try (split; [reflexivity | discriminate]).
    destruct (implements_Cloneable l); [discriminate|].
    split; [reflexivity | discriminate].
Qed.

(** ** Lazy deserialization of the arguments *)

(** C2.  For a request whose arguments are exactly one
    [DeserializableValue]: with a nil [Serialization],
    [ProcessDeserializable] returns the error naming the missing
    serialization and the request is unchanged; otherwise it hands the body
    and [toTypes] to [DeSerializeMulti], on success stores the decoded
    values so that [GetArguments] returns them, and on failure returns the
    decoder's error with the request unchanged.  For nil arguments, a
    length other than one, or a single element that is not a
    [DeserializableValue], it returns nil and changes nothing. *)
Theorem ProcessDeserializable_request {Objs : Objects}
  (m : MotanRequest.t) (h : Heap) (toTypes : option (list value)) :
  (forall d, MotanRequest.Arguments m = Some [VDeserializableValue d] ->
     match Serialization d with
     | None =>
         MotanRequest.ProcessDeserializable toTypes (m, h) =
           Returns (Some "deserialize fail in DeserializableValue, Serialization is nil", (m, h))
     | Some s =>
         match DeSerializeMulti s (Body d) toTypes with
         | (v, None) =>
             MotanRequest.ProcessDeserializable toTypes (m, h) =
               Returns (None, (MotanRequest.set_Arguments m v, h))
             /\ MotanRequest.GetArguments (MotanRequest.set_Arguments m v, h) =
                  Returns (v, (MotanRequest.set_Arguments m v, h))
         | (_, Some e) =>
             MotanRequest.ProcessDeserializable toTypes (m, h) = Returns (Some e, (m, h))
         end
     end)
  /\ (MotanRequest.Arguments m = None
      \/ len (MotanRequest.Arguments m) <> 1%nat
      \/ (exists x, MotanRequest.Arguments m = Some [x]
                    /\ forall d, x <> VDeserializableValue d) ->
      MotanRequest.ProcessDeserializable toTypes (m, h) = Returns (None, (m, h))).
Proof.
  split.
  - intros d Hargs.
    unfold MotanRequest.ProcessDeserializable, MotanRequest.GetArguments,
      MotanRequest.SetArguments, DeserializeMulti, index.
    run_go. rewrite Hargs. simpl. rewrite ?Hargs. simpl.
    destruct (Serialization d) as [s|]; [|reflexivity].
    destruct (DeSerializeMulti s (Body d) toTypes) as [v [e|]]; simpl.
    + reflexivity.
    + split; reflexivity.
  - intros Hcase.
    unfold MotanRequest.ProcessDeserializable, MotanRequest.GetArguments, index.
    run_go.
    destruct (MotanRequest.Arguments m) as [args|] eqn:Hargs; simpl; [|reflexivity].
    destruct Hcase as [Hnil | [Hlen | (x & Hx & Hnd)]].
    + discriminate.
    + simpl in Hlen. apply Nat.eqb_neq in Hlen. rewrite ?Hargs. simpl.
      rewrite Hlen. reflexivity.
    + injection Hx as ->. simpl. rewrite ?Hargs. simpl.
      destruct x; simpl; rewrite ?Hargs; simpl; try reflexivity.
      exfalso. eapply Hnd. reflexivity.
Qed.

(** ** Availability of a filter endpoint *)

Section Availability.
Context {Urls : URLs}.

Lemma scan_down_prefix (filters : list Status) (n : nat) :
  n <= length filters ->
  FilterEndPoint.scan_down filters n =
    Returns (forallb Status_IsAvailable (take n filters)).
Proof.
  induction n as [|i IH]; intros Hn.
  - reflexivity.
  - destruct (lookup_lt_is_Some_2 filters i) as [s Hs]; [lia|].
    simpl. rewrite Hs. rewrite (take_S_r _ _ _ Hs), forallb_app. simpl.
    rewrite IH by lia.
    destruct (Status_IsAvailable s); simpl.
    + rewrite andb_true_r. reflexivity.
    + rewrite andb_false_r. reflexivity.
Qed.

Lemma forallb_Permutation {A : Type} (p : A -> bool) (l l' : list A) :
  Permutation l l' -> forallb p l = forallb p l'.
Proof.
  induction 1 as [|x l l' _ IH|x y l|l l' l'' _ IH1 _ IH2]; simpl.
  - reflexivity.
  - rewrite IH. reflexivity.
  - destruct (p x), (p y); reflexivity.
  - congruence.
Qed.

(** The loop and its guard compute the conjunction of the status checks;
    the caller is asked only when all of them hold. *)
Lemma IsAvailable_unfold (f : FilterEndPoint.t) :
  FilterEndPoint.IsAvailable f =
    if forallb Status_IsAvailable (default [] (FilterEndPoint.StatusFilters f))
    then match FilterEndPoint.Caller f with
         | Some c => Returns (Caller_IsAvailable c)
         | None => Panics nil_dereference
         end
    else Returns false.
Proof.
  unfold FilterEndPoint.IsAvailable.
  destruct (FilterEndPoint.StatusFilters f) as [filters|]; [|reflexivity].
  cbn [is_nil negb andb len default].
  destruct filters as [|s filters]; [reflexivity|].
  replace (0 <? length (s :: filters))%nat with true by reflexivity.
  rewrite scan_down_prefix by apply Nat.le_refl. rewrite firstn_all.
  destruct (forallb Status_IsAvailable (s :: filters)); reflexivity.
Qed.

(** C3.  [IsAvailable] returns true exactly when the endpoint has a caller
    that is available and every status filter is available.  With a caller,
    the result is the conjunction of all the checks; without status filters
    it is the caller's availability; one unavailable status filter makes it
    false whatever the caller is; and the order of the status filters does
    not matter to the result. *)
Theorem IsAvailable_conjunction (f : FilterEndPoint.t) :
  let filters := default [] (FilterEndPoint.StatusFilters f) in
  (FilterEndPoint.IsAvailable f = Returns true <->
   exists c, FilterEndPoint.Caller f = Some c
             /\ Caller_IsAvailable c = true
             /\ Forall (fun s => Status_IsAvailable s = true) filters)
  /\ (forall c, FilterEndPoint.Caller f = Some c ->
        FilterEndPoint.IsAvailable f =
          Returns (forallb Status_IsAvailable filters && Caller_IsAvailable c))
  /\ (forall c, FilterEndPoint.Caller f = Some c -> filters = [] ->
        FilterEndPoint.IsAvailable f = Returns (Caller_IsAvailable c))
  /\ (forall s, In s filters -> Status_IsAvailable s = false ->
        FilterEndPoint.IsAvailable f = Returns false)
  /\ (forall filters', Permutation filters filters' ->
        FilterEndPoint.IsAvailable
          {| FilterEndPoint.StatusFilters := Some filters';
             FilterEndPoint.Caller := FilterEndPoint.Caller f;
             FilterEndPoint.Filter := FilterEndPoint.Filter f;
             FilterEndPoint.URL := FilterEndPoint.URL f |} =
        FilterEndPoint.IsAvailable f).
Proof.
  intros filters. repeat split.
  - rewrite IsAvailable_unfold. fold filters. intros Hret.
    destruct (forallb Status_IsAvailable filters) eqn:Hall; [|discriminate].
    destruct (FilterEndPoint.Caller f) as [c|]; [|discriminate].
    exists c. split; [reflexivity|]. split; [congruence|].
    apply Forall_forall. intros s Hs. rewrite forallb_forall in Hall. apply Hall.
    apply list_elem_of_In. exact Hs.
  - intros (c & Hc & Hav & Hall). rewrite IsAvailable_unfold, Hc. fold filters.
    replace (forallb Status_IsAvailable filters) with true; [congruence|].
    symmetry. apply forallb_forall. intros s Hs.
    rewrite Forall_forall in Hall. apply Hall, list_elem_of_In, Hs.
  - intros c Hc. rewrite IsAvailable_unfold, Hc. fold filters.
    destruct (forallb Status_IsAvailable filters); reflexivity.
  - intros c Hc Hnil. rewrite IsAvailable_unfold, Hc. fold filters. rewrite Hnil.
    reflexivity.
  - intros s Hs Hav. rewrite IsAvailable_unfold. fold filters.
    replace (forallb Status_IsAvailable filters) with false; [reflexivity|].
    symmetry. apply not_true_is_false. intros Hall.
    rewrite forallb_forall in Hall. rewrite (Hall s Hs) in Hav. discriminate.
  - intros filters' Hperm. rewrite !IsAvailable_unfold. simpl. fold filters.
    rewrite (forallb_Permutation _ _ _ Hperm). reflexivity.
Qed.

End Availability.

(** ** The terminal filters *)

Lemma bind_Returns {S A B : Type} (c : Go S A) (k : A -> Go S B) (s s' : S) (a : A) :
  c s = Returns (a, s') -> bind c k s = k a s'.
Proof. intros Hc. unfold bind. rewrite Hc. reflexivity. Qed.

Lemma context_field_allocated {R A : Type} (r : R) (h : Heap) (c : loc)
  (ctx : RPCContext.t) (f : RPCContext.t -> A) :
  contexts h !! c = Some ctx ->
  liftH (context_field (Some c) f) (r, h) = Returns (f ctx, (r, h)).
Proof.
  intros Hctx. unfold context_field, load_context. run_go. rewrite Hctx. reflexivity.
Qed.

Lemma PutReqSpan_allocated {R : Type} (r : R) (h : Heap) (tc : loc)
  (spans : list Span) (span : Span) :
  traceContexts h !! tc = Some spans ->
  liftH (invoke (Some tc) (fun x => PutReqSpan x span)) (r, h) =
    Returns (tt, (r, set_traceContexts h (<[tc := spans ++ [span]]> (traceContexts h)))).
Proof.
  intros Hspans. unfold PutReqSpan. run_go. rewrite Hspans. reflexivity.
Qed.

Section TerminalFilters.
Context {Urls : URLs} {Consts : Constants}.

(** C4, amended.  [SetNext] with a filter that is not nil returns
    normally on either terminal filter: it appends one error entry naming
    the rejected filter to the log and leaves the terminal filter as it is;
    [HasNext] is false and [GetNext] is nil afterwards as before. *)
Theorem SetNext_refused (nextFilter : Filter) (entries : list LogEntry) :
  (forall l : lastEndPointFilter.t,
     lastEndPointFilter.SetNext (Some nextFilter) (l, entries) =
       Returns (tt, (l, entries ++
         [ {| level := "error";
              format := (line "should not set next in lastEndPointFilter! filer:%s");
              args := [Filter_GetName nextFilter] |} ]))
     /\ lastEndPointFilter.HasNext l = false
     /\ lastEndPointFilter.GetNext l = None)
  /\ (forall l : lastClusterFilter.t,
        lastClusterFilter.SetNext (Some nextFilter) (l, entries) =
          Returns (tt, (l, entries ++
            [ {| level := "error";
                 format := (line "should not set next in lastClusterFilter! filer:%s");
                 args := [Filter_GetName nextFilter] |} ]))
        /\ lastClusterFilter.HasNext l = false
        /\ lastClusterFilter.GetNext l = None).
Proof.
  split; intros l; repeat split.
Qed.

(** C7.  Each terminal filter returns what the delegate returns for the
    request: [caller.Call(request)] for the endpoint filter,
    [haStrategy.Call(request, loadBalance)] for the cluster filter.  For a
    request without a tracing handle the delegate runs on the state the
    filter was entered with (after an empty context has been created, for a
    request that had none); with a tracing handle the only difference is
    the span appended to the trace context before the delegate runs. *)
Theorem terminal_filters_delegate
  (caller : Caller) (haStrategy : HaStrategy) (loadBalance : LoadBalance) (now : Z)
  (m : MotanRequest.t) (h : Heap) :
  (forall c ctx,
     MotanRequest.RPCContext m = Some c ->
     contexts h !! c = Some ctx ->
     RPCContext.Tc ctx = None ->
     lastEndPointFilter.Filter lastEndPointFilter.new (Some caller) now (m, h) =
       Caller_Call caller (m, h)
     /\ lastClusterFilter.Filter lastClusterFilter.new (Some haStrategy) loadBalance now (m, h) =
          Ha_Call haStrategy loadBalance (m, h))
  /\ (MotanRequest.RPCContext m = None ->
      let c := fresh (dom (contexts h)) in
      let m' := MotanRequest.set_RPCContext m (Some c) in
      let h' := set_contexts h (<[c := RPCContext.zero]> (contexts h)) in
      lastEndPointFilter.Filter lastEndPointFilter.new (Some caller) now (m, h) =
        Caller_Call caller (m', h')
      /\ lastClusterFilter.Filter lastClusterFilter.new (Some haStrategy) loadBalance now (m, h) =
           Ha_Call haStrategy loadBalance (m', h'))
  /\ (forall c ctx tc spans,
        MotanRequest.RPCContext m = Some c ->
        contexts h !! c = Some ctx ->
        RPCContext.Tc ctx = Some tc ->
        traceContexts h !! tc = Some spans ->
        lastEndPointFilter.Filter lastEndPointFilter.new (Some caller) now (m, h) =
          Caller_Call caller
            (m, set_traceContexts h
                  (<[tc := spans ++
                     [ {| Name := EpFilterEnd;
                          Addr := GetAddressStr (Caller_GetURL caller); Time := now |} ]]>
                  (traceContexts h)))
        /\ lastClusterFilter.Filter lastClusterFilter.new (Some haStrategy) loadBalance now
             (m, h) =
             Ha_Call haStrategy loadBalance
               (m, set_traceContexts h
                     (<[tc := spans ++
                        [ {| Name := ClustFliter; Addr := EmptyString; Time := now |} ]]>
                     (traceContexts h)))).
Proof.
  split; [|split].
  - intros c ctx Hc Hctx Htc.
    unfold lastEndPointFilter.Filter, lastClusterFilter.Filter.
    split.
    all: rewrite (bind_Returns _ _ _ _ _ (request_GetRPCContext_present m h c true Hc)).
    all: rewrite (bind_Returns _ _ _ _ _ (context_field_allocated m h c ctx _ Hctx)).
    all: rewrite Htc; reflexivity.
  - intros Hc c m' h'.
    unfold lastEndPointFilter.Filter, lastClusterFilter.Filter.
    split.
    all: rewrite (bind_Returns _ _ _ _ _ (request_GetRPCContext_create m h Hc)).
    all: fold c; fold m'; fold h'.
    all: rewrite (bind_Returns _ _ _ _ _
                    (context_field_allocated m' h' c RPCContext.zero _
                       (lookup_insert_eq _ _ _))).
    all: reflexivity.
  - intros c ctx tc spans Hc Hctx Htc Hspans.
    unfold lastEndPointFilter.Filter, lastClusterFilter.Filter.
    split.
    all: rewrite (bind_Returns _ _ _ _ _ (request_GetRPCContext_present m h c true Hc)).
    all: rewrite (bind_Returns _ _ _ _ _ (context_field_allocated m h c ctx _ Hctx)).
    all: rewrite Htc; cbn [is_nil negb].
    all: unfold bind at 1.
    all: rewrite (bind_Returns _ _ _ _ _ (request_GetRPCContext_present m h c true Hc)).
    all: rewrite (bind_Returns _ _ _ _ _ (context_field_allocated m h c ctx _ Hctx)).
    all: rewrite Htc.
    + rewrite (bind_Returns _ _ (m, h) (m, h) (GetAddressStr (Caller_GetURL caller)))
        by reflexivity.
      rewrite (PutReqSpan_allocated m h tc spans _ Hspans). reflexivity.
    + rewrite (PutReqSpan_allocated m h tc spans _ Hspans). reflexivity.
Qed.

End TerminalFilters.

(** ** The extension factory *)

(** The two library functions on sample inputs: white space of one and of
    several bytes is removed at both ends and kept inside. *)
Lemma TrimSpace_samples :
  TrimSpace "  motan2 " = "motan2"
  /\ TrimSpace (String.append (bytes_of [9; 226; 128; 131]) "a b") = "a b"
  /\ TrimSpace (String.append "simple" (bytes_of [194; 160; 13; 10])) = "simple"
  /\ TrimSpace "   " = EmptyString
  /\ TrimSpace "simple" = "simple".
Proof. repeat split. Qed.

Lemma Itoa_samples :
  Itoa 0 = "0" /\ Itoa 6 = "6" /\ Itoa (-1) = "-1" /\ Itoa 1024 = "1024".
Proof. repeat split. Qed.

Section FactoryProperties.
Context {Urls : URLs} {Consts : Constants} {Plug : Plugins}.

Lemma Initialize_effect {R : Type} (s : instance) (r r' : R) (rt rt' : Runtime) :
  Initialize s (r, rt) = Returns (tt, (r', rt')) ->
  r' = r /\ log rt' = log rt
  /\ (events rt' = events rt \/ exists o, events rt' = events rt ++ [Initialized o]).
Proof.
  unfold Initialize. destruct s as [o|].
  - destruct (as_Initializable o) as [init|].
    + unfold record, call. run_go. destruct (init (world rt)) as [[[] w]|]; [|discriminate].
      intros [= <- <-]. simpl. eauto.
    + run_go. intros [= <- <-]. eauto.
  - run_go. intros [= <- <-]. eauto.
Qed.

Lemma GetRegistry_hit (url : URL) (d : DefaultExtensionFactory.t) (rt : Runtime) (r : instance) :
  DefaultExtensionFactory.registries d !! GetIdentity url = Some r ->
  DefaultExtensionFactory.GetRegistry url (d, rt) = Returns (r, (d, rt)).
Proof.
  intros Hr. unfold DefaultExtensionFactory.GetRegistry. run_go. rewrite Hr. reflexivity.
Qed.

Lemma GetRegistry_miss (url : URL) (d d' : DefaultExtensionFactory.t) (rt rt' : Runtime)
  (r : instance) :
  DefaultExtensionFactory.registries d !! GetIdentity url = None ->
  DefaultExtensionFactory.GetRegistry url (d, rt) = Returns (r, (d', rt')) ->
  (r = None /\ d' = d /\ events rt' = events rt)
  \/ (is_Some (DefaultExtensionFactory.registryFactories d !! Protocol url)
      /\ d' = DefaultExtensionFactory.set_registries d
                (<[GetIdentity url := r]> (DefaultExtensionFactory.registries d))
      /\ exists tail,
           events rt' = events rt ++ Invoked RRegistry (Protocol url) (Some url) :: tail
           /\ forall key, List.filter (is_registry_construction key) tail = []).
Proof.
  intros Hmiss. unfold DefaultExtensionFactory.GetRegistry. run_go. rewrite Hmiss. simpl.
  rewrite Hmiss. simpl.
  destruct (DefaultExtensionFactory.registryFactories d !! Protocol url) as [f|] eqn:Hf; simpl.
  - unfold record, call. simpl.
    destruct (f url (world rt)) as [[r0 w]|]; [|discriminate]. simpl.
    match goal with
    | |- context [Initialize r0 ?s] => destruct (Initialize r0 s) as [[[] [d1 rt1]]|] eqn:Hi
    end; [|discriminate].
    apply Initialize_effect in Hi. destruct Hi as (-> & Hlog & Hev). simpl in *.
    intros [= <- <- <-]. right. split; [eauto|]. split; [reflexivity|].
    destruct Hev as [Hev | [o Hev]]; rewrite Hev.
    + exists []. split; [reflexivity|]. reflexivity.
    + exists [Initialized o]. split; [rewrite <- app_assoc; reflexivity|]. reflexivity.
  - unfold logging. simpl. intros [= <- <- <-]. left. simpl. auto.
Qed.

Lemma registry_constructions_app (key : string) (evs evs' : list Event) :
  registry_constructions key (evs ++ evs') =
    registry_constructions key evs + registry_constructions key evs'.
Proof.
  unfold registry_constructions. rewrite List.filter_app, length_app. reflexivity.
Qed.

Lemma GetRegistry_keeps_entries (url : URL) (d d' : DefaultExtensionFactory.t)
  (rt rt' : Runtime) (r : instance) (key : string) (x : instance) :
  DefaultExtensionFactory.GetRegistry url (d, rt) = Returns (r, (d', rt')) ->
  DefaultExtensionFactory.registries d !! key = Some x ->
  DefaultExtensionFactory.registries d' !! key = Some x.
Proof.
  intros Hget Hx.
  destruct (DefaultExtensionFactory.registries d !! GetIdentity url) as [r0|] eqn:Hr.
  - rewrite (GetRegistry_hit url d rt r0 Hr) in Hget. injection Hget as <- <- <-. exact Hx.
  - destruct (GetRegistry_miss url d d' rt rt' r Hr Hget) as [(_ & -> & _) | (_ & -> & _)].
    + exact Hx.
    + simpl. rewrite lookup_insert_ne; [exact Hx|]. intros Heq. congruence.
Qed.

Lemma exec_keeps_entries (op : RegistryOp) (s s' : DefaultExtensionFactory.t * Runtime)
  (key : string) (x : instance) :
  exec op s = Returns (tt, s') ->
  DefaultExtensionFactory.registries (fst s) !! key = Some x ->
  DefaultExtensionFactory.registries (fst s') !! key = Some x.
Proof.
  destruct s as [d rt], s' as [d' rt']. destruct op as [url|name f]; simpl.
  - unfold bind, ret.
    destruct (DefaultExtensionFactory.GetRegistry url (d, rt)) as [[r [d1 rt1]]|] eqn:Hget;
      [|discriminate].
    intros [= <- <-]. eapply GetRegistry_keeps_entries; eassumption.
  - unfold DefaultExtensionFactory.RegistExtRegistry. run_go. intros [= <- <-]. auto.
Qed.

Lemma run_keeps_entries (ops : list RegistryOp) (s s' : DefaultExtensionFactory.t * Runtime)
  (key : string) (x : instance) :
  run ops s = Returns (tt, s') ->
  DefaultExtensionFactory.registries (fst s) !! key = Some x ->
  DefaultExtensionFactory.registries (fst s') !! key = Some x.
Proof.
  revert s. induction ops as [|op ops IH]; intros s; simpl.
  - unfold ret. intros [= <-]. auto.
  - unfold bind. destruct (exec op s) as [[[] s1]|] eqn:Hop; [|discriminate].
    intros Hrun Hx. eapply IH; [exact Hrun|]. eapply exec_keeps_entries; eassumption.
Qed.

Lemma GetRegistry_constructed_once (url : URL) (s s' : DefaultExtensionFactory.t * Runtime)
  (r : instance) :
  DefaultExtensionFactory.GetRegistry url s = Returns (r, s') ->
  constructed_once s -> constructed_once s'.
Proof.
  destruct s as [d rt], s' as [d' rt']. intros Hget Hinv.
  destruct (DefaultExtensionFactory.registries d !! GetIdentity url) as [r0|] eqn:Hr.
  - rewrite (GetRegistry_hit url d rt r0 Hr) in Hget. injection Hget as <- <- <-. exact Hinv.
  - destruct (GetRegistry_miss url d d' rt rt' r Hr Hget)
      as [(_ & -> & Hev) | (_ & -> & tail & Hev & Htail)].
    + intros key. simpl. rewrite Hev. apply Hinv.
    + intros key. simpl. rewrite Hev, registry_constructions_app.
      assert (Hone : registry_constructions key
                       (Invoked RRegistry (Protocol url) (Some url) :: tail) =
                     if String.eqb (GetIdentity url) key then 1 else 0).
      { unfold registry_constructions. simpl.
        destruct (String.eqb (GetIdentity url) key); simpl; rewrite Htail; reflexivity. }
      rewrite Hone. clear Hone.
      destruct (Hinv key) as [Hle Hzero]. simpl in Hle, Hzero.
      destruct (String.eqb (GetIdentity url) key) eqn:Heq.
      * apply String.eqb_eq in Heq. subst key. rewrite (Hzero Hr).
        split; [lia|]. rewrite lookup_insert_eq. discriminate.
      * apply String.eqb_neq in Heq. rewrite lookup_insert_ne by exact Heq.
        split; [lia|]. intros Hnone. rewrite (Hzero Hnone). reflexivity.
Qed.

Lemma run_constructed_once (ops : list RegistryOp) (s s' : DefaultExtensionFactory.t * Runtime) :
  run ops s = Returns (tt, s') ->
  constructed_once s -> constructed_once s'.
Proof.
  revert s. induction ops as [|op ops IH]; intros s; simpl.
  - unfold ret. intros [= <-]. auto.
  - unfold bind. destruct (exec op s) as [[[] s1]|] eqn:Hop; [|discriminate].
    intros Hrun Hinv. apply (IH s1 Hrun).
    destruct op as [url|name f]; simpl in Hop.
    + unfold bind, ret in Hop.
      destruct (DefaultExtensionFactory.GetRegistry url s) as [[r s2]|] eqn:Hget;
        [|discriminate].
      injection Hop as <-. eapply GetRegistry_constructed_once; eassumption.
    + unfold DefaultExtensionFactory.RegistExtRegistry in Hop. run_go.
      revert Hop. run_go. intros [= <-]. exact Hinv.
Qed.

Lemma constructed_once_initial (s : DefaultExtensionFactory.t * Runtime) :
  events (snd s) = [] -> constructed_once s.
Proof.
  intros Hnone key. rewrite Hnone. unfold registry_constructions. simpl.
  split; [lia | reflexivity].
Qed.

(** C1.  After a [GetRegistry] that returned a registry for a URL, every
    later [GetRegistry] for a URL of the same identity, whatever lookups
    and registrations of registry constructors happened in between,
    returns that same instance and changes nothing: no constructor is
    invoked and no event is recorded.  When the first call starts from a
    factory that has invoked nothing yet, the registry constructors have
    been invoked at most once per identity at the end of the run. *)
Theorem GetRegistry_singleton
  (url1 url2 : URL) (ops : list RegistryOp)
  (s0 s1 s2 : DefaultExtensionFactory.t * Runtime) (registry : loc) :
  GetIdentity url1 = GetIdentity url2 ->
  DefaultExtensionFactory.GetRegistry url1 s0 = Returns (Some registry, s1) ->
  run ops s1 = Returns (tt, s2) ->
  DefaultExtensionFactory.GetRegistry url2 s1 = Returns (Some registry, s1)
  /\ DefaultExtensionFactory.GetRegistry url2 s2 = Returns (Some registry, s2)
  /\ (events (snd s0) = [] ->
      forall key, registry_constructions key (events (snd s2)) <= 1).
Proof.
  intros Hid Hget Hrun.
  assert (Hentry : DefaultExtensionFactory.registries (fst s1) !! GetIdentity url1
                   = Some (Some registry)).
  { destruct s0 as [d rt], s1 as [d1 rt1].
    destruct (DefaultExtensionFactory.registries d !! GetIdentity url1) as [r0|] eqn:Hr.
    - rewrite (GetRegistry_hit url1 d rt r0 Hr) in Hget. injection Hget as -> <- <-.
      exact Hr.
    - destruct (GetRegistry_miss url1 d d1 rt rt1 _ Hr Hget) as [(Hnil & _) | (_ & -> & _)].
      + discriminate.
      + simpl. apply lookup_insert_eq. }
  split; [|split].
  - destruct s1 as [d1 rt1]. apply GetRegistry_hit. rewrite <- Hid. exact Hentry.
  - destruct s2 as [d2 rt2]. apply GetRegistry_hit. rewrite <- Hid.
    apply (run_keeps_entries ops s1 (d2, rt2)); assumption.
  - intros Hnone key.
    apply (run_constructed_once ops s1 s2 Hrun).
    eapply GetRegistry_constructed_once; [eassumption|].
    apply constructed_once_initial, Hnone.
Qed.

(** C8.  [GetProvider] takes the provider name from the URL's provider
    parameter when that is not empty; otherwise, when the proxy parameter
    is not empty, the name that [ParseExportInfo] reads from it; otherwise
    ["default"].  It invokes the constructor registered under that name on
    the URL and returns its result, and returns nil, after logging the
    miss, when none is registered. *)
Theorem GetProvider_resolution (url : URL) (s : DefaultExtensionFactory.t * Runtime) :
  let provider := GetParam url ProviderKey EmptyString in
  let proxy := GetParam url ProxyKey EmptyString in
  (provider <> EmptyString ->
   DefaultExtensionFactory.GetProvider url s = provider_from provider url s)
  /\ (provider = EmptyString -> proxy <> EmptyString ->
      DefaultExtensionFactory.GetProvider url s =
        provider_from (fst (fst (ParseExportInfo proxy))) url s)
  /\ (provider = EmptyString -> proxy = EmptyString ->
      DefaultExtensionFactory.GetProvider url s = provider_from "default" url s)
  /\ (forall name,
        DefaultExtensionFactory.providerFactories (fst s) !! name = None ->
        provider_from name url s =
          Returns (None,
                   (fst s,
                    {| world := world (snd s); events := events (snd s);
                       log := log (snd s) ++
                         [ {| level := "error";
                              format :=
                                line "provider name %s is not found in DefaultExtensionFactory!";
                              args := [name] |} ] |})))
  /\ (forall name (newProviderFunc : DefaultExtensionFactory.NewProviderFunc),
        DefaultExtensionFactory.providerFactories (fst s) !! name = Some newProviderFunc ->
        provider_from name url s =
          match newProviderFunc url (world (snd s)) with
          | Returns (p, w) =>
              Returns (p, (fst s,
                           {| world := w;
                              events := events (snd s) ++ [Invoked RProvider name (Some url)];
                              log := log (snd s) |}))
          | Panics r => Panics r
          end).
Proof.
  intros provider proxy. destruct s as [d rt].
  unfold DefaultExtensionFactory.GetProvider, provider_from.
  fold provider. fold proxy.
  split; [|split; [|split; [|split]]].
  - intros Hp. apply String.eqb_neq in Hp. rewrite Hp. run_go.
    destruct (DefaultExtensionFactory.providerFactories d !! provider); reflexivity.
  - intros Hp Hx. apply String.eqb_eq in Hp. apply String.eqb_neq in Hx.
    rewrite Hp, Hx. simpl.
    destruct (ParseExportInfo proxy) as [[name port] err]. run_go.
    destruct (DefaultExtensionFactory.providerFactories d !! name); reflexivity.
  - intros Hp Hx. apply String.eqb_eq in Hp. apply String.eqb_eq in Hx.
    rewrite Hp, Hx. run_go.
    destruct (DefaultExtensionFactory.providerFactories d !! "default"); reflexivity.
  - intros name Hnone. cbn [fst snd] in *. rewrite Hnone. reflexivity.
  - intros name f Hf. cbn [fst snd] in *. rewrite Hf. unfold record, call. run_go.
    destruct (f url (world rt)) as [[p w]|]; reflexivity.
Qed.

Lemma RegistryExtSerialization_returns (name : string) (id : Z)
  (f : DefaultExtensionFactory.NewSerializationFunc)
  (d : DefaultExtensionFactory.t) (rt : Runtime) :
  DefaultExtensionFactory.RegistryExtSerialization name id f (d, rt) =
    Returns (tt, (DefaultExtensionFactory.set_serializations d
                    (<[Itoa id := f]> (<[name := f]> (DefaultExtensionFactory.serializations d))),
                  rt)).
Proof. reflexivity. Qed.

Lemma GetSerialization_by_name (n : string) (anyId : Z)
  (f : DefaultExtensionFactory.NewSerializationFunc)
  (d : DefaultExtensionFactory.t) (rt : Runtime) :
  n <> EmptyString ->
  DefaultExtensionFactory.serializations d !! TrimSpace n = Some f ->
  DefaultExtensionFactory.GetSerialization n anyId (d, rt) =
    (do! record (Invoked RSerialization (TrimSpace n) None) in call f) (d, rt).
Proof.
  intros Hn Hf. apply String.eqb_neq in Hn.
  unfold DefaultExtensionFactory.GetSerialization.
  rewrite (bind_Returns _ _ (d, rt) (d, rt) d) by reflexivity.
  rewrite Hn. cbn [negb]. rewrite Hf. reflexivity.
Qed.

Lemma GetSerialization_by_id (id : Z)
  (f : DefaultExtensionFactory.NewSerializationFunc)
  (d : DefaultExtensionFactory.t) (rt : Runtime) :
  (0 <= id)%Z ->
  DefaultExtensionFactory.serializations d !! Itoa id = Some f ->
  DefaultExtensionFactory.GetSerialization EmptyString id (d, rt) =
    (do! record (Invoked RSerialization (Itoa id) None) in call f) (d, rt).
Proof.
  intros Hid Hf.
  unfold DefaultExtensionFactory.GetSerialization.
  rewrite (bind_Returns _ _ (d, rt) (d, rt) d) by reflexivity.
  cbn [String.eqb negb].
  replace (-1 <? id)%Z with true by (symmetry; apply Z.ltb_lt; lia).
  rewrite Hf. reflexivity.
Qed.

(** C10, amended.  [RegistryExtSerialization(name, id, f)] stores [f]
    under the name as given and under the decimal string of [id] and
    leaves every other key alone.  Afterwards [GetSerialization(name, _)]
    constructs with [f] when [name] is not empty and has no white space
    at either end, and [GetSerialization("", id)] constructs with [f] when
    [id] is not negative.  A later registration whose name or id string
    is one of the two keys replaces the constructor stored there, and
    leaves it alone otherwise. *)
Theorem RegistryExtSerialization_keys (name : string) (id : Z)
  (f : DefaultExtensionFactory.NewSerializationFunc)
  (d : DefaultExtensionFactory.t) (rt : Runtime) :
  exists d',
    DefaultExtensionFactory.RegistryExtSerialization name id f (d, rt) = Returns (tt, (d', rt))
    /\ DefaultExtensionFactory.serializations d' !! name = Some f
    /\ DefaultExtensionFactory.serializations d' !! Itoa id = Some f
    /\ (forall k, k <> name -> k <> Itoa id ->
          DefaultExtensionFactory.serializations d' !! k =
          DefaultExtensionFactory.serializations d !! k)
    /\ (forall rt' anyId, name <> EmptyString -> TrimSpace name = name ->
          DefaultExtensionFactory.GetSerialization name anyId (d', rt') =
            (do! record (Invoked RSerialization name None) in call f) (d', rt'))
    /\ (forall rt', (0 <= id)%Z ->
          DefaultExtensionFactory.GetSerialization EmptyString id (d', rt') =
            (do! record (Invoked RSerialization (Itoa id) None) in call f) (d', rt'))
    /\ (forall name2 id2 (g : DefaultExtensionFactory.NewSerializationFunc),
          exists d'',
            DefaultExtensionFactory.RegistryExtSerialization name2 id2 g (d', rt) =
              Returns (tt, (d'', rt))
            /\ (forall k, k = name2 \/ k = Itoa id2 ->
                  DefaultExtensionFactory.serializations d'' !! k = Some g)
            /\ (forall k, (k = name \/ k = Itoa id) -> k <> name2 -> k <> Itoa id2 ->
                  DefaultExtensionFactory.serializations d'' !! k = Some f)).
Proof.
  eexists. split; [apply RegistryExtSerialization_returns|].
  cbn [DefaultExtensionFactory.serializations DefaultExtensionFactory.set_serializations].
  assert (Hname : <[Itoa id := f]> (<[name := f]> (DefaultExtensionFactory.serializations d))
                    !! name = Some f).
  { rewrite lookup_insert. destruct (decide (Itoa id = name)); [reflexivity|].
    apply lookup_insert_eq. }
  assert (Hid : <[Itoa id := f]> (<[name := f]> (DefaultExtensionFactory.serializations d))
                  !! Itoa id = Some f) by apply lookup_insert_eq.
  split; [exact Hname|]. split; [exact Hid|].
  split; [|split; [|split]].
  - intros k Hk1 Hk2. rewrite !lookup_insert_ne by congruence. reflexivity.
  - intros rt' anyId Hne Htrim.
    rewrite (GetSerialization_by_name name anyId f _ rt' Hne).
    + rewrite Htrim. reflexivity.
    + rewrite Htrim. exact Hname.
  - intros rt' Hpos. apply GetSerialization_by_id; [exact Hpos|exact Hid].
  - intros name2 id2 g. eexists. split; [apply RegistryExtSerialization_returns|].
    cbn [DefaultExtensionFactory.serializations DefaultExtensionFactory.set_serializations].
    split.
    + intros k [-> | ->].
      * rewrite lookup_insert. destruct (decide (Itoa id2 = name2)); [reflexivity|].
        apply lookup_insert_eq.
      * apply lookup_insert_eq.
    + intros k Hk Hk1 Hk2. rewrite !(lookup_insert_ne _ _ k) by congruence.
      destruct Hk as [-> | ->]; assumption.
Qed.

End FactoryProperties.


(** * Further properties of the request and response model *)

Lemma response_GetAttachment_allocated (m : MotanResponse.t) (h : Heap) (a : loc)
  (am : gmap string string) (k : string) :
  MotanResponse.Attachment m = Some a ->
  stringMaps h !! a = Some am ->
  MotanResponse.GetAttachment k (m, h) = Returns (default EmptyString (am !! k), (m, h)).
Proof.
  intros Ha Ham. unfold MotanResponse.GetAttachment, StringMap.LoadOrEmpty. run_go.
  rewrite Ha. simpl. rewrite Ham. reflexivity.
Qed.

Lemma request_GetAttachments_present (m : MotanRequest.t) (h : Heap) (a : loc) :
  MotanRequest.Attachment m = Some a ->
  MotanRequest.GetAttachments (m, h) = Returns (a, (m, h)).
Proof.
  intros Ha. unfold MotanRequest.GetAttachments. run_go. rewrite Ha. reflexivity.
Qed.

Lemma request_GetAttachments_create (m : MotanRequest.t) (h : Heap) :
  MotanRequest.Attachment m = None ->
  MotanRequest.GetAttachments (m, h) =
    Returns (fresh (dom (stringMaps h)),
             (MotanRequest.set_Attachment m (Some (fresh (dom (stringMaps h)))),
              set_stringMaps h (<[fresh (dom (stringMaps h)) := ∅]> (stringMaps h)))).
Proof.
  intros Ha. unfold MotanRequest.GetAttachments, StringMap.NewStringMap. run_go.
  rewrite Ha. simpl. rewrite Ha. reflexivity.
Qed.

Lemma response_GetAttachments_present (m : MotanResponse.t) (h : Heap) (a : loc) :
  MotanResponse.Attachment m = Some a ->
  MotanResponse.GetAttachments (m, h) = Returns (a, (m, h)).
Proof.
  intros Ha. unfold MotanResponse.GetAttachments. run_go. rewrite Ha. reflexivity.
Qed.

Lemma response_GetAttachments_create (m : MotanResponse.t) (h : Heap) :
  MotanResponse.Attachment m = None ->
  MotanResponse.GetAttachments (m, h) =
    Returns (fresh (dom (stringMaps h)),
             (MotanResponse.set_Attachment m (Some (fresh (dom (stringMaps h)))),
              set_stringMaps h (<[fresh (dom (stringMaps h)) := ∅]> (stringMaps h)))).
Proof.
  intros Ha. unfold MotanResponse.GetAttachments, StringMap.NewStringMap. run_go.
  rewrite Ha. simpl. rewrite Ha. reflexivity.
Qed.

(** X1.  [GetAttachments] never returns nil and creates the map at most
    once: on a request or response without a map it allocates an empty map
    at a location that was free, stores it in the receiver and leaves every
    other map, context and trace alone; on a receiver that has a map it
    returns that map and changes nothing.  In both cases every later call
    returns the same map and changes nothing. *)
Theorem GetAttachments_lazy_once (req : MotanRequest.t) (res : MotanResponse.t) (h : Heap) :
  (exists a req' h',
     MotanRequest.GetAttachments (req, h) = Returns (a, (req', h'))
     /\ MotanRequest.Attachment req' = Some a
     /\ MotanRequest.GetAttachments (req', h') = Returns (a, (req', h'))
     /\ (forall a0, MotanRequest.Attachment req = Some a0 -> a = a0 /\ req' = req /\ h' = h)
     /\ (MotanRequest.Attachment req = None ->
         stringMaps h !! a = None
         /\ stringMaps h' = <[a := ∅]> (stringMaps h)
         /\ contexts h' = contexts h /\ traceContexts h' = traceContexts h
         /\ req' = MotanRequest.set_Attachment req (Some a)))
  /\ (exists a res' h',
        MotanResponse.GetAttachments (res, h) = Returns (a, (res', h'))
        /\ MotanResponse.Attachment res' = Some a
        /\ MotanResponse.GetAttachments (res', h') = Returns (a, (res', h'))
        /\ (forall a0, MotanResponse.Attachment res = Some a0 -> a = a0 /\ res' = res /\ h' = h)
        /\ (MotanResponse.Attachment res = None ->
            stringMaps h !! a = None
            /\ stringMaps h' = <[a := ∅]> (stringMaps h)
            /\ contexts h' = contexts h /\ traceContexts h' = traceContexts h
            /\ res' = MotanResponse.set_Attachment res (Some a))).
Proof.
  split.
  - destruct (MotanRequest.Attachment req) as [a0|] eqn:Ha.
    + exists a0, req, h. split; [apply request_GetAttachments_present, Ha|].
      split; [exact Ha|]. split; [apply request_GetAttachments_present, Ha|].
      split; [intros a1 [= <-]; auto | discriminate].
    + eexists _, _, _. split; [apply request_GetAttachments_create, Ha|].
      split; [reflexivity|].
      split; [apply request_GetAttachments_present; reflexivity|].
      split; [discriminate|]. intros _.
      split; [apply fresh_stringMap_unallocated|]. repeat split.
  - destruct (MotanResponse.Attachment res) as [a0|] eqn:Ha.
    + exists a0, res, h. split; [apply response_GetAttachments_present, Ha|].
      split; [exact Ha|]. split; [apply response_GetAttachments_present, Ha|].
      split; [intros a1 [= <-]; auto | discriminate].
    + eexists _, _, _. split; [apply response_GetAttachments_create, Ha|].
      split; [reflexivity|].
      split; [apply response_GetAttachments_present; reflexivity|].
      split; [discriminate|]. intros _.
      split; [apply fresh_stringMap_unallocated|]. repeat split.
Qed.

Lemma request_SetAttachment_returns (m : MotanRequest.t) (h : Heap) (key val : string) :
  (forall a, MotanRequest.Attachment m = Some a -> is_Some (stringMaps h !! a)) ->
  exists a am m' h',
    MotanRequest.SetAttachment key val (m, h) = Returns (tt, (m', h'))
    /\ MotanRequest.Attachment m' = Some a
    /\ stringMaps h' = <[a := <[key := val]> am]> (stringMaps h)
    /\ contexts h' = contexts h /\ traceContexts h' = traceContexts h
    /\ m' = MotanRequest.set_Attachment m (Some a)
    /\ (is_Some (MotanRequest.Attachment m) -> m' = m)
    /\ match MotanRequest.Attachment m with
       | Some a0 => a = a0 /\ stringMaps h !! a = Some am
       | None => stringMaps h !! a = None /\ am = ∅
       end.
Proof.
  intros Hall. unfold MotanRequest.SetAttachment.
  destruct (MotanRequest.Attachment m) as [a0|] eqn:Ha.
  - destruct (Hall a0 eq_refl) as [am Ham].
    exists a0, am, m. eexists.
    rewrite (bind_Returns _ _ _ _ _ (request_GetAttachments_present m h a0 Ha)).
    unfold StringMap.Store. run_go. rewrite Ham.
    assert (Hm : m = MotanRequest.set_Attachment m (Some a0))
      by (unfold MotanRequest.set_Attachment; rewrite <- Ha; destruct m; reflexivity).
    split; [reflexivity|]. split; [exact Ha|]. repeat split; try assumption.
  - eexists (fresh (dom (stringMaps h))), ∅, _, _.
    rewrite (bind_Returns _ _ _ _ _ (request_GetAttachments_create m h Ha)).
    unfold StringMap.Store. run_go. rewrite lookup_insert_eq.
    split; [reflexivity|]. split; [reflexivity|].
    split; [simpl; apply insert_insert_eq|].
    split; [reflexivity|]. split; [reflexivity|]. split; [reflexivity|].
    split; [intros [x Hx]; discriminate Hx|].
    split; [apply fresh_stringMap_unallocated | reflexivity].
Qed.

Lemma response_SetAttachment_returns (m : MotanResponse.t) (h : Heap) (key val : string) :
  (forall a, MotanResponse.Attachment m = Some a -> is_Some (stringMaps h !! a)) ->
  exists a am m' h',
    MotanResponse.SetAttachment key val (m, h) = Returns (tt, (m', h'))
    /\ MotanResponse.Attachment m' = Some a
    /\ stringMaps h' = <[a := <[key := val]> am]> (stringMaps h)
    /\ contexts h' = contexts h /\ traceContexts h' = traceContexts h
    /\ m' = MotanResponse.set_Attachment m (Some a)
    /\ (is_Some (MotanResponse.Attachment m) -> m' = m)
    /\ match MotanResponse.Attachment m with
       | Some a0 => a = a0 /\ stringMaps h !! a = Some am
       | None => stringMaps h !! a = None /\ am = ∅
       end.
Proof.
  intros Hall. unfold MotanResponse.SetAttachment.
  destruct (MotanResponse.Attachment m) as [a0|] eqn:Ha.
  - destruct (Hall a0 eq_refl) as [am Ham].
    exists a0, am, m. eexists.
    rewrite (bind_Returns _ _ _ _ _ (response_GetAttachments_present m h a0 Ha)).
    unfold StringMap.Store. run_go. rewrite Ham.
    assert (Hm : m = MotanResponse.set_Attachment m (Some a0))
      by (unfold MotanResponse.set_Attachment; rewrite <- Ha; destruct m; reflexivity).
    split; [reflexivity|]. split; [exact Ha|]. repeat split; try assumption.
  - eexists (fresh (dom (stringMaps h))), ∅, _, _.
    rewrite (bind_Returns _ _ _ _ _ (response_GetAttachments_create m h Ha)).
    unfold StringMap.Store. run_go. rewrite lookup_insert_eq.
    split; [reflexivity|]. split; [reflexivity|].
    split; [simpl; apply insert_insert_eq|].
    split; [reflexivity|]. split; [reflexivity|]. split; [reflexivity|].
    split; [intros [x Hx]; discriminate Hx|].
    split; [apply fresh_stringMap_unallocated | reflexivity].
Qed.

Lemma request_attachment_round_trip (m : MotanRequest.t) (h : Heap) (key val : string) :
  (forall a, MotanRequest.Attachment m = Some a -> is_Some (stringMaps h !! a)) ->
  exists m' h',
    MotanRequest.SetAttachment key val (m, h) = Returns (tt, (m', h'))
    /\ MotanRequest.GetAttachment key (m', h') = Returns (val, (m', h'))
    /\ (forall k, k <> key ->
          exists v, MotanRequest.GetAttachment k (m, h) = Returns (v, (m, h))
                    /\ MotanRequest.GetAttachment k (m', h') = Returns (v, (m', h')))
    /\ (forall a, MotanRequest.Attachment m' = Some a -> is_Some (stringMaps h' !! a))
    /\ is_Some (MotanRequest.Attachment m')
    /\ MotanRequest.Arguments m' = MotanRequest.Arguments m
    /\ MotanRequest.RPCContext m' = MotanRequest.RPCContext m.
Proof.
  intros Hall.
  destruct (request_SetAttachment_returns m h key val Hall)
    as (a & am & m' & h' & Hset & Ha' & Hmaps & _ & _ & Hm' & _ & Hold).
  assert (Hlook : stringMaps h' !! a = Some (<[key := val]> am))
    by (rewrite Hmaps; apply lookup_insert_eq).
  exists m', h'. split; [exact Hset|]. split.
  { rewrite (GetAttachment_allocated m' h' a _ key Ha' Hlook), lookup_insert_eq.
    reflexivity. }
  split.
  { intros k Hk. exists (default EmptyString (am !! k)). split.
    - destruct (MotanRequest.Attachment m) as [a0|] eqn:Ha.
      + destruct Hold as [-> Ham]. apply (GetAttachment_allocated m h a0 am k Ha Ham).
      + destruct Hold as [_ ->]. unfold MotanRequest.GetAttachment. run_go.
        rewrite Ha. reflexivity.
    - rewrite (GetAttachment_allocated m' h' a _ k Ha' Hlook).
      rewrite lookup_insert_ne by congruence. reflexivity. }
  split.
  { intros a1 Ha1. rewrite Ha' in Ha1. injection Ha1 as <-. eauto. }
  split; [eauto|].
  subst m'. split; reflexivity.
Qed.

Lemma response_attachment_round_trip (m : MotanResponse.t) (h : Heap) (key val : string) :
  (forall a, MotanResponse.Attachment m = Some a -> is_Some (stringMaps h !! a)) ->
  exists m' h',
    MotanResponse.SetAttachment key val (m, h) = Returns (tt, (m', h'))
    /\ MotanResponse.GetAttachment key (m', h') = Returns (val, (m', h'))
    /\ (forall k, k <> key ->
          exists v, MotanResponse.GetAttachment k (m, h) = Returns (v, (m, h))
                    /\ MotanResponse.GetAttachment k (m', h') = Returns (v, (m', h')))
    /\ (forall a, MotanResponse.Attachment m' = Some a -> is_Some (stringMaps h' !! a))
    /\ is_Some (MotanResponse.Attachment m')
    /\ MotanResponse.Value m' = MotanResponse.Value m
    /\ MotanResponse.RPCContext m' = MotanResponse.RPCContext m.
Proof.
  intros Hall.
  destruct (response_SetAttachment_returns m h key val Hall)
    as (a & am & m' & h' & Hset & Ha' & Hmaps & _ & _ & Hm' & _ & Hold).
  assert (Hlook : stringMaps h' !! a = Some (<[key := val]> am))
    by (rewrite Hmaps; apply lookup_insert_eq).
  exists m', h'. split; [exact Hset|]. split.
  { rewrite (response_GetAttachment_allocated m' h' a _ key Ha' Hlook), lookup_insert_eq.
    reflexivity. }
  split.
  { intros k Hk. exists (default EmptyString (am !! k)). split.
    - destruct (MotanResponse.Attachment m) as [a0|] eqn:Ha.
      + destruct Hold as [-> Ham].
        apply (response_GetAttachment_allocated m h a0 am k Ha Ham).
      + destruct Hold as [_ ->]. unfold MotanResponse.GetAttachment. run_go.
        rewrite Ha. reflexivity.
    - rewrite (response_GetAttachment_allocated m' h' a _ k Ha' Hlook).
      rewrite lookup_insert_ne by congruence. reflexivity. }
  split.
  { intros a1 Ha1. rewrite Ha' in Ha1. injection Ha1 as <-. eauto. }
  split; [eauto|].
  subst m'. split; reflexivity.
Qed.

(** X2.  [SetAttachment] followed by [GetAttachment] of the same key
    returns the value stored, on a request and on a response, whether the
    attachment map existed or is created by the store; every other key
    reads as before (the empty string where there was no map), the
    receiver's other fields are untouched, and the state after the store
    again admits a store, so that a second store under the key replaces
    the value. *)
Theorem attachment_round_trip
  (req : MotanRequest.t) (res : MotanResponse.t) (h : Heap) (key val val2 : string) :
  ((forall a, MotanRequest.Attachment req = Some a -> is_Some (stringMaps h !! a)) ->
   exists req' h' h'',
     MotanRequest.SetAttachment key val (req, h) = Returns (tt, (req', h'))
     /\ MotanRequest.GetAttachment key (req', h') = Returns (val, (req', h'))
     /\ (forall k, k <> key ->
           exists v, MotanRequest.GetAttachment k (req, h) = Returns (v, (req, h))
                     /\ MotanRequest.GetAttachment k (req', h') = Returns (v, (req', h')))
     /\ MotanRequest.Arguments req' = MotanRequest.Arguments req
     /\ MotanRequest.RPCContext req' = MotanRequest.RPCContext req
     /\ MotanRequest.SetAttachment key val2 (req', h') = Returns (tt, (req', h''))
     /\ MotanRequest.GetAttachment key (req', h'') = Returns (val2, (req', h'')))
  /\ ((forall a, MotanResponse.Attachment res = Some a -> is_Some (stringMaps h !! a)) ->
      exists res' h' h'',
        MotanResponse.SetAttachment key val (res, h) = Returns (tt, (res', h'))
        /\ MotanResponse.GetAttachment key (res', h') = Returns (val, (res', h'))
        /\ (forall k, k <> key ->
              exists v, MotanResponse.GetAttachment k (res, h) = Returns (v, (res, h))
                        /\ MotanResponse.GetAttachment k (res', h') = Returns (v, (res', h')))
        /\ MotanResponse.Value res' = MotanResponse.Value res
        /\ MotanResponse.RPCContext res' = MotanResponse.RPCContext res
        /\ MotanResponse.SetAttachment key val2 (res', h') = Returns (tt, (res', h''))
        /\ MotanResponse.GetAttachment key (res', h'') = Returns (val2, (res', h''))).
Proof.
  split; intros Hall.
  - destruct (request_attachment_round_trip req h key val Hall)
      as (req' & h' & Hset & Hget & Hother & Hall' & Hall'' & Hargs & Hctx).
    destruct Hall'' as [a0 Ha0].
    destruct (request_SetAttachment_returns req' h' key val2 Hall')
      as (a & am & req'' & h'' & Hset2 & Ha2 & Hmaps2 & _ & _ & _ & Hsame & _).
    rewrite (Hsame (ex_intro _ a0 Ha0)) in Hset2, Ha2.
    exists req', h', h''. repeat (split; [assumption|]).
    rewrite (GetAttachment_allocated req' h'' a (<[key := val2]> am) key Ha2).
    + rewrite lookup_insert_eq. reflexivity.
    + rewrite Hmaps2. apply lookup_insert_eq.
  - destruct (response_attachment_round_trip res h key val Hall)
      as (res' & h' & Hset & Hget & Hother & Hall' & Hall'' & Hval & Hctx).
    destruct Hall'' as [a0 Ha0].
    destruct (response_SetAttachment_returns res' h' key val2 Hall')
      as (a & am & res'' & h'' & Hset2 & Ha2 & Hmaps2 & _ & _ & _ & Hsame & _).
    rewrite (Hsame (ex_intro _ a0 Ha0)) in Hset2, Ha2.
    exists res', h', h''. repeat (split; [assumption|]).
    rewrite (response_GetAttachment_allocated res' h'' a (<[key := val2]> am) key Ha2).
    + rewrite lookup_insert_eq. reflexivity.
    + rewrite Hmaps2. apply lookup_insert_eq.
Qed.

(** X3.  [ProcessDeserializable] of a response: a nil value, or a value
    that is not a [DeserializableValue], is left alone and nil is returned;
    a [DeserializableValue] without [Serialization] gives the error naming
    the missing serialization and the response is unchanged; otherwise the
    body and [toType] go to [DeSerialize], whose value replaces the
    response's value on success and whose error is returned, with the
    response unchanged, on failure. *)
Theorem ProcessDeserializable_response {Objs : Objects}
  (m : MotanResponse.t) (h : Heap) (toType : value) :
  (forall d, MotanResponse.Value m = VDeserializableValue d ->
     match Serialization d with
     | None =>
         MotanResponse.ProcessDeserializable toType (m, h) =
           Returns (Some "deserialize fail in DeserializableValue, Serialization is nil",
                    (m, h))
     | Some s =>
         match DeSerialize s (Body d) toType with
         | (v, None) =>
             MotanResponse.ProcessDeserializable toType (m, h) =
               Returns (None, (MotanResponse.set_Value m v, h))
             /\ MotanResponse.GetValue (MotanResponse.set_Value m v, h) =
                  Returns (v, (MotanResponse.set_Value m v, h))
         | (_, Some e) =>
             MotanResponse.ProcessDeserializable toType (m, h) = Returns (Some e, (m, h))
         end
     end)
  /\ ((forall d, MotanResponse.Value m <> VDeserializableValue d) ->
      MotanResponse.ProcessDeserializable toType (m, h) = Returns (None, (m, h))).
Proof.
  split.
  - intros d Hv.
    unfold MotanResponse.ProcessDeserializable, MotanResponse.GetValue, Deserialize.
    run_go. rewrite Hv. simpl. rewrite ?Hv. simpl.
    destruct (Serialization d) as [s|]; [|reflexivity].
    destruct (DeSerialize s (Body d) toType) as [v [e|]]; simpl.
    + reflexivity.
    + split; reflexivity.
  - intros Hnd.
    unfold MotanResponse.ProcessDeserializable, MotanResponse.GetValue.
    run_go.
    destruct (MotanResponse.Value m) as [| | | | |d|] eqn:Hv; simpl; rewrite ?Hv; simpl;
      try reflexivity.
    exfalso. eapply Hnd. reflexivity.
Qed.

(** X4.  [Clone] reads and allocates, it never writes to what exists: the
    receiver is unchanged, every attachment map and context that was on the
    heap is there unchanged afterwards, and the trace contexts are
    untouched.  The clone has the receiver's id, service, method, method
    descriptor and arguments; it has an attachment map exactly when the
    receiver has one and a context exactly when the receiver has one, each
    at a location that was free before. *)
Theorem Clone_frame {Objs : Objects} (m : MotanRequest.t) (h : Heap) :
  (forall a, MotanRequest.Attachment m = Some a -> is_Some (stringMaps h !! a)) ->
  (forall c, MotanRequest.RPCContext m = Some c -> is_Some (contexts h !! c)) ->
  exists clone h',
    MotanRequest.Clone (m, h) = Returns (clone, (m, h'))
    /\ MotanRequest.RequestID clone = MotanRequest.RequestID m
    /\ MotanRequest.ServiceName clone = MotanRequest.ServiceName m
    /\ MotanRequest.Method clone = MotanRequest.Method m
    /\ MotanRequest.MethodDesc clone = MotanRequest.MethodDesc m
    /\ MotanRequest.Arguments clone = MotanRequest.Arguments m
    /\ (forall l x, stringMaps h !! l = Some x -> stringMaps h' !! l = Some x)
    /\ (forall l x, contexts h !! l = Some x -> contexts h' !! l = Some x)
    /\ traceContexts h' = traceContexts h
    /\ (is_Some (MotanRequest.Attachment clone) <-> is_Some (MotanRequest.Attachment m))
    /\ (is_Some (MotanRequest.RPCContext clone) <-> is_Some (MotanRequest.RPCContext m))
    /\ (forall a, MotanRequest.Attachment clone = Some a ->
          stringMaps h !! a = None /\ is_Some (stringMaps h' !! a))
    /\ (forall c, MotanRequest.RPCContext clone = Some c ->
          contexts h !! c = None /\ is_Some (contexts h' !! c))
    /\ (MotanRequest.Attachment m = None -> stringMaps h' = stringMaps h)
    /\ (MotanRequest.RPCContext m = None -> contexts h' = contexts h).
Proof.
  intros Ha Hc.
  destruct (Clone_returns m h Ha Hc)
    as (clone & h' & Hclone & H1 & H2 & H3 & H4 & H5 & H6 & Hatt & Hctx).
  exists clone, h'. do 6 (split; [assumption|]).
  assert (Hmaps : (forall l x, stringMaps h !! l = Some x -> stringMaps h' !! l = Some x)
                  /\ (is_Some (MotanRequest.Attachment clone)
                      <-> is_Some (MotanRequest.Attachment m))
                  /\ (forall a, MotanRequest.Attachment clone = Some a ->
                        stringMaps h !! a = None /\ is_Some (stringMaps h' !! a))
                  /\ (MotanRequest.Attachment m = None -> stringMaps h' = stringMaps h)).
  { destruct (MotanRequest.Attachment m) as [a|].
    - destruct Hatt as (a' & Ha' & Hfree & Hmap). rewrite Hmap, Ha'.
      split; [intros l x Hl; rewrite lookup_insert_ne; [exact Hl | congruence]|].
      split; [split; eauto|].
      split; [|discriminate].
      intros a0 [= <-]. split; [exact Hfree | rewrite lookup_insert_eq; eauto].
    - destruct Hatt as (Hnone & Hmap). rewrite Hmap, Hnone.
      split; [auto|]. split; [split; intros [x Hx]; discriminate Hx|].
      split; [discriminate | reflexivity]. }
  assert (Hctxs : (forall l x, contexts h !! l = Some x -> contexts h' !! l = Some x)
                  /\ (is_Some (MotanRequest.RPCContext clone)
                      <-> is_Some (MotanRequest.RPCContext m))
                  /\ (forall c, MotanRequest.RPCContext clone = Some c ->
                        contexts h !! c = None /\ is_Some (contexts h' !! c))
                  /\ (MotanRequest.RPCContext m = None -> contexts h' = contexts h)).
  { destruct (MotanRequest.RPCContext m) as [c|].
    - destruct Hctx as (c' & new & Hc' & Hfree & Hmap & _). rewrite Hmap, Hc'.
      split; [intros l x Hl; rewrite lookup_insert_ne; [exact Hl | congruence]|].
      split; [split; eauto|].
      split; [|discriminate].
      intros c0 [= <-]. split; [exact Hfree | rewrite lookup_insert_eq; eauto].
    - destruct Hctx as (Hnone & Hmap). rewrite Hmap, Hnone.
      split; [auto|]. split; [split; intros [x Hx]; discriminate Hx|].
      split; [discriminate | reflexivity]. }
  destruct Hmaps as (M1 & M2 & M3 & M4). destruct Hctxs as (C1 & C2 & C3 & C4).
  repeat (split; [assumption|]). assumption.
Qed.

(** X5.  Clone independence in the other direction and for a request
    without attachment map.  After [Clone], a [SetAttachment] on the
    original is read back from the original and leaves every attachment
    value of the clone as it was; and when the original had no map, a
    [SetAttachment] on the clone creates a map of the clone's own: it is
    read back from the clone while the original still answers the empty
    string for every key. *)
Theorem Clone_attachments_independent_both_ways {Objs : Objects}
  (m : MotanRequest.t) (h : Heap) (key val : string) :
  (forall a, MotanRequest.Attachment m = Some a -> is_Some (stringMaps h !! a)) ->
  (forall c, MotanRequest.RPCContext m = Some c -> is_Some (contexts h !! c)) ->
  exists clone h1,
    MotanRequest.Clone (m, h) = Returns (clone, (m, h1))
    /\ (exists m' h2,
          MotanRequest.SetAttachment key val (m, h1) = Returns (tt, (m', h2))
          /\ MotanRequest.GetAttachment key (m', h2) = Returns (val, (m', h2))
          /\ forall k,
               exists v, MotanRequest.GetAttachment k (clone, h1) = Returns (v, (clone, h1))
                         /\ MotanRequest.GetAttachment k (clone, h2) = Returns (v, (clone, h2)))
    /\ (MotanRequest.Attachment m = None ->
        exists clone' h2,
          MotanRequest.SetAttachment key val (clone, h1) = Returns (tt, (clone', h2))
          /\ MotanRequest.GetAttachment key (clone', h2) = Returns (val, (clone', h2))
          /\ forall k, MotanRequest.GetAttachment k (m, h2) = Returns (EmptyString, (m, h2))).
Proof.
  intros Ha Hc.
  destruct (Clone_returns m h Ha Hc)
    as (clone & h1 & Hclone & _ & _ & _ & _ & _ & _ & Hatt & _).
  exists clone, h1. split; [exact Hclone|]. split.
  - assert (Ha1 : forall a, MotanRequest.Attachment m = Some a -> is_Some (stringMaps h1 !! a)).
    { intros a Hma. destruct (Ha a Hma) as [am Ham]. rewrite Hma in Hatt.
      destruct Hatt as (a' & _ & Hfree & Hmap). rewrite Hmap.
      rewrite lookup_insert_ne by (intros ->; congruence). eauto. }
    destruct (request_SetAttachment_returns m h1 key val Ha1)
      as (a & am & m' & h2 & Hset & Ha' & Hmaps & _ & _ & _ & _ & Hold).
    exists m', h2. split; [exact Hset|]. split.
    { rewrite (GetAttachment_allocated m' h2 a (<[key := val]> am) key Ha').
      - rewrite lookup_insert_eq. reflexivity.
      - rewrite Hmaps. apply lookup_insert_eq. }
    intros k. destruct (MotanRequest.Attachment m) as [a0|] eqn:Hma.
    + destruct Hatt as (a' & Hca & Hfree & Hmap). destruct Hold as [-> Ham0].
      destruct (Ha a0 eq_refl) as [am0 Ham].
      assert (Hne : a' <> a0) by (intros ->; congruence).
      assert (H1a' : stringMaps h1 !! a' = Some am0).
      { rewrite Hmap, Ham. simpl. apply lookup_insert_eq. }
      exists (default EmptyString (am0 !! k)). split.
      * apply (GetAttachment_allocated clone h1 a' am0 k Hca H1a').
      * apply (GetAttachment_allocated clone h2 a' am0 k Hca).
        rewrite Hmaps, lookup_insert_ne by congruence. exact H1a'.
    + destruct Hatt as (Hcn & _). exists EmptyString.
      unfold MotanRequest.GetAttachment. run_go. rewrite Hcn. split; reflexivity.
  - intros Hnone. rewrite Hnone in Hatt. destruct Hatt as (Hcn & Hmap).
    destruct (request_SetAttachment_returns clone h1 key val)
      as (a & am & clone' & h2 & Hset & Ha' & Hmaps & _ & _ & _ & _ & _).
    { intros a Hca. congruence. }
    exists clone', h2. split; [exact Hset|]. split.
    { rewrite (GetAttachment_allocated clone' h2 a (<[key := val]> am) key Ha').
      - rewrite lookup_insert_eq. reflexivity.
      - rewrite Hmaps. apply lookup_insert_eq. }
    intros k. unfold MotanRequest.GetAttachment. run_go. rewrite Hnone. reflexivity.
Qed.

(** * Further properties of the filter endpoint *)

Section AvailabilityEdges.
Context {Urls : URLs}.


End AvailabilityEdges.

Section EndPointCall.
Context {Urls : URLs} {Consts : Constants}.
Variable dispatch : Filter -> option Caller -> Go (MotanRequest.t * Heap) Response.
Variable nil_address : outcome string.





End EndPointCall.

(** * Further properties of the extension factory *)

Section FactoryLookups.
Context {Urls : URLs} {Consts : Constants} {Plug : Plugins}.

Lemma grows_refl (rt : Runtime) : grows rt rt.
Proof. split; reflexivity. Qed.

Lemma grows_trans (rt1 rt2 rt3 : Runtime) : grows rt1 rt2 -> grows rt2 rt3 -> grows rt1 rt3.
Proof. intros [E1 L1] [E2 L2]. split; etransitivity; eassumption. Qed.

Lemma invoked_effect {R : Type} (e : Event) (c : Go World instance)
  (d d' : R) (rt rt' : Runtime) (r : instance) :
  (do! record e in call c) (d, rt) = Returns (r, (d', rt')) ->
  d' = d /\ events rt' = events rt ++ [e] /\ log rt' = log rt
  /\ c (world rt) = Returns (r, world rt').
Proof.
  unfold record, call. run_go. destruct (c (world rt)) as [[r0 w]|]; [|discriminate].
  intros [= <- <- <-]. simpl. auto.
Qed.

Lemma invoked_initialized_effect {R : Type} (e : Event) (c : Go World instance)
  (d d' : R) (rt rt' : Runtime) (r : instance) :
  (do! record e in let! s := call c in do! Initialize s in ret s) (d, rt) =
    Returns (r, (d', rt')) ->
  d' = d /\ log rt' = log rt
  /\ (events rt' = events rt ++ [e]
      \/ exists o, r = Some o /\ events rt' = events rt ++ [e; Initialized o]).
Proof.
  unfold record, call. run_go. destruct (c (world rt)) as [[r0 w]|]; [|discriminate].
  simpl.
  match goal with
  | |- context [Initialize r0 ?s] => destruct (Initialize r0 s) as [[[] [d1 rt1]]|] eqn:Hi
  end; [|discriminate].
  intros [= <- <- <-].
  unfold Initialize in Hi. destruct r0 as [o|].
  - destruct (as_Initializable o) as [init|].
    + revert Hi. unfold record, call. run_go.
      destruct (init w) as [[[] w']|]; [|discriminate].
      intros [= <- <-]. simpl. split; [reflexivity|]. split; [reflexivity|].
      right. exists o. rewrite <- app_assoc. auto.
    + revert Hi. run_go. intros [= <- <-]. simpl. auto.
  - revert Hi. run_go. intros [= <- <-]. simpl. auto.
Qed.

Lemma logged_effect {R : Type} (c : Go (list LogEntry) unit) (d d' : R)
  (rt rt' : Runtime) (r : instance) :
  (do! logging c in ret None) (d, rt) = Returns (r, (d', rt')) ->
  (forall l, exists l', c l = Returns (tt, l ++ l')) ->
  r = None /\ d' = d /\ events rt' = events rt /\ world rt' = world rt
  /\ log rt `prefix_of` log rt'.
Proof.
  intros Hrun Hc. destruct (Hc (log rt)) as [l' Hl']. revert Hrun.
  unfold logging. run_go. rewrite Hl'. intros [= <- <- <-]. simpl.
  repeat split. exists l'. reflexivity.
Qed.

Lemma Errorf_appends (fmt : string) (a : list string) (l : list LogEntry) :
  exists l', vlog_Errorf fmt a l = Returns (tt, l ++ l').
Proof. eexists. reflexivity. Qed.

Lemma grows_of (rt rt' : Runtime) (evs : list Event) :
  events rt' = events rt ++ evs -> log rt' = log rt -> grows rt rt'.
Proof. intros He Hl. split; [exists evs; exact He | rewrite Hl; reflexivity]. Qed.

Lemma grows_of_log (rt rt' : Runtime) :
  events rt' = events rt -> log rt `prefix_of` log rt' -> grows rt rt'.
Proof. intros He Hl. split; [rewrite He; reflexivity | exact Hl]. Qed.

(** A getter other than [GetRegistry] returns the factory it was given. *)
Lemma perform_plain_effect (q : Lookup) (d d' : DefaultExtensionFactory.t)
  (rt rt' : Runtime) (r : instance) :
  is_registry_lookup q = false ->
  perform q (d, rt) = Returns (r, (d', rt')) ->
  d' = d /\ grows rt rt'.
Proof.
  intros Hq. destruct q as [url|url|name|url|url|url|url|name|name id];
    try discriminate Hq; clear Hq; simpl.
  - unfold DefaultExtensionFactory.GetHa.
    rewrite (bind_Returns _ _ (d, rt) (d, rt) d) by reflexivity.
    destruct (DefaultExtensionFactory.haFactories d !! _) as [f|]; intros Hrun.
    + apply invoked_effect in Hrun. destruct Hrun as (-> & He & Hl & _).
      split; [reflexivity | eapply grows_of; eassumption].
    + apply logged_effect in Hrun; [|intros l; apply Errorf_appends].
      destruct Hrun as (_ & -> & He & _ & Hl).
      split; [reflexivity | apply grows_of_log; assumption].
  - unfold DefaultExtensionFactory.GetLB.
    rewrite (bind_Returns _ _ (d, rt) (d, rt) d) by reflexivity.
    destruct (DefaultExtensionFactory.lbFactories d !! _) as [f|]; intros Hrun.
    + apply invoked_effect in Hrun. destruct Hrun as (-> & He & Hl & _).
      split; [reflexivity | eapply grows_of; eassumption].
    + apply logged_effect in Hrun; [|intros l; apply Errorf_appends].
      destruct Hrun as (_ & -> & He & _ & Hl).
      split; [reflexivity | apply grows_of_log; assumption].
  - unfold DefaultExtensionFactory.GetFilter.
    rewrite (bind_Returns _ _ (d, rt) (d, rt) d) by reflexivity.
    destruct (DefaultExtensionFactory.filterFactories d !! _) as [f|]; intros Hrun.
    + apply invoked_effect in Hrun. destruct Hrun as (-> & He & Hl & _).
      split; [reflexivity | eapply grows_of; eassumption].
    + apply logged_effect in Hrun; [|intros l; apply Errorf_appends].
      destruct Hrun as (_ & -> & He & _ & Hl).
      split; [reflexivity | apply grows_of_log; assumption].
  - unfold DefaultExtensionFactory.GetEndPoint.
    rewrite (bind_Returns _ _ (d, rt) (d, rt) d) by reflexivity.
    destruct (DefaultExtensionFactory.endpointFactories d !! _) as [f|]; intros Hrun.
    + assert (Hrun' : (do! record (Invoked REndpoint (Protocol url) (Some url))
                       in call (f url)) (d, rt) = Returns (r, (d', rt'))).
      { revert Hrun. unfold record, call. run_go.
        destruct (f url (world rt)) as [[r0 w]|]; auto. }
      apply invoked_effect in Hrun'. destruct Hrun' as (-> & He & Hl & _).
      split; [reflexivity | eapply grows_of; eassumption].
    + apply logged_effect in Hrun; [|intros l; apply Errorf_appends].
      destruct Hrun as (_ & -> & He & _ & Hl).
      split; [reflexivity | apply grows_of_log; assumption].
  - unfold DefaultExtensionFactory.GetProvider.
    rewrite (bind_Returns _ _ (d, rt) (d, rt) d) by reflexivity.
    destruct (DefaultExtensionFactory.providerFactories d !! _) as [f|]; intros Hrun.
    + apply invoked_effect in Hrun. destruct Hrun as (-> & He & Hl & _).
      split; [reflexivity | eapply grows_of; eassumption].
    + apply logged_effect in Hrun; [|intros l; apply Errorf_appends].
      destruct Hrun as (_ & -> & He & _ & Hl).
      split; [reflexivity | apply grows_of_log; assumption].
  - unfold DefaultExtensionFactory.GetServer.
    destruct (String.eqb (Protocol url) EmptyString).
    + unfold bind at 1. unfold bind at 1. unfold logging at 1, vlog_Warningln. simpl.
      unfold ret at 1. unfold bind at 1, get_self at 1. simpl.
      destruct (DefaultExtensionFactory.servers d !! _) as [f|]; intros Hrun.
      * apply invoked_initialized_effect in Hrun.
        destruct Hrun as (-> & Hl & He). simpl in *.
        split; [reflexivity|]. split.
        -- destruct He as [He | (o & _ & He)]; rewrite He; eexists; reflexivity.
        -- rewrite Hl. eexists; reflexivity.
      * apply logged_effect in Hrun; [|intros l; apply Errorf_appends].
        destruct Hrun as (_ & -> & He & _ & Hl). simpl in *.
        split; [reflexivity|]. split; [rewrite He; reflexivity|].
        etransitivity; [|exact Hl]. eexists; reflexivity.
    + rewrite (bind_Returns _ _ (d, rt) (d, rt) (Protocol url)) by reflexivity.
      rewrite (bind_Returns _ _ (d, rt) (d, rt) d) by reflexivity.
      destruct (DefaultExtensionFactory.servers d !! _) as [f|]; intros Hrun.
      * apply invoked_initialized_effect in Hrun.
        destruct Hrun as (-> & Hl & He).
        split; [reflexivity|]. split.
        -- destruct He as [He | (o & _ & He)]; rewrite He; eexists; reflexivity.
        -- rewrite Hl. reflexivity.
      * apply logged_effect in Hrun; [|intros l; apply Errorf_appends].
        destruct Hrun as (_ & -> & He & _ & Hl).
        split; [reflexivity | apply grows_of_log; assumption].
  - unfold DefaultExtensionFactory.GetMessageHandler.
    rewrite (bind_Returns _ _ (d, rt) (d, rt) d) by reflexivity.
    destruct (DefaultExtensionFactory.messageHandlers d !! _) as [f|]; intros Hrun.
    + apply invoked_initialized_effect in Hrun.
      destruct Hrun as (-> & Hl & He).
      split; [reflexivity|]. split.
      * destruct He as [He | (o & _ & He)]; rewrite He; eexists; reflexivity.
      * rewrite Hl. reflexivity.
    + apply logged_effect in Hrun; [|intros l; apply Errorf_appends].
      destruct Hrun as (_ & -> & He & _ & Hl).
      split; [reflexivity | apply grows_of_log; assumption].
  - unfold DefaultExtensionFactory.GetSerialization.
    rewrite (bind_Returns _ _ (d, rt) (d, rt) d) by reflexivity.
    destruct (negb (String.eqb name EmptyString)).
    + destruct (DefaultExtensionFactory.serializations d !! _) as [f|]; intros Hrun.
      * apply invoked_effect in Hrun. destruct Hrun as (-> & He & Hl & _).
        split; [reflexivity | eapply grows_of; eassumption].
      * revert Hrun. run_go. intros [= <- <- <-]. split; [reflexivity | apply grows_refl].
    + destruct (-1 <? id)%Z.
      * destruct (DefaultExtensionFactory.serializations d !! _) as [f|]; intros Hrun.
        -- apply invoked_effect in Hrun. destruct Hrun as (-> & He & Hl & _).
           split; [reflexivity | eapply grows_of; eassumption].
        -- revert Hrun. run_go. intros [= <- <- <-].
           split; [reflexivity | apply grows_refl].
      * run_go. intros [= <- <- <-]. split; [reflexivity | apply grows_refl].
Qed.

Lemma set_registries_same (d : DefaultExtensionFactory.t) :
  DefaultExtensionFactory.set_registries d (DefaultExtensionFactory.registries d) = d.
Proof. destruct d; reflexivity. Qed.

Lemma GetRegistry_effect (url : URL) (d d' : DefaultExtensionFactory.t)
  (rt rt' : Runtime) (r : instance) :
  DefaultExtensionFactory.GetRegistry url (d, rt) = Returns (r, (d', rt')) ->
  DefaultExtensionFactory.set_registries d' (DefaultExtensionFactory.registries d) = d
  /\ (forall k x, DefaultExtensionFactory.registries d !! k = Some x ->
                  DefaultExtensionFactory.registries d' !! k = Some x)
  /\ grows rt rt'.
Proof.
  unfold DefaultExtensionFactory.GetRegistry.
  rewrite (bind_Returns _ _ (d, rt) (d, rt) d) by reflexivity.
  destruct (DefaultExtensionFactory.registries d !! GetIdentity url) as [r0|] eqn:Hr.
  - run_go. intros [= <- <- <-].
    split; [apply set_registries_same|]. split; [auto | apply grows_refl].
  - rewrite (bind_Returns _ _ (d, rt) (d, rt) d) by reflexivity. rewrite Hr.
    destruct (DefaultExtensionFactory.registryFactories d !! Protocol url) as [f|].
    + unfold record, call. run_go.
      destruct (f url (world rt)) as [[r0 w]|]; [|discriminate]. simpl.
      match goal with
      | |- context [Initialize r0 ?s] =>
          destruct (Initialize r0 s) as [[[] [d1 rt1]]|] eqn:Hi
      end; [|discriminate].
      apply Initialize_effect in Hi. destruct Hi as (-> & Hlog & Hev). simpl in *.
      intros [= <- <- <-].
      split; [destruct d; reflexivity|]. split.
      * intros k x Hk. simpl. rewrite lookup_insert_ne; [exact Hk | congruence].
      * split; [|rewrite Hlog; reflexivity].
        destruct Hev as [Hev | [o Hev]]; rewrite Hev.
        -- eexists; reflexivity.
        -- rewrite <- app_assoc. eexists; reflexivity.
    + intros Hrun. apply logged_effect in Hrun; [|intros l; apply Errorf_appends].
      destruct Hrun as (_ & -> & He & _ & Hl).
      split; [apply set_registries_same|]. split; [auto|].
      apply grows_of_log; assumption.
Qed.

(** X8.  Lookups never alter registrations.  Whatever getters are called
    in whatever order, the nine constructor maps of the factory are
    afterwards what they were: at most [registries] differs, and it only
    gains entries.  Without a [GetRegistry] among the calls the factory
    is unchanged altogether.  The recorded events and the log only grow. *)
Theorem lookups_keep_registrations (qs : list Lookup)
  (s s' : DefaultExtensionFactory.t * Runtime) (rs : list instance) :
  perform_all qs s = Returns (rs, s') ->
  DefaultExtensionFactory.set_registries (fst s')
    (DefaultExtensionFactory.registries (fst s)) = fst s
  /\ (forall k x, DefaultExtensionFactory.registries (fst s) !! k = Some x ->
                  DefaultExtensionFactory.registries (fst s') !! k = Some x)
  /\ (forallb (fun q => negb (is_registry_lookup q)) qs = true -> fst s' = fst s)
  /\ grows (snd s) (snd s')
  /\ length rs = length qs.
Proof.
  revert s rs. induction qs as [|q qs IH]; intros [d rt] rs; simpl.
  - unfold ret. intros [= <- <-]. simpl.
    split; [apply set_registries_same|]. split; [auto|]. split; [auto|].
    split; [apply grows_refl | reflexivity].
  - unfold bind at 1.
    destruct (perform q (d, rt)) as [[r [d1 rt1]]|] eqn:Hq; [|discriminate].
    unfold bind at 1.
    destruct (perform_all qs (d1, rt1)) as [[rs1 [d2 rt2]]|] eqn:Hqs; [|discriminate].
    unfold ret. intros [= <- <-]. simpl.
    destruct (IH _ _ Hqs) as (Hmaps & Hkeep & Hsame & Hgrow & Hlen). simpl in *.
    assert (Hstep : DefaultExtensionFactory.set_registries d1
                      (DefaultExtensionFactory.registries d) = d
                    /\ (forall k x, DefaultExtensionFactory.registries d !! k = Some x ->
                                    DefaultExtensionFactory.registries d1 !! k = Some x)
                    /\ grows rt rt1
                    /\ (is_registry_lookup q = false -> d1 = d)).
    { destruct (is_registry_lookup q) eqn:Hreg.
      - destruct q; try discriminate Hreg. simpl in Hq.
        destruct (GetRegistry_effect _ _ _ _ _ _ Hq) as (A & B & C).
        repeat split; try assumption; try apply C. discriminate.
      - destruct (perform_plain_effect q d d1 rt rt1 r Hreg Hq) as (-> & Hg).
        split; [apply set_registries_same|]. auto. }
    destruct Hstep as (Hmaps1 & Hkeep1 & Hgrow1 & Hsame1).
    split.
    { rewrite <- Hmaps1 at 2. rewrite <- Hmaps. destruct d2; reflexivity. }
    split; [auto|].
    split.
    { intros Hall. apply andb_prop in Hall. destruct Hall as [Hq1 Hrest].
      rewrite (Hsame Hrest). apply Hsame1. destruct (is_registry_lookup q); auto;
        discriminate. }
    split; [eapply grows_trans; eassumption|].
    f_equal. exact Hlen.
Qed.

End FactoryLookups.

Section FactoryRegistrations.
Context {Urls : URLs} {Consts : Constants} {Plug : Plugins}.

(** Destructs every [match] on a lookup, on the outcome of a constructor or
    of a hook, until both sides of the goal are the same. *)
Ltac split_outcomes :=
  repeat (simpl;
          match goal with
          | |- context [match ?x with _ => _ end] =>
              lazymatch x with
              | context [match _ with _ => _ end] => fail
              | _ => destruct x eqn:?
              end
          end);
  simpl; try reflexivity; try congruence.

(** X9.  A registration for one role changes no lookup of another role:
    the getter returns the same result, invokes the same constructors and
    hooks and writes the same log as it would have before; and the
    registries memoized so far are kept. *)
Theorem registration_leaves_other_roles (r : Registration) (q : Lookup)
  (d : DefaultExtensionFactory.t) (rt rt' : Runtime) :
  role_of q <> role_registered r ->
  exists d',
    register r (d, rt) = Returns (tt, (d', rt))
    /\ DefaultExtensionFactory.registries d' = DefaultExtensionFactory.registries d
    /\ outside (perform q (d', rt')) = outside (perform q (d, rt')).
Proof.
  intros Hrole.
  destruct r; (eexists; split; [reflexivity|]; split; [reflexivity|]).
  all: destruct q; try (exfalso; apply Hrole; reflexivity); clear Hrole.
  all: cbn [perform].
  all: unfold DefaultExtensionFactory.GetHa, DefaultExtensionFactory.GetLB,
         DefaultExtensionFactory.GetFilter, DefaultExtensionFactory.GetRegistry,
         DefaultExtensionFactory.GetEndPoint, DefaultExtensionFactory.GetProvider,
         DefaultExtensionFactory.GetServer, DefaultExtensionFactory.GetMessageHandler,
         DefaultExtensionFactory.GetSerialization, Initialize, record, call, logging,
         vlog_Errorf, vlog_Warningln.
  all: run_go.
  all: split_outcomes.
Qed.

End FactoryRegistrations.

Section FactoryRoundTrips.
Context {Urls : URLs} {Consts : Constants} {Plug : Plugins}.

Lemma GetHa_outside (url : URL) (d : DefaultExtensionFactory.t) (rt : Runtime) :
  outside (DefaultExtensionFactory.GetHa url (d, rt)) =
  match DefaultExtensionFactory.haFactories d !! GetParam url Hakey "failover" with
  | Some f => invoking (Invoked RHa (GetParam url Hakey "failover") (Some url)) (f url) rt
  | None => not_found "HaStrategy name %s is not found in DefaultExtensionFactory!"
              (GetParam url Hakey "failover") rt
  end.
Proof.
  unfold DefaultExtensionFactory.GetHa, invoking, not_found, record, call, logging,
    vlog_Errorf.
  run_go. destruct (DefaultExtensionFactory.haFactories d !! _) as [f|]; simpl.
  - destruct (f url (world rt)) as [[r w]|]; reflexivity.
  - reflexivity.
Qed.

Lemma GetLB_outside (url : URL) (d : DefaultExtensionFactory.t) (rt : Runtime) :
  outside (DefaultExtensionFactory.GetLB url (d, rt)) =
  match DefaultExtensionFactory.lbFactories d !! GetParam url Lbkey "random" with
  | Some f => invoking (Invoked RLb (GetParam url Lbkey "random") (Some url)) (f url) rt
  | None => not_found "LoadBalance name %s is not found in DefaultExtensionFactory!"
              (GetParam url Lbkey "random") rt
  end.
Proof.
  unfold DefaultExtensionFactory.GetLB, invoking, not_found, record, call, logging,
    vlog_Errorf.
  run_go. destruct (DefaultExtensionFactory.lbFactories d !! _) as [f|]; simpl.
  - destruct (f url (world rt)) as [[r w]|]; reflexivity.
  - reflexivity.
Qed.

(** X10.  Registration and lookup of the two cluster strategies.  The name
    that a URL selects is its parameter [Hakey] (or [Lbkey]), "failover"
    (or "random") where the URL has none.  After [RegistExtHa name f] a
    lookup on a URL selecting [name] invokes [f] on that URL, once, and
    returns its result; a registration under the same name afterwards
    replaces [f]; URLs selecting another name are answered as before, and
    the name comparison is exact.  A name that was never registered gives
    nil and one error entry, without any constructor invoked. *)
Theorem strategy_registration_round_trip (name : string)
  (f g : URL -> Go World instance) (d : DefaultExtensionFactory.t) (rt0 rt : Runtime)
  (url : URL) :
  (exists d1 d2,
      DefaultExtensionFactory.RegistExtHa name f (d, rt0) = Returns (tt, (d1, rt0))
      /\ DefaultExtensionFactory.RegistExtHa name g (d1, rt0) = Returns (tt, (d2, rt0))
      /\ (GetParam url Hakey "failover" = name ->
          outside (DefaultExtensionFactory.GetHa url (d1, rt)) =
            invoking (Invoked RHa name (Some url)) (f url) rt
          /\ outside (DefaultExtensionFactory.GetHa url (d2, rt)) =
               invoking (Invoked RHa name (Some url)) (g url) rt)
      /\ (GetParam url Hakey "failover" <> name ->
          outside (DefaultExtensionFactory.GetHa url (d1, rt)) =
            outside (DefaultExtensionFactory.GetHa url (d, rt)))
      /\ (DefaultExtensionFactory.haFactories d !! GetParam url Hakey "failover" = None ->
          DefaultExtensionFactory.GetHa url (d, rt) =
            Returns (None, (d, {| world := world rt; events := events rt;
                                  log := log rt ++
                                    [ {| level := "error";
                                         format := line "HaStrategy name %s is not found in DefaultExtensionFactory!";
                                         args := [GetParam url Hakey "failover"] |} ] |}))))
  /\ (exists d1 d2,
      DefaultExtensionFactory.RegistExtLb name f (d, rt0) = Returns (tt, (d1, rt0))
      /\ DefaultExtensionFactory.RegistExtLb name g (d1, rt0) = Returns (tt, (d2, rt0))
      /\ (GetParam url Lbkey "random" = name ->
          outside (DefaultExtensionFactory.GetLB url (d1, rt)) =
            invoking (Invoked RLb name (Some url)) (f url) rt
          /\ outside (DefaultExtensionFactory.GetLB url (d2, rt)) =
               invoking (Invoked RLb name (Some url)) (g url) rt)
      /\ (GetParam url Lbkey "random" <> name ->
          outside (DefaultExtensionFactory.GetLB url (d1, rt)) =
            outside (DefaultExtensionFactory.GetLB url (d, rt)))
      /\ (DefaultExtensionFactory.lbFactories d !! GetParam url Lbkey "random" = None ->
          DefaultExtensionFactory.GetLB url (d, rt) =
            Returns (None, (d, {| world := world rt; events := events rt;
                                  log := log rt ++
                                    [ {| level := "error";
                                         format := line "LoadBalance name %s is not found in DefaultExtensionFactory!";
                                         args := [GetParam url Lbkey "random"] |} ] |})))).
Proof.
  split.
  - eexists _, _. split; [reflexivity|]. split; [reflexivity|].
    rewrite !GetHa_outside. simpl. split; [|split].
    + intros ->. rewrite !lookup_insert_eq. auto.
    + intros Hne. rewrite lookup_insert_ne by congruence. reflexivity.
    + intros Hnone. unfold DefaultExtensionFactory.GetHa, logging, vlog_Errorf. run_go.
      rewrite Hnone. reflexivity.
  - eexists _, _. split; [reflexivity|]. split; [reflexivity|].
    rewrite !GetLB_outside. simpl. split; [|split].
    + intros ->. rewrite !lookup_insert_eq. auto.
    + intros Hne. rewrite lookup_insert_ne by congruence. reflexivity.
    + intros Hnone. unfold DefaultExtensionFactory.GetLB, logging, vlog_Errorf. run_go.
      rewrite Hnone. reflexivity.
Qed.

Lemma GetEndPoint_outside (url : URL) (d : DefaultExtensionFactory.t) (rt : Runtime) :
  outside (DefaultExtensionFactory.GetEndPoint url (d, rt)) =
  match DefaultExtensionFactory.endpointFactories d !! Protocol url with
  | Some f => invoking (Invoked REndpoint (Protocol url) (Some url)) (f url) rt
  | None => not_found "EndPoint(protocol) name %s is not found in DefaultExtensionFactory!"
              (Protocol url) rt
  end.
Proof.
  unfold DefaultExtensionFactory.GetEndPoint, invoking, not_found, record, call, logging,
    vlog_Errorf.
  run_go. destruct (DefaultExtensionFactory.endpointFactories d !! _) as [f|]; simpl.
  - destruct (f url (world rt)) as [[r w]|]; reflexivity.
  - reflexivity.
Qed.

Lemma GetServer_outside (url : URL) (d : DefaultExtensionFactory.t) (rt : Runtime) :
  outside (DefaultExtensionFactory.GetServer url (d, rt)) =
  let sname := if String.eqb (Protocol url) EmptyString then "motan2" else Protocol url in
  let rt1 :=
    if String.eqb (Protocol url) EmptyString then
      {| world := world rt; events := events rt;
         log := log rt ++ [ {| level := "warning"; format := EmptyString;
                               args := ["not find server key. motan2 server will used."] |} ] |}
    else rt in
  match DefaultExtensionFactory.servers d !! sname with
  | Some f => invoking_initializing (Invoked RServer sname (Some url)) (f url) rt1
  | None => not_found "server name %s is not found in DefaultExtensionFactory!" sname rt1
  end.
Proof.
  unfold DefaultExtensionFactory.GetServer, invoking_initializing, not_found, Initialize,
    record, call, logging, vlog_Errorf, vlog_Warningln.
  destruct (String.eqb (Protocol url) EmptyString); run_go.
  all: destruct (DefaultExtensionFactory.servers d !! _) as [f|]; simpl; [|reflexivity].
  all: match goal with
       | |- context [match ?c with Returns _ => _ | Panics _ => _ end] =>
           lazymatch c with
           | context [match _ with _ => _ end] => fail
           | _ => destruct c as [[r w1]|]
           end
       end; simpl; [|reflexivity].
  all: destruct r as [o|]; [|reflexivity].
  all: destruct (as_Initializable o) as [init|]; [|reflexivity].
  all: simpl; destruct (init w1) as [[[] w2]|]; simpl; rewrite <- ?app_assoc; reflexivity.
Qed.

(** X11.  Registration and lookup by protocol.  [GetEndPoint] looks the
    protocol of the URL up as it is, the empty one included.  [GetServer]
    replaces an empty protocol by "motan2" and logs a warning first, so that
    a server registered under the empty name is never found.  On the object
    that the server constructor returns the [Initialize] hook runs after the
    constructor and before the getter returns; a nil result and an object
    without the hook are returned as they are; a panic of the constructor or
    of the hook is the panic of the getter. *)
Theorem protocol_registration_round_trip (name : string)
  (f : URL -> Go World instance) (d : DefaultExtensionFactory.t) (rt0 rt : Runtime)
  (url : URL) :
  (exists d1,
      DefaultExtensionFactory.RegistExtEndpoint name f (d, rt0) = Returns (tt, (d1, rt0))
      /\ (Protocol url = name ->
          outside (DefaultExtensionFactory.GetEndPoint url (d1, rt)) =
            invoking (Invoked REndpoint name (Some url)) (f url) rt)
      /\ (Protocol url <> name ->
          outside (DefaultExtensionFactory.GetEndPoint url (d1, rt)) =
            outside (DefaultExtensionFactory.GetEndPoint url (d, rt))))
  /\ (exists d1,
      DefaultExtensionFactory.RegistExtServer name f (d, rt0) = Returns (tt, (d1, rt0))
      /\ (Protocol url = name -> name <> EmptyString ->
          outside (DefaultExtensionFactory.GetServer url (d1, rt)) =
            invoking_initializing (Invoked RServer name (Some url)) (f url) rt)
      /\ (Protocol url = EmptyString -> name = "motan2" ->
          outside (DefaultExtensionFactory.GetServer url (d1, rt)) =
            invoking_initializing (Invoked RServer "motan2" (Some url)) (f url)
              {| world := world rt; events := events rt;
                 log := log rt ++
                   [ {| level := "warning"; format := EmptyString;
                        args := ["not find server key. motan2 server will used."] |} ] |})
      /\ (name = EmptyString \/ (Protocol url <> name
                                 /\ (Protocol url = EmptyString -> name <> "motan2")) ->
          outside (DefaultExtensionFactory.GetServer url (d1, rt)) =
            outside (DefaultExtensionFactory.GetServer url (d, rt)))
      /\ (forall (o : loc) (w w' : World) (init : Go World unit),
            Protocol url = name -> name <> EmptyString ->
            f url (world rt) = Returns (Some o, w) ->
            as_Initializable o = Some init ->
            (init w = Returns (tt, w') ->
             DefaultExtensionFactory.GetServer url (d1, rt) =
               Returns (Some o,
                        (d1, {| world := w';
                                events := events rt ++
                                  [Invoked RServer name (Some url); Initialized o];
                                log := log rt |})))
            /\ (forall m, init w = Panics m ->
                          DefaultExtensionFactory.GetServer url (d1, rt) = Panics m))).
Proof.
  split.
  - eexists. split; [reflexivity|].
    rewrite !GetEndPoint_outside. simpl. split.
    + intros ->. rewrite lookup_insert_eq. reflexivity.
    + intros Hne. rewrite lookup_insert_ne by congruence. reflexivity.
  - eexists. split; [reflexivity|].
    rewrite !GetServer_outside. simpl. split; [|split; [|split]].
    + intros -> Hne. apply String.eqb_neq in Hne. rewrite Hne.
      rewrite lookup_insert_eq. reflexivity.
    + intros -> ->. simpl. rewrite lookup_insert_eq. reflexivity.
    + intros Hcase. destruct (String.eqb (Protocol url) EmptyString) eqn:He.
      * apply String.eqb_eq in He.
        rewrite lookup_insert_ne; [reflexivity|].
        destruct Hcase as [-> | [_ Hm]]; [discriminate | auto].
      * apply String.eqb_neq in He.
        rewrite lookup_insert_ne; [reflexivity|].
        destruct Hcase as [-> | [Hm _]]; congruence.
    + intros o w w' init <- Hne Hc Hi. apply String.eqb_neq in Hne.
      unfold DefaultExtensionFactory.GetServer, Initialize, record, call. rewrite Hne.
      run_go. rewrite lookup_insert_eq. simpl. rewrite Hc. simpl. rewrite Hi. simpl. split.
      * intros ->. simpl. rewrite <- app_assoc. reflexivity.
      * intros m ->. reflexivity.
Qed.

End FactoryRoundTrips.

(** * Further properties of [TrimSpace] and of the names it selects *)

Lemma append_empty (s : string) : String.append EmptyString s = s.
Proof. reflexivity. Qed.

Lemma append_String (a : ascii) (p s : string) :
  String.append (String a p) s = String a (String.append p s).
Proof. reflexivity. Qed.

Lemma append_assoc (a b c : string) :
  String.append (String.append a b) c = String.append a (String.append b c).
Proof.
  induction a as [|x a IH]; rewrite ?append_empty, ?append_String;
    [reflexivity | rewrite IH; reflexivity].
Qed.

Lemma drop_prefix_Some (p s rest : string) :
  drop_prefix p s = Some rest -> s = String.append p rest.
Proof.
  revert s. induction p as [|a p IH]; intros [|b s]; simpl;
    rewrite ?append_empty, ?append_String; try congruence.
  destruct (Ascii.eqb a b) eqn:E; [|discriminate].
  apply Ascii.eqb_eq in E. subst b. intros H. rewrite (IH _ H). reflexivity.
Qed.

Lemma drop_prefix_append (p s rest suf : string) :
  drop_prefix p s = Some rest ->
  drop_prefix p (String.append s suf) = Some (String.append rest suf).
Proof.
  revert s. induction p as [|a p IH]; intros s.
  - simpl. intros [= ->]. reflexivity.
  - destruct s as [|b s]; [discriminate|]. rewrite append_String. simpl.
    destruct (Ascii.eqb a b); [apply IH | discriminate].
Qed.

Lemma drop_first_append (ps : list string) (s suf : string) :
  drop_first ps (String.append s suf) = None -> drop_first ps s = None.
Proof.
  induction ps as [|p ps IH]; simpl; [reflexivity|].
  destruct (drop_prefix p s) as [rest|] eqn:E.
  - rewrite (drop_prefix_append _ _ _ suf E). discriminate.
  - destruct (drop_prefix p (String.append s suf)); [discriminate | exact IH].
Qed.

Lemma append_length (a b : string) :
  String.length (String.append a b) = String.length a + String.length b.
Proof.
  induction a as [|c a IH]; rewrite ?append_empty, ?append_String; simpl;
    [reflexivity | rewrite IH; reflexivity].
Qed.

Lemma drop_first_shorter (ps : list string) (s rest : string) :
  Forall (fun p => p <> EmptyString) ps ->
  drop_first ps s = Some rest -> String.length rest < String.length s.
Proof.
  intros Hne. induction Hne as [|p ps Hp _ IH]; simpl; [discriminate|].
  destruct (drop_prefix p s) as [r|] eqn:E; [|exact IH].
  intros [= ->]. apply drop_prefix_Some in E. subst s. rewrite append_length.
  destruct p; [congruence | simpl; lia].
Qed.

Lemma trim_left_fixed (ps : list string) (fuel : nat) (s : string) :
  drop_first ps s = None -> trim_left ps fuel s = s.
Proof. intros H. destruct fuel; simpl; [reflexivity | rewrite H; reflexivity]. Qed.

Lemma trim_left_done (ps : list string) (fuel : nat) (s : string) :
  Forall (fun p => p <> EmptyString) ps ->
  String.length s <= fuel ->
  drop_first ps (trim_left ps fuel s) = None.
Proof.
  intros Hne. revert s. induction fuel as [|n IH]; intros s Hlen; simpl.
  - destruct s; [|simpl in Hlen; lia].
    clear Hlen. induction Hne as [|p ps Hp _ IHp]; simpl; [reflexivity|].
    destruct p; [congruence | exact IHp].
  - destruct (drop_first ps s) as [rest|] eqn:E; [|exact E].
    apply IH. apply (drop_first_shorter _ _ _ Hne) in E. lia.
Qed.

Lemma trim_left_suffix (ps : list string) (fuel : nat) (s : string) :
  exists pre, s = String.append pre (trim_left ps fuel s).
Proof.
  revert s. induction fuel as [|n IH]; intros s; simpl.
  - exists EmptyString. reflexivity.
  - destruct (drop_first ps s) as [rest|] eqn:E; [|exists EmptyString; reflexivity].
    assert (Hp : exists p, s = String.append p rest).
    { clear IH. induction ps as [|p ps IHp]; simpl in E; [discriminate|].
      destruct (drop_prefix p s) as [r|] eqn:Ep; [|exact (IHp E)].
      injection E as ->. exists p. exact (drop_prefix_Some _ _ _ Ep). }
    destruct Hp as [p ->]. destruct (IH rest) as [pre Hpre].
    exists (String.append p pre). rewrite append_assoc, <- Hpre. reflexivity.
Qed.

Lemma list_ascii_of_append (a b : string) :
  list_ascii_of_string (String.append a b) =
  list_ascii_of_string a ++ list_ascii_of_string b.
Proof.
  induction a as [|c a IH]; rewrite ?append_empty, ?append_String; simpl;
    [reflexivity | rewrite IH; reflexivity].
Qed.

Lemma string_of_list_app (a b : list ascii) :
  string_of_list_ascii (a ++ b) =
  String.append (string_of_list_ascii a) (string_of_list_ascii b).
Proof.
  induction a as [|c a IH]; simpl; rewrite ?append_empty, ?append_String;
    [reflexivity | rewrite IH; reflexivity].
Qed.

Lemma reverse_string_involutive (s : string) : reverse_string (reverse_string s) = s.
Proof.
  unfold reverse_string. rewrite list_ascii_of_string_of_list_ascii, rev_involutive.
  apply string_of_list_ascii_of_string.
Qed.

Lemma reverse_string_append (a b : string) :
  reverse_string (String.append a b) =
  String.append (reverse_string b) (reverse_string a).
Proof.
  unfold reverse_string. rewrite list_ascii_of_append, rev_app_distr.
  apply string_of_list_app.
Qed.

Lemma reverse_string_length (s : string) :
  String.length (reverse_string s) = String.length s.
Proof.
  unfold reverse_string.
  assert (H : forall l, String.length (string_of_list_ascii l) = length l).
  { induction l as [|c l IH]; simpl; [reflexivity | rewrite IH; reflexivity]. }
  rewrite H, length_rev, <- H, string_of_list_ascii_of_string. reflexivity.
Qed.

Lemma white_space_nonempty : Forall (fun p => p <> EmptyString) white_space.
Proof. unfold white_space. simpl. repeat constructor; discriminate. Qed.

Lemma white_space_reversed_nonempty :
  Forall (fun p => p <> EmptyString) (map reverse_string white_space).
Proof. unfold white_space. simpl. repeat constructor; discriminate. Qed.

(** What [TrimSpace] returns has no white space at either end. *)
Lemma TrimSpace_trimmed (s : string) :
  drop_first white_space (TrimSpace s) = None
  /\ drop_first (map reverse_string white_space) (reverse_string (TrimSpace s)) = None.
Proof.
  unfold TrimSpace. cbv zeta.
  set (s1 := trim_left white_space (String.length s) s).
  set (t1 := trim_left (map reverse_string white_space) (String.length s1)
               (reverse_string s1)).
  assert (H1 : drop_first white_space s1 = None)
    by (apply trim_left_done; [apply white_space_nonempty | lia]).
  assert (H2 : drop_first (map reverse_string white_space) t1 = None).
  { apply trim_left_done; [apply white_space_reversed_nonempty|].
    rewrite reverse_string_length. lia. }
  split.
  - destruct (trim_left_suffix (map reverse_string white_space) (String.length s1)
                (reverse_string s1)) as [pre Hpre].
    fold t1 in Hpre. apply (f_equal reverse_string) in Hpre.
    rewrite reverse_string_involutive, reverse_string_append in Hpre.
    rewrite Hpre in H1. exact (drop_first_append _ _ _ H1).
  - rewrite reverse_string_involutive. exact H2.
Qed.

Lemma TrimSpace_fixed (s : string) :
  drop_first white_space s = None ->
  drop_first (map reverse_string white_space) (reverse_string s) = None ->
  TrimSpace s = s.
Proof.
  intros H1 H2. unfold TrimSpace. cbv zeta.
  rewrite (trim_left_fixed _ _ _ H1), (trim_left_fixed _ _ _ H2).
  apply reverse_string_involutive.
Qed.

Lemma TrimSpace_idempotent (s : string) : TrimSpace (TrimSpace s) = TrimSpace s.
Proof. destruct (TrimSpace_trimmed s) as [H1 H2]. apply TrimSpace_fixed; assumption. Qed.

Section TrimmedNames.
Context {Urls : URLs} {Consts : Constants} {Plug : Plugins}.

Lemma GetFilter_outside (name : string) (d : DefaultExtensionFactory.t) (rt : Runtime) :
  outside (DefaultExtensionFactory.GetFilter name (d, rt)) =
  match DefaultExtensionFactory.filterFactories d !! TrimSpace name with
  | Some f => invoking (Invoked RFilter (TrimSpace name) None) f rt
  | None => not_found "filter name %s is not found in DefaultExtensionFactory!" name rt
  end.
Proof.
  unfold DefaultExtensionFactory.GetFilter, invoking, not_found, record, call, logging,
    vlog_Errorf.
  run_go. destruct (DefaultExtensionFactory.filterFactories d !! _) as [f|]; simpl.
  - destruct (f (world rt)) as [[r w]|]; reflexivity.
  - reflexivity.
Qed.

Lemma GetMessageHandler_outside (name : string) (d : DefaultExtensionFactory.t)
  (rt : Runtime) :
  outside (DefaultExtensionFactory.GetMessageHandler name (d, rt)) =
  match DefaultExtensionFactory.messageHandlers d !! TrimSpace name with
  | Some f => invoking_initializing (Invoked RMessageHandler (TrimSpace name) None) f rt
  | None => not_found "messageHandler name %s is not found in DefaultExtensionFactory!"
              name rt
  end.
Proof.
  unfold DefaultExtensionFactory.GetMessageHandler, invoking_initializing, not_found,
    Initialize, record, call, logging, vlog_Errorf.
  run_go. destruct (DefaultExtensionFactory.messageHandlers d !! _) as [f|]; simpl;
    [|reflexivity].
  destruct (f (world rt)) as [[r w1]|]; simpl; [|reflexivity].
  destruct r as [o|]; [|reflexivity].
  destruct (as_Initializable o) as [init|]; [|reflexivity].
  simpl. destruct (init w1) as [[[] w2]|]; simpl; rewrite <- ?app_assoc; reflexivity.
Qed.

(** X12.  Filters and message handlers are looked up under the name with
    the white space at both ends removed, and registered under the name as
    it is given.  So a lookup finds the constructor registered under [name]
    exactly when the name asked for trims to [name]; and a constructor
    registered under a name that has white space at an end is found by no
    lookup at all: every lookup is answered as before the registration.  The
    error entry of a failed lookup carries the name as it was asked for. *)
Theorem trimmed_name_registration (name n : string) (f : Go World instance)
  (d : DefaultExtensionFactory.t) (rt0 rt : Runtime) :
  (exists d1,
      DefaultExtensionFactory.RegistExtFilter name f (d, rt0) = Returns (tt, (d1, rt0))
      /\ (TrimSpace n = name ->
          outside (DefaultExtensionFactory.GetFilter n (d1, rt)) =
            invoking (Invoked RFilter name None) f rt)
      /\ (TrimSpace n <> name ->
          outside (DefaultExtensionFactory.GetFilter n (d1, rt)) =
            outside (DefaultExtensionFactory.GetFilter n (d, rt)))
      /\ (TrimSpace name <> name ->
          forall n', outside (DefaultExtensionFactory.GetFilter n' (d1, rt)) =
                       outside (DefaultExtensionFactory.GetFilter n' (d, rt)))
      /\ (DefaultExtensionFactory.filterFactories d !! TrimSpace n = None ->
          DefaultExtensionFactory.GetFilter n (d, rt) =
            Returns (None, (d, {| world := world rt; events := events rt;
                                  log := log rt ++
                                    [ {| level := "error";
                                         format := line "filter name %s is not found in DefaultExtensionFactory!";
                                         args := [n] |} ] |}))))
  /\ (exists d1,
      DefaultExtensionFactory.RegistryExtMessageHandler name f (d, rt0) =
        Returns (tt, (d1, rt0))
      /\ (TrimSpace n = name ->
          outside (DefaultExtensionFactory.GetMessageHandler n (d1, rt)) =
            invoking_initializing (Invoked RMessageHandler name None) f rt)
      /\ (TrimSpace n <> name ->
          outside (DefaultExtensionFactory.GetMessageHandler n (d1, rt)) =
            outside (DefaultExtensionFactory.GetMessageHandler n (d, rt)))
      /\ (TrimSpace name <> name ->
          forall n', outside (DefaultExtensionFactory.GetMessageHandler n' (d1, rt)) =
                       outside (DefaultExtensionFactory.GetMessageHandler n' (d, rt)))
      /\ (DefaultExtensionFactory.messageHandlers d !! TrimSpace n = None ->
          DefaultExtensionFactory.GetMessageHandler n (d, rt) =
            Returns (None, (d, {| world := world rt; events := events rt;
                                  log := log rt ++
                                    [ {| level := "error";
                                         format := line "messageHandler name %s is not found in DefaultExtensionFactory!";
                                         args := [n] |} ] |})))).
Proof.
  assert (Hunreachable : TrimSpace name <> name -> forall n', TrimSpace n' <> name).
  { intros Hne n' Heq. apply Hne. rewrite <- Heq. apply TrimSpace_idempotent. }
  split.
  - eexists. split; [reflexivity|].
    split; [|split; [|split]].
    + intros <-. rewrite GetFilter_outside. simpl. rewrite lookup_insert_eq. reflexivity.
    + intros Hne. rewrite !GetFilter_outside. simpl.
      rewrite lookup_insert_ne by congruence. reflexivity.
    + intros Hne n'. rewrite !GetFilter_outside. simpl.
      rewrite lookup_insert_ne; [reflexivity|].
      intros Heq. exact (Hunreachable Hne n' (eq_sym Heq)).
    + intros Hnone. unfold DefaultExtensionFactory.GetFilter, logging, vlog_Errorf.
      run_go. rewrite Hnone. reflexivity.
  - eexists. split; [reflexivity|].
    split; [|split; [|split]].
    + intros <-. rewrite GetMessageHandler_outside. simpl. rewrite lookup_insert_eq.
      reflexivity.
    + intros Hne. rewrite !GetMessageHandler_outside. simpl.
      rewrite lookup_insert_ne by congruence. reflexivity.
    + intros Hne n'. rewrite !GetMessageHandler_outside. simpl.
      rewrite lookup_insert_ne; [reflexivity|].
      intros Heq. exact (Hunreachable Hne n' (eq_sym Heq)).
    + intros Hnone. unfold DefaultExtensionFactory.GetMessageHandler, logging, vlog_Errorf.
      run_go. rewrite Hnone. reflexivity.
Qed.

End TrimmedNames.

Section RegistryEdges.
Context {Urls : URLs} {Consts : Constants} {Plug : Plugins}.

Lemma GetRegistry_first_outside (url : URL) (d0 : DefaultExtensionFactory.t)
  (rt0 : Runtime) (f : URL -> Go World instance) :
  DefaultExtensionFactory.registries d0 !! GetIdentity url = None ->
  DefaultExtensionFactory.registryFactories d0 !! Protocol url = Some f ->
  outside (DefaultExtensionFactory.GetRegistry url (d0, rt0)) =
    invoking_initializing (Invoked RRegistry (Protocol url) (Some url)) (f url) rt0.
Proof.
  intros Hm Hf.
  unfold DefaultExtensionFactory.GetRegistry, invoking_initializing, Initialize, record,
    call.
  run_go. rewrite Hm. simpl. rewrite Hm. simpl. rewrite Hf. simpl.
  destruct (f url (world rt0)) as [[r w1]|]; simpl; [|reflexivity].
  destruct r as [o|]; [|reflexivity].
  destruct (as_Initializable o) as [init|]; [|reflexivity].
  simpl. destruct (init w1) as [[[] w2]|]; simpl; rewrite <- ?app_assoc; reflexivity.
Qed.

(** X13.  The first [GetRegistry] for an identity.  Without a constructor
    for the protocol of the URL it returns nil, logs one error and memoizes
    nothing, so that a constructor registered afterwards is used by the next
    call.  With a constructor it invokes it on the URL, runs the
    [Initialize] hook of the result and memoizes the result whatever it is,
    nil included: from then on every call for a URL of that identity returns
    it without invoking or logging anything, also when the URL has another
    protocol and after the constructor of that protocol was replaced. *)
Theorem GetRegistry_first_call (url : URL) (d : DefaultExtensionFactory.t) (rt : Runtime) :
  DefaultExtensionFactory.registries d !! GetIdentity url = None ->
  (DefaultExtensionFactory.registryFactories d !! Protocol url = None ->
   DefaultExtensionFactory.GetRegistry url (d, rt) =
     Returns (None, (d, {| world := world rt; events := events rt;
                           log := log rt ++
                             [ {| level := "error";
                                  format := line "Registry name %s is not found in DefaultExtensionFactory!";
                                  args := [Protocol url] |} ] |}))
   /\ forall (f : URL -> Go World instance) (rt' : Runtime),
        exists d1,
          DefaultExtensionFactory.RegistExtRegistry (Protocol url) f (d, rt') =
            Returns (tt, (d1, rt'))
          /\ outside (DefaultExtensionFactory.GetRegistry url (d1, rt')) =
               invoking_initializing (Invoked RRegistry (Protocol url) (Some url))
                 (f url) rt')
  /\ (forall f : URL -> Go World instance,
        DefaultExtensionFactory.registryFactories d !! Protocol url = Some f ->
        outside (DefaultExtensionFactory.GetRegistry url (d, rt)) =
          invoking_initializing (Invoked RRegistry (Protocol url) (Some url)) (f url) rt
        /\ forall (r : instance) (d1 : DefaultExtensionFactory.t) (rt1 : Runtime),
             DefaultExtensionFactory.GetRegistry url (d, rt) = Returns (r, (d1, rt1)) ->
             d1 = DefaultExtensionFactory.set_registries d
                    (<[GetIdentity url := r]> (DefaultExtensionFactory.registries d))
             /\ forall (url2 : URL) (g : URL -> Go World instance) (rt2 : Runtime),
                  GetIdentity url2 = GetIdentity url ->
                  exists d2,
                    DefaultExtensionFactory.RegistExtRegistry (Protocol url2) g (d1, rt2) =
                      Returns (tt, (d2, rt2))
                    /\ DefaultExtensionFactory.GetRegistry url2 (d1, rt2) =
                         Returns (r, (d1, rt2))
                    /\ DefaultExtensionFactory.GetRegistry url2 (d2, rt2) =
                         Returns (r, (d2, rt2))).
Proof.
  intros Hmiss.
  split.
  - intros Hnone. split.
    + unfold DefaultExtensionFactory.GetRegistry, logging, vlog_Errorf. run_go.
      rewrite Hmiss. simpl. rewrite Hmiss. simpl. rewrite Hnone. reflexivity.
    + intros f rt'. eexists. split; [reflexivity|].
      apply GetRegistry_first_outside; simpl; [exact Hmiss | apply lookup_insert_eq].
  - intros f Hf. split; [apply GetRegistry_first_outside; assumption|].
    intros r d1 rt1 Hget.
    assert (Hd1 : d1 = DefaultExtensionFactory.set_registries d
                         (<[GetIdentity url := r]> (DefaultExtensionFactory.registries d))).
    { revert Hget. unfold DefaultExtensionFactory.GetRegistry, Initialize, record, call.
      run_go. rewrite Hmiss. simpl. rewrite Hmiss. simpl. rewrite Hf. simpl.
      destruct (f url (world rt)) as [[r0 w1]|]; simpl; [|discriminate].
      destruct r0 as [o|]; simpl.
      - destruct (as_Initializable o) as [init|]; simpl.
        + destruct (init w1) as [[[] w2]|]; simpl; [|discriminate].
          intros [= <- <- <-]. reflexivity.
        + intros [= <- <- <-]. reflexivity.
      - intros [= <- <- <-]. reflexivity. }
    split; [exact Hd1|].
    intros url2 g rt2 Hid. eexists. split; [reflexivity|].
    split; apply GetRegistry_hit; rewrite Hid, Hd1; simpl; apply lookup_insert_eq.
Qed.

End RegistryEdges.

Section SerializationIds.
Context {Urls : URLs} {Consts : Constants} {Plug : Plugins}.

Lemma to_int_not_nil (i : Z) :
  Z.to_int i <> Decimal.Pos Decimal.Nil /\ Z.to_int i <> Decimal.Neg Decimal.Nil.
Proof.
  destruct i as [|p|p]; simpl; split; try discriminate.
  - intros [= H]. exact (DecimalPos.Unsigned.to_uint_nonnil p H).
  - intros [= H]. exact (DecimalPos.Unsigned.to_uint_nonnil p H).
Qed.

Lemma Itoa_injective (i j : Z) : Itoa i = Itoa j -> i = j.
Proof.
  unfold Itoa. intros H. apply DecimalZ.to_int_inj.
  destruct (to_int_not_nil i) as [Hi1 Hi2], (to_int_not_nil j) as [Hj1 Hj2].
  pose proof (NilZero.isi _ Hi1 Hi2) as Ei. pose proof (NilZero.isi _ Hj1 Hj2) as Ej.
  rewrite H in Ei. congruence.
Qed.

Lemma GetSerialization_outside (name : string) (id : Z) (d : DefaultExtensionFactory.t)
  (rt : Runtime) :
  outside (DefaultExtensionFactory.GetSerialization name id (d, rt)) =
  if negb (String.eqb name EmptyString) then
    match DefaultExtensionFactory.serializations d !! TrimSpace name with
    | Some f => invoking (Invoked RSerialization (TrimSpace name) None) f rt
    | None => Returns (None, rt)
    end
  else if (-1 <? id)%Z then
    match DefaultExtensionFactory.serializations d !! Itoa id with
    | Some f => invoking (Invoked RSerialization (Itoa id) None) f rt
    | None => Returns (None, rt)
    end
  else Returns (None, rt).
Proof.
  unfold DefaultExtensionFactory.GetSerialization, invoking, record, call.
  run_go. destruct (negb (String.eqb name EmptyString)); [|destruct (-1 <? id)%Z].
  - destruct (DefaultExtensionFactory.serializations d !! _) as [f|]; simpl;
      [|reflexivity].
    destruct (f (world rt)) as [[r w]|]; reflexivity.
  - destruct (DefaultExtensionFactory.serializations d !! _) as [f|]; simpl;
      [|reflexivity].
    destruct (f (world rt)) as [[r w]|]; reflexivity.
  - reflexivity.
Qed.

(** X14.  Lookups of serializations by id.  Names and decimal id strings
    share one map.  A negative id is never looked up, and a name that is
    given decides alone: when it is not found the id is not tried; in both
    cases the result is nil and, unlike for the other getters, nothing is
    logged.  Different ids have different keys, so a registration changes
    the lookup by another id only when its name is the decimal string of
    that id, and then its constructor is the one found. *)
Theorem serialization_id_lookup (name : string) (id : Z)
  (f : DefaultExtensionFactory.NewSerializationFunc)
  (d : DefaultExtensionFactory.t) (rt0 rt : Runtime) :
  (forall i, (i < 0)%Z ->
     DefaultExtensionFactory.GetSerialization EmptyString i (d, rt) = Returns (None, (d, rt)))
  /\ (forall n i, n <> EmptyString ->
        DefaultExtensionFactory.serializations d !! TrimSpace n = None ->
        DefaultExtensionFactory.GetSerialization n i (d, rt) = Returns (None, (d, rt)))
  /\ (forall i j, Itoa i = Itoa j -> i = j)
  /\ exists d1,
       DefaultExtensionFactory.RegistryExtSerialization name id f (d, rt0) =
         Returns (tt, (d1, rt0))
       /\ (forall i, i <> id -> name <> Itoa i ->
           outside (DefaultExtensionFactory.GetSerialization EmptyString i (d1, rt)) =
             outside (DefaultExtensionFactory.GetSerialization EmptyString i (d, rt)))
       /\ (forall i, (0 <= i)%Z -> name = Itoa i ->
           outside (DefaultExtensionFactory.GetSerialization EmptyString i (d1, rt)) =
             invoking (Invoked RSerialization name None) f rt).
Proof.
  split; [|split; [|split]].
  - intros i Hi. unfold DefaultExtensionFactory.GetSerialization. run_go.
    replace (-1 <? i)%Z with false by (symmetry; apply Z.ltb_ge; lia). reflexivity.
  - intros n i Hn Hnone. apply String.eqb_neq in Hn.
    unfold DefaultExtensionFactory.GetSerialization. run_go. rewrite Hn. simpl.
    rewrite Hnone. reflexivity.
  - exact Itoa_injective.
  - eexists. split; [apply RegistryExtSerialization_returns|]. split.
    + intros i Hi Hname. rewrite !GetSerialization_outside. simpl.
      rewrite !lookup_insert_ne; [reflexivity | congruence |].
      intros H. apply Hi. symmetry. apply Itoa_injective. exact H.
    + intros i Hi ->. rewrite GetSerialization_outside. simpl.
      replace (-1 <? i)%Z with true by (symmetry; apply Z.ltb_lt; lia).
      rewrite lookup_insert. destruct (decide (Itoa id = Itoa i)).
      * reflexivity.
      * rewrite lookup_insert_eq. reflexivity.
Qed.

End SerializationIds.

Section FactoryReset.
Context {Urls : URLs} {Consts : Constants} {Plug : Plugins}.

(** X15.  [Initialize] of the factory forgets everything: whatever was
    registered or memoized before, the factory afterwards is the same, and
    every getter returns nil without invoking a constructor, writing at
    most to the log.  A registry memoized before is not returned any more:
    once a constructor is registered again, the next [GetRegistry] for
    that identity constructs a new one. *)
Theorem Initialize_forgets (d : DefaultExtensionFactory.t) (rt : Runtime) :
  exists d0,
    DefaultExtensionFactory.Initialize (d, rt) = Returns (tt, (d0, rt))
    /\ (forall d' rt',
          DefaultExtensionFactory.Initialize (d', rt') = Returns (tt, (d0, rt')))
    /\ (forall q rt', exists entries,
          perform q (d0, rt') =
            Returns (None, (d0, {| world := world rt'; events := events rt';
                                   log := log rt' ++ entries |})))
    /\ (forall (url : URL) (f : URL -> Go World instance) (rt' : Runtime),
          exists d1,
            DefaultExtensionFactory.RegistExtRegistry (Protocol url) f (d0, rt') =
              Returns (tt, (d1, rt'))
            /\ outside (DefaultExtensionFactory.GetRegistry url (d1, rt')) =
                 invoking_initializing (Invoked RRegistry (Protocol url) (Some url))
                   (f url) rt').
Proof.
  exists DefaultExtensionFactory.initialized.
  split; [reflexivity|]. split; [reflexivity|]. split.
  - intros q [w evs l].
    destruct q as [url|url|name|url|url|url|url|name|name id]; cbn [perform].
    + eexists. unfold DefaultExtensionFactory.GetHa, logging, vlog_Errorf. run_go.
      rewrite lookup_empty. reflexivity.
    + eexists. unfold DefaultExtensionFactory.GetLB, logging, vlog_Errorf. run_go.
      rewrite lookup_empty. reflexivity.
    + eexists. unfold DefaultExtensionFactory.GetFilter, logging, vlog_Errorf. run_go.
      rewrite lookup_empty. reflexivity.
    + eexists. unfold DefaultExtensionFactory.GetRegistry, logging, vlog_Errorf. run_go.
      rewrite !lookup_empty. simpl. rewrite !lookup_empty. reflexivity.
    + eexists. unfold DefaultExtensionFactory.GetEndPoint, logging, vlog_Errorf. run_go.
      rewrite lookup_empty. reflexivity.
    + eexists. unfold DefaultExtensionFactory.GetProvider, logging, vlog_Errorf. run_go.
      rewrite lookup_empty. reflexivity.
    + unfold DefaultExtensionFactory.GetServer, logging, vlog_Errorf, vlog_Warningln.
      destruct (String.eqb (Protocol url) EmptyString); run_go; rewrite lookup_empty.
      * eexists. simpl. rewrite <- app_assoc. reflexivity.
      * eexists. reflexivity.
    + eexists. unfold DefaultExtensionFactory.GetMessageHandler, logging, vlog_Errorf.
      run_go. rewrite lookup_empty. reflexivity.
    + exists []. rewrite app_nil_r.
      unfold DefaultExtensionFactory.GetSerialization. run_go.
      destruct (negb (String.eqb name EmptyString)); [|destruct (-1 <? id)%Z];
        rewrite ?lookup_empty; reflexivity.
  - intros url f rt'. eexists. split; [reflexivity|].
    apply GetRegistry_first_outside; simpl; [apply lookup_empty | apply lookup_insert_eq].
Qed.

End FactoryReset.
(** * The statements on concrete requests, endpoints and factories *)

#[local] Existing Instance Example.urls.
#[local] Existing Instance Example.constants.
#[local] Existing Instance Example.plugins.
#[local] Existing Instance Example.objects.

Lemma absent_attachments_and_context_tolerated_witness :
  MotanRequest.GetAttachment "a" (Example.request None None None, empty_heap) =
    Returns (EmptyString, (Example.request None None None, empty_heap))
  /\ MotanResponse.GetAttachment "a" (Example.response, empty_heap) =
       Returns (EmptyString, (Example.response, empty_heap))
  /\ MotanRequest.GetRPCContext false (Example.request None None None, empty_heap) =
       Returns (None, (Example.request None None None, empty_heap))
  /\ MotanResponse.GetRPCContext false (Example.response, empty_heap) =
       Returns (None, (Example.response, empty_heap))
  /\ (exists c req' h',
        MotanRequest.GetRPCContext true (Example.request None None None, empty_heap) =
          Returns (Some c, (req', h'))
        /\ forall b, MotanRequest.GetRPCContext b (req', h') = Returns (Some c, (req', h'))).
Proof.
  destruct (absent_attachments_and_context_tolerated
              (Example.request None None None) Example.response empty_heap "a")
    as (H1 & H2 & H3 & H4).
  split; [apply H1; reflexivity|].
  split; [apply H2; reflexivity|].
  split; [apply (proj1 (H3 eq_refl))|].
  split; [apply (proj1 (H4 eq_refl))|].
  destruct (proj2 (H3 eq_refl)) as (c & req' & h' & Hc & _ & _ & _ & Hb).
  exists c, req', h'. split; assumption.
Defined.

Lemma Clone_attachments_independent_witness :
  exists clone h1 clone' h2,
    MotanRequest.Clone
      (Example.request None (Some 1%positive) None, Example.heap_with_attachment) =
      Returns (clone, (Example.request None (Some 1%positive) None, h1))
    /\ MotanRequest.SetAttachment "a" "2" (clone, h1) = Returns (tt, (clone', h2))
    /\ MotanRequest.GetAttachment "a" (clone', h2) = Returns ("2", (clone', h2))
    /\ MotanRequest.GetAttachment "a" (Example.request None (Some 1%positive) None, h2) =
         Returns ("1", (Example.request None (Some 1%positive) None, h2)).
Proof.
  destruct (Clone_attachments_independent
              (Example.request None (Some 1%positive) None) Example.heap_with_attachment
              1%positive {[ "a" := "1" ]} "a" "2")
    as (clone & h1 & a' & clone' & h2 & H1 & _ & _ & _ & _ & H2 & H3 & _ & H4).
  - reflexivity.
  - reflexivity.
  - intros c Hc. discriminate Hc.
  - exists clone, h1, clone', h2.
    split; [exact H1|]. split; [exact H2|]. split; [exact H3|].
    exact (proj2 (H4 "a")).
Defined.

(** The failing input of C6: the original message is a string, which does
    not implement [Cloneable]; the clone's context holds nil instead. *)
Lemma Clone_original_message_witness :
  exists clone h' c' new,
    MotanRequest.Clone
      (Example.request None None (Some 1%positive),
       Example.heap_with_context (VString "raw") None) =
      Returns (clone, (Example.request None None (Some 1%positive), h'))
    /\ MotanRequest.RPCContext clone = Some c'
    /\ contexts h' !! c' = Some new
    /\ RPCContext.OriginalMessage new = VNil
    /\ RPCContext.Result new = Some 5%positive
    /\ RPCContext.Reply new = VString "reply".
Proof.
  destruct (Clone_original_message
              (Example.request None None (Some 1%positive))
              (Example.heap_with_context (VString "raw") None) 1%positive
              {| RPCContext.ExtFactory := None; RPCContext.OriginalMessage := VString "raw";
                 RPCContext.Oneway := false; RPCContext.Proxy := true;
                 RPCContext.GzipSize := 0%Z; RPCContext.SerializeNum := 0%Z;
                 RPCContext.Serialized := false; RPCContext.AsyncCall := true;
                 RPCContext.Result := Some 5%positive; RPCContext.Reply := VString "reply";
                 RPCContext.Tc := None |})
    as (clone & h' & c' & new & H1 & H2 & _ & H3 & _ & H4 & H5 & _ & _ & H6).
  - reflexivity.
  - reflexivity.
  - intros a Ha. discriminate Ha.
  - reflexivity.
  - exists clone, h', c', new.
    split; [exact H1|]. split; [exact H2|]. split; [exact H3|].
    split; [exact (proj1 (H6 eq_refl))|]. split; [exact H4 | exact H5].
Defined.

Lemma ProcessDeserializable_request_witness :
  MotanRequest.ProcessDeserializable None
    (Example.request
       (Some [VDeserializableValue {| Serialization := None; Body := [] |}]) None None,
     empty_heap) =
    Returns (Some "deserialize fail in DeserializableValue, Serialization is nil",
             (Example.request
                (Some [VDeserializableValue {| Serialization := None; Body := [] |}])
                None None,
              empty_heap))
  /\ MotanRequest.ProcessDeserializable None
       (Example.request
          (Some [VDeserializableValue {| Serialization := Some 3%positive; Body := [] |}])
          None None,
        empty_heap) =
       Returns (None, (Example.request (Some [VBytes []]) None None, empty_heap))
  /\ MotanRequest.ProcessDeserializable None
       (Example.request (Some [VInt 1; VInt 2]) None None, empty_heap) =
       Returns (None, (Example.request (Some [VInt 1; VInt 2]) None None, empty_heap)).
Proof.
  split; [|split].
  - exact (proj1 (ProcessDeserializable_request
                    (Example.request
                       (Some [VDeserializableValue {| Serialization := None; Body := [] |}])
                       None None) empty_heap None)
             {| Serialization := None; Body := [] |} eq_refl).
  - exact (proj1 (proj1 (ProcessDeserializable_request
                    (Example.request
                       (Some [VDeserializableValue
                                {| Serialization := Some 3%positive; Body := [] |}])
                       None None) empty_heap None)
             {| Serialization := Some 3%positive; Body := [] |} eq_refl)).
  - apply (proj2 (ProcessDeserializable_request
                    (Example.request (Some [VInt 1; VInt 2]) None None) empty_heap None)).
    right. left. simpl. lia.
Defined.

(** Two status filters, one of them unavailable, in front of an available
    caller; and the same endpoint without status filters. *)
Lemma IsAvailable_conjunction_witness :
  FilterEndPoint.IsAvailable
    (FilterEndPoint.Build_t
       (Some [ {| Status_IsAvailable := true |}; {| Status_IsAvailable := false |} ])
       (Some Example.echo_caller) None None) = Returns false
  /\ FilterEndPoint.IsAvailable
       (FilterEndPoint.Build_t (Some []) (Some Example.echo_caller) None None) =
       Returns true
  /\ FilterEndPoint.IsAvailable
       (FilterEndPoint.Build_t
          (Some [ {| Status_IsAvailable := true |}; {| Status_IsAvailable := true |} ])
          (Some Example.echo_caller) None None) = Returns true.
Proof.
  split; [|split].
  - apply (proj1 (proj2 (proj2 (proj2
             (IsAvailable_conjunction
                (FilterEndPoint.Build_t
                   (Some [ {| Status_IsAvailable := true |};
                           {| Status_IsAvailable := false |} ])
                   (Some Example.echo_caller) None None))))))
      with (s := {| Status_IsAvailable := false |}).
    + simpl. right. left. reflexivity.
    + reflexivity.
  - exact (proj1 (proj2 (proj2
             (IsAvailable_conjunction
                (FilterEndPoint.Build_t (Some [])
                   (Some Example.echo_caller) None None))))
             Example.echo_caller eq_refl eq_refl).
  - apply (proj1 (IsAvailable_conjunction
                    (FilterEndPoint.Build_t
                       (Some [ {| Status_IsAvailable := true |};
                               {| Status_IsAvailable := true |} ])
                       (Some Example.echo_caller) None None))).
    exists Example.echo_caller. split; [reflexivity|]. split; [reflexivity|].
    simpl. repeat constructor.
Defined.

(** The two terminal filters on a request without a context, on one whose
    context has no tracing handle, and on one with a tracing handle. *)
Lemma terminal_filters_delegate_witness :
  (exists s,
     lastEndPointFilter.Filter lastEndPointFilter.new
       (Some Example.echo_caller) 1000
       (Example.request None None None, empty_heap) = Returns (Some Example.response, s))
  /\ lastEndPointFilter.Filter lastEndPointFilter.new
       (Some Example.echo_caller) 1000
       (Example.request None None (Some 1%positive), Example.heap_with_context VNil None) =
       Returns (Some Example.response,
                (Example.request None None (Some 1%positive),
                 Example.heap_with_context VNil None))
  /\ lastClusterFilter.Filter lastClusterFilter.new
       (Some Example.failover) None 1000
       (Example.request None None (Some 1%positive),
        Example.heap_with_context VNil (Some 2%positive)) =
       Returns (Some Example.response,
                (Example.request None None (Some 1%positive),
                 set_traceContexts (Example.heap_with_context VNil (Some 2%positive))
                   (<[2%positive :=
                        [] ++ [ {| Name := "clusterFilter";
                                   Addr := EmptyString; Time := 1000 |} ]]>
                      (traceContexts (Example.heap_with_context VNil (Some 2%positive)))))).
Proof.
  split; [|split].
  - eexists.
    exact (proj1 (proj1 (proj2
             (terminal_filters_delegate
                Example.echo_caller Example.failover None 1000
                (Example.request None None None) empty_heap)) eq_refl)).
  - exact (proj1 (proj1
             (terminal_filters_delegate
                Example.echo_caller Example.failover None 1000
                (Example.request None None (Some 1%positive))
                (Example.heap_with_context VNil None))
             1%positive _ eq_refl eq_refl eq_refl)).
  - exact (proj2 (proj2 (proj2
             (terminal_filters_delegate
                Example.echo_caller Example.failover None 1000
                (Example.request None None (Some 1%positive))
                (Example.heap_with_context VNil (Some 2%positive))))
             1%positive _ 2%positive [] eq_refl eq_refl eq_refl eq_refl)).
Defined.

Lemma GetRegistry_singleton_witness :
  DefaultExtensionFactory.GetRegistry (Example.zookeeper [])
    (Example.factory, Example.runtime) =
    Returns (Some 1%positive, Example.after_first_lookup)
  /\ run Example.later_calls Example.after_first_lookup =
       Returns (tt, Example.after_later_calls)
  /\ DefaultExtensionFactory.GetRegistry (Example.zookeeper [("group", "motan-demo")])
       Example.after_first_lookup =
       Returns (Some 1%positive, Example.after_first_lookup)
  /\ DefaultExtensionFactory.GetRegistry (Example.zookeeper [("group", "motan-demo")])
       Example.after_later_calls =
       Returns (Some 1%positive, Example.after_later_calls)
  /\ (forall key,
        registry_constructions key (events (snd Example.after_later_calls)) <= 1)
  /\ events (snd Example.after_later_calls) =
       [Invoked RRegistry "zookeeper" (Some (Example.zookeeper []))].
Proof.
  assert (H1 : DefaultExtensionFactory.GetRegistry (Example.zookeeper [])
                 (Example.factory, Example.runtime) =
               Returns (Some 1%positive, Example.after_first_lookup))
    by reflexivity.
  assert (H2 : run Example.later_calls Example.after_first_lookup =
               Returns (tt, Example.after_later_calls))
    by reflexivity.
  destruct (GetRegistry_singleton (Urls := Example.urls) (Example.zookeeper [])
              (Example.zookeeper [("group", "motan-demo")]) Example.later_calls
              (Example.factory, Example.runtime) Example.after_first_lookup
              Example.after_later_calls 1%positive eq_refl H1 H2) as (H3 & H4 & H5).
  split; [exact H1|]. split; [exact H2|]. split; [exact H3|]. split; [exact H4|].
  split; [exact (H5 eq_refl) | reflexivity].
Defined.

Lemma GetProvider_resolution_witness :
  (exists s,
     DefaultExtensionFactory.GetProvider (Example.zookeeper [("provider", "cgi")])
       (Example.factory, Example.runtime) = Returns (Some 1%positive, s)
     /\ events (snd s) =
          [Invoked RProvider "cgi" (Some (Example.zookeeper [("provider", "cgi")]))])
  /\ (exists s,
        DefaultExtensionFactory.GetProvider (Example.zookeeper [("proxy", "motan2:8002")])
          (Example.factory, Example.runtime) = Returns (None, s)
        /\ log (snd s) =
             [ {| level := "error";
                  format := (line "provider name %s is not found in DefaultExtensionFactory!");
                  args := ["motan2"] |} ])
  /\ (exists s,
        DefaultExtensionFactory.GetProvider (Example.zookeeper [])
          (Example.factory, Example.runtime) = Returns (Some 1%positive, s)
        /\ events (snd s) = [Invoked RProvider "default" (Some (Example.zookeeper []))]).
Proof.
  split; [|split].
  - eexists. split.
    + rewrite (proj1 (GetProvider_resolution (Urls := Example.urls)
                        (Consts := Example.constants)
                        (Plug := Example.plugins) (Example.zookeeper [("provider", "cgi")])
                        (Example.factory, Example.runtime))) by discriminate.
      reflexivity.
    + reflexivity.
  - eexists. split.
    + rewrite (proj1 (proj2 (GetProvider_resolution (Urls := Example.urls)
                        (Consts := Example.constants)
                        (Plug := Example.plugins)
                               (Example.zookeeper [("proxy", "motan2:8002")])
                               (Example.factory, Example.runtime))) eq_refl)
        by discriminate.
      reflexivity.
    + reflexivity.
  - eexists. split.
    + rewrite (proj1 (proj2 (proj2 (GetProvider_resolution (Urls := Example.urls)
                        (Consts := Example.constants)
                        (Plug := Example.plugins) (Example.zookeeper [])
                                      (Example.factory, Example.runtime))))
                 eq_refl eq_refl).
      reflexivity.
    + reflexivity.
Defined.

Lemma RegistryExtSerialization_keys_witness :
  exists d',
    DefaultExtensionFactory.RegistryExtSerialization "simple" 6 Example.make_object
      (Example.factory, Example.runtime) = Returns (tt, (d', Example.runtime))
    /\ (exists s, DefaultExtensionFactory.GetSerialization "simple" 0 (d', Example.runtime) =
                    Returns (Some 1%positive, s))
    /\ (exists s, DefaultExtensionFactory.GetSerialization EmptyString 6 (d', Example.runtime) =
                    Returns (Some 1%positive, s)).
Proof.
  destruct (RegistryExtSerialization_keys "simple" 6 Example.make_object
              Example.factory Example.runtime) as (d' & H1 & _ & _ & _ & H2 & H3 & _).
  exists d'. split; [exact H1|]. split.
  - eexists. rewrite (H2 Example.runtime 0%Z) by (discriminate || reflexivity).
    reflexivity.
  - eexists. rewrite (H3 Example.runtime) by lia. reflexivity.
Defined.

(** C4 as stated fails for the nil filter: reading its name for the log
    entry is a call through a nil interface. *)
Lemma SetNext_nil_panics :
  lastEndPointFilter.SetNext None (lastEndPointFilter.new, []) = Panics nil_dereference
  /\ lastClusterFilter.SetNext None (lastClusterFilter.new, []) = Panics nil_dereference.
Proof. split; reflexivity. Qed.

(** C10 as stated fails for a name with white space at an end: the
    registration stores under the name as given and the lookup trims it. *)
Lemma GetSerialization_untrimmed_name_misses :
  exists s,
    DefaultExtensionFactory.RegistryExtSerialization " simple" 6 Example.make_object
      (Example.factory, Example.runtime) = Returns (tt, s)
    /\ DefaultExtensionFactory.GetSerialization " simple" 6 s = Returns (None, s)
    /\ (do! record (Invoked RSerialization " simple" None) in call Example.make_object) s
       <> Returns (None, s).
Proof.
  eexists. split; [reflexivity|]. split; [reflexivity|]. discriminate.
Qed.

(** A request and a response without attachment map get one at the first
    call, at location 1 of the empty heap. *)
Lemma GetAttachments_lazy_once_witness :
  (exists req' h',
     MotanRequest.GetAttachments (Example.request None None None, empty_heap) =
       Returns (1%positive, (req', h'))
     /\ MotanRequest.GetAttachments (req', h') = Returns (1%positive, (req', h')))
  /\ (exists res' h',
        MotanResponse.GetAttachments (Example.response, empty_heap) =
          Returns (1%positive, (res', h'))
        /\ MotanResponse.GetAttachments (res', h') = Returns (1%positive, (res', h'))).
Proof.
  destruct (GetAttachments_lazy_once (Example.request None None None) Example.response
              empty_heap)
    as [(a & req' & h' & H1 & _ & H2 & _ & H3) (b & res' & h'' & H4 & _ & H5 & _ & H6)].
  assert (Ha : a = 1%positive).
  { revert H1. vm_compute. intros [= <- _ _]. reflexivity. }
  assert (Hb : b = 1%positive).
  { revert H4. vm_compute. intros [= <- _ _]. reflexivity. }
  subst a b. split.
  - exists req', h'. split; assumption.
  - exists res', h''. split; assumption.
Defined.

(** The request that holds the map [{"a": "1"}], and the response without
    a map. *)
Lemma attachment_round_trip_witness :
  (exists req' h' h'',
     MotanRequest.SetAttachment "b" "2"
       (Example.request None (Some 1%positive) None, Example.heap_with_attachment) =
       Returns (tt, (req', h'))
     /\ MotanRequest.GetAttachment "b" (req', h') = Returns ("2", (req', h'))
     /\ MotanRequest.GetAttachment "a" (req', h') = Returns ("1", (req', h'))
     /\ MotanRequest.SetAttachment "b" "3" (req', h') = Returns (tt, (req', h''))
     /\ MotanRequest.GetAttachment "b" (req', h'') = Returns ("3", (req', h'')))
  /\ (exists res' h',
        MotanResponse.SetAttachment "b" "2" (Example.response, Example.heap_with_attachment) =
          Returns (tt, (res', h'))
        /\ MotanResponse.GetAttachment "b" (res', h') = Returns ("2", (res', h'))).
Proof.
  destruct (attachment_round_trip (Example.request None (Some 1%positive) None)
              Example.response Example.heap_with_attachment "b" "2" "3") as [Hreq Hres].
  split.
  - destruct Hreq as (req' & h' & h'' & H1 & H2 & H3 & _ & _ & H4 & H5).
    + intros a [= <-]. exists {[ "a" := "1" ]}. reflexivity.
    + exists req', h', h''. split; [exact H1|]. split; [exact H2|].
      split; [|split; assumption].
      destruct (H3 "a") as (v & Hv & Hv'); [discriminate|].
      assert (v = "1") as -> by (revert Hv; vm_compute; intros [= <-]; reflexivity).
      exact Hv'.
  - destruct Hres as (res' & h' & h'' & H1 & H2 & _).
    + intros a Ha. discriminate Ha.
    + exists res', h'. split; assumption.
Defined.

(** Responses whose value is a lazy value without and with a
    serialization, and one whose value is a string. *)
Lemma ProcessDeserializable_response_witness :
  MotanResponse.ProcessDeserializable VNil
    (MotanResponse.set_Value Example.response
       (VDeserializableValue {| Serialization := None; Body := [] |}), empty_heap) =
    Returns (Some "deserialize fail in DeserializableValue, Serialization is nil",
             (MotanResponse.set_Value Example.response
                (VDeserializableValue {| Serialization := None; Body := [] |}),
              empty_heap))
  /\ MotanResponse.ProcessDeserializable VNil
       (MotanResponse.set_Value Example.response
          (VDeserializableValue {| Serialization := Some 3%positive; Body := [] |}),
        empty_heap) =
       Returns (None, (MotanResponse.set_Value Example.response (VBytes []), empty_heap))
  /\ MotanResponse.ProcessDeserializable VNil
       (MotanResponse.set_Value Example.response (VString "pong"), empty_heap) =
       Returns (None, (MotanResponse.set_Value Example.response (VString "pong"),
                       empty_heap)).
Proof.
  split; [|split].
  - exact (proj1 (ProcessDeserializable_response
                    (MotanResponse.set_Value Example.response
                       (VDeserializableValue {| Serialization := None; Body := [] |}))
                    empty_heap VNil)
             {| Serialization := None; Body := [] |} eq_refl).
  - exact (proj1 (proj1 (ProcessDeserializable_response
                    (MotanResponse.set_Value Example.response
                       (VDeserializableValue
                          {| Serialization := Some 3%positive; Body := [] |}))
                    empty_heap VNil)
             {| Serialization := Some 3%positive; Body := [] |} eq_refl)).
  - apply (proj2 (ProcessDeserializable_response
                    (MotanResponse.set_Value Example.response (VString "pong"))
                    empty_heap VNil)).
    intros d Hd. discriminate Hd.
Defined.

(** The clone of the request holding the map [{"a": "1"}] has a map of
    its own, the original's map is where and what it was, and the contexts
    are untouched. *)
Lemma Clone_frame_witness :
  exists clone h',
    MotanRequest.Clone
      (Example.request None (Some 1%positive) None, Example.heap_with_attachment) =
      Returns (clone, (Example.request None (Some 1%positive) None, h'))
    /\ stringMaps h' !! 1%positive = Some {[ "a" := "1" ]}
    /\ is_Some (MotanRequest.Attachment clone)
    /\ MotanRequest.Attachment clone <> Some 1%positive
    /\ contexts h' = contexts Example.heap_with_attachment.
Proof.
  destruct (Clone_frame (Example.request None (Some 1%positive) None)
              Example.heap_with_attachment)
    as (clone & h' & H1 & _ & _ & _ & _ & _ & H2 & _ & _ & H3 & _ & H4 & _ & _ & H5).
  - intros a [= <-]. exists {[ "a" := "1" ]}. reflexivity.
  - intros c Hc. discriminate Hc.
  - exists clone, h'. split; [exact H1|].
    split; [apply H2; reflexivity|].
    split; [apply H3; eexists; reflexivity|].
    split; [|apply H5; reflexivity].
    intros Hclone. destruct (H4 _ Hclone) as [Hfree _]. discriminate Hfree.
Defined.

(** A store into the original after the clone was taken, and a store into
    the clone of a request that had no map. *)
Lemma Clone_attachments_independent_both_ways_witness :
  (exists clone h1 m' h2,
     MotanRequest.Clone
       (Example.request None (Some 1%positive) None, Example.heap_with_attachment) =
       Returns (clone, (Example.request None (Some 1%positive) None, h1))
     /\ MotanRequest.SetAttachment "a" "2"
          (Example.request None (Some 1%positive) None, h1) = Returns (tt, (m', h2))
     /\ MotanRequest.GetAttachment "a" (m', h2) = Returns ("2", (m', h2))
     /\ MotanRequest.GetAttachment "a" (clone, h2) = Returns ("1", (clone, h2)))
  /\ (exists clone h1 clone' h2,
        MotanRequest.Clone (Example.request None None None, empty_heap) =
          Returns (clone, (Example.request None None None, h1))
        /\ MotanRequest.SetAttachment "a" "2" (clone, h1) = Returns (tt, (clone', h2))
        /\ MotanRequest.GetAttachment "a" (clone', h2) = Returns ("2", (clone', h2))
        /\ MotanRequest.GetAttachment "a" (Example.request None None None, h2) =
             Returns (EmptyString, (Example.request None None None, h2))).
Proof.
  split.
  - destruct (Clone_attachments_independent_both_ways
                (Example.request None (Some 1%positive) None)
                Example.heap_with_attachment "a" "2")
      as (clone & h1 & H1 & (m' & h2 & H2 & H3 & H4) & _).
    + intros a [= <-]. exists {[ "a" := "1" ]}. reflexivity.
    + intros c Hc. discriminate Hc.
    + exists clone, h1, m', h2. split; [exact H1|]. split; [exact H2|]. split; [exact H3|].
      destruct (H4 "a") as (v & Hv & Hv').
      assert (v = "1") as ->; [|exact Hv'].
      revert H1 Hv. vm_compute. intros [= <- <-]. vm_compute. intros [= <-]. reflexivity.
  - destruct (Clone_attachments_independent_both_ways
                (Example.request None None None) empty_heap "a" "2")
      as (clone & h1 & H1 & _ & H2).
    + intros a Ha. discriminate Ha.
    + intros c Hc. discriminate Hc.
    + destruct (H2 eq_refl) as (clone' & h2 & H3 & H4 & H5).
      exists clone, h1, clone', h2. split; [exact H1|]. split; [exact H3|].
      split; [exact H4 | exact (H5 "a")].
Defined.



(** The lookups of the start-up: only the registry is memoized, the
    constructor maps are those of [Example.factory]. *)
Lemma lookups_keep_registrations_witness :
  DefaultExtensionFactory.set_registries (fst Scenario.after_startup)
    (DefaultExtensionFactory.registries Example.factory) = Example.factory
  /\ grows Example.runtime (snd Scenario.after_startup).
Proof.
  destruct (lookups_keep_registrations Scenario.startup (Example.factory, Example.runtime)
              Scenario.after_startup Scenario.started)
    as (H1 & _ & _ & H2 & _).
  - vm_compute. reflexivity.
  - split; [exact H1 | exact H2].
Defined.

(** Registering a strategy does not change how a provider is found. *)
Lemma registration_leaves_other_roles_witness :
  exists d',
    register (@AddHa Example.urls Example.plugins "failover" (fun _ => Example.make_object))
      (Example.factory, Example.runtime) = Returns (tt, (d', Example.runtime))
    /\ outside (perform (@AskProvider Example.urls (Example.zookeeper [])) (d', Example.runtime)) =
         outside (perform (@AskProvider Example.urls (Example.zookeeper []))
                    (Example.factory, Example.runtime)).
Proof.
  destruct (registration_leaves_other_roles
              (@AddHa Example.urls Example.plugins "failover" (fun _ => Example.make_object))
              (@AskProvider Example.urls (Example.zookeeper [])) Example.factory Example.runtime
              Example.runtime)
    as (d' & H1 & _ & H2).
  - discriminate.
  - exists d'. split; assumption.
Defined.

(** A URL without strategy parameter selects "failover"; no load balance is
    registered in [Example.factory]. *)
Lemma strategy_registration_round_trip_witness :
  (exists d1,
     DefaultExtensionFactory.RegistExtHa "failover" (fun _ => Example.make_object)
       (Example.factory, Example.runtime) = Returns (tt, (d1, Example.runtime))
     /\ outside (DefaultExtensionFactory.GetHa (Example.zookeeper []) (d1, Example.runtime)) =
          Returns (Some 1%positive,
                   @Build_Runtime Example.urls Example.plugins 1%nat
                     [Invoked RHa "failover" (Some (Example.zookeeper []))] []))
  /\ DefaultExtensionFactory.GetLB (Example.zookeeper [("loadbalance", "roundrobin")])
       (Example.factory, Example.runtime) =
       Returns (None,
                (Example.factory,
                 @Build_Runtime Example.urls Example.plugins 0%nat []
                   [ {| level := "error";
                        format := line "LoadBalance name %s is not found in DefaultExtensionFactory!";
                        args := ["roundrobin"] |} ])).
Proof.
  destruct (strategy_registration_round_trip "failover"
              (fun _ => Example.make_object) (fun _ => Example.make_object)
              Example.factory Example.runtime Example.runtime (Example.zookeeper []))
    as [(d1 & d2 & H1 & _ & H2 & _) _].
  destruct (strategy_registration_round_trip "failover"
              (fun _ => Example.make_object) (fun _ => Example.make_object)
              Example.factory Example.runtime Example.runtime
              (Example.zookeeper [("loadbalance", "roundrobin")]))
    as [_ (_ & _ & _ & _ & _ & _ & H3)].
  split.
  - exists d1. split; [exact H1|]. rewrite (proj1 (H2 eq_refl)). reflexivity.
  - rewrite (H3 eq_refl). reflexivity.
Defined.

(** A server registered as "motan2" is found for a URL without protocol,
    after a warning; the hook of the server runs after its constructor. *)
Lemma protocol_registration_round_trip_witness :
  exists d1,
    @DefaultExtensionFactory.RegistExtServer Example.urls Scenario.hooked "motan2"
      (fun _ => Scenario.make_hooked)
      (@DefaultExtensionFactory.initialized Example.urls Scenario.hooked,
       Scenario.hooked_runtime) =
      Returns (tt, (d1, Scenario.hooked_runtime))
    /\ outside (@DefaultExtensionFactory.GetServer Example.urls Scenario.hooked
                  Scenario.anonymous (d1, Scenario.hooked_runtime)) =
         Returns (Some 1%positive,
                  @Build_Runtime Example.urls Scenario.hooked 101%nat
                    [ @Invoked Example.urls RServer "motan2" (Some Scenario.anonymous);
                      @Initialized Example.urls 1%positive ]
                    [ {| level := "warning"; format := EmptyString;
                         args := ["not find server key. motan2 server will used."] |} ]).
Proof.
  destruct (protocol_registration_round_trip (Plug := Scenario.hooked) "motan2"
              (fun _ => Scenario.make_hooked)
              (@DefaultExtensionFactory.initialized Example.urls Scenario.hooked)
              Scenario.hooked_runtime Scenario.hooked_runtime Scenario.anonymous)
    as [_ (d1 & H1 & _ & H2 & _)].
  exists d1. split; [exact H1|]. rewrite (H2 eq_refl eq_refl). reflexivity.
Defined.

(** A filter registered with a leading blank is found by no lookup; one
    registered as "gzip" is found by the name with blanks around it. *)
Lemma trimmed_name_registration_witness :
  (exists d1,
     DefaultExtensionFactory.RegistExtFilter " gzip" Example.make_object
       (Example.factory, Example.runtime) = Returns (tt, (d1, Example.runtime))
     /\ forall n, outside (DefaultExtensionFactory.GetFilter n (d1, Example.runtime)) =
                    outside (DefaultExtensionFactory.GetFilter n
                               (Example.factory, Example.runtime)))
  /\ (exists d1,
        DefaultExtensionFactory.RegistExtFilter "gzip" Example.make_object
          (Example.factory, Example.runtime) = Returns (tt, (d1, Example.runtime))
        /\ outside (DefaultExtensionFactory.GetFilter " gzip " (d1, Example.runtime)) =
             Returns (Some 1%positive,
                      @Build_Runtime Example.urls Example.plugins 1%nat
                        [Invoked RFilter "gzip" None] [])).
Proof.
  split.
  - destruct (trimmed_name_registration " gzip" "gzip" Example.make_object
                Example.factory Example.runtime Example.runtime)
      as [(d1 & H1 & _ & _ & H2 & _) _].
    exists d1. split; [exact H1|]. apply H2. discriminate.
  - destruct (trimmed_name_registration "gzip" " gzip " Example.make_object
                Example.factory Example.runtime Example.runtime)
      as [(d1 & H1 & H2 & _) _].
    exists d1. split; [exact H1|]. rewrite (H2 eq_refl). reflexivity.
Defined.

(** A registry constructor that returns nil is invoked once: the nil is
    memoized and returned by the next call, which records nothing. *)
Lemma GetRegistry_first_call_witness :
  DefaultExtensionFactory.GetRegistry (Example.zookeeper [])
    (Scenario.failing_factory, Example.runtime) = Returns (None, Scenario.after_failure)
  /\ events (snd Scenario.after_failure) =
       [Invoked RRegistry "zookeeper" (Some (Example.zookeeper []))]
  /\ DefaultExtensionFactory.GetRegistry (Example.zookeeper [("group", "motan-demo")])
       Scenario.after_failure = Returns (None, Scenario.after_failure).
Proof.
  destruct (GetRegistry_first_call (Urls := Example.urls) (Example.zookeeper [])
              Scenario.failing_factory
              Example.runtime eq_refl) as [_ Hfound].
  destruct (Hfound Scenario.unreachable eq_refl) as [_ Hmemo].
  assert (Hget : DefaultExtensionFactory.GetRegistry (Example.zookeeper [])
                   (Scenario.failing_factory, Example.runtime) =
                 Returns (None, (fst Scenario.after_failure, snd Scenario.after_failure)))
    by (vm_compute; reflexivity).
  destruct (Hmemo None _ _ Hget) as [_ Hlater].
  destruct (Hlater (Example.zookeeper [("group", "motan-demo")]) Scenario.unreachable
              (snd Scenario.after_failure) eq_refl) as (d2 & _ & Hagain & _).
  split; [exact Hget|]. split; [reflexivity|]. exact Hagain.
Defined.

(** A serialization named "7" with id 3 is the one found for id 7; a
    negative id finds nothing. *)
Lemma serialization_id_lookup_witness :
  DefaultExtensionFactory.GetSerialization EmptyString (-1)
    (Example.factory, Example.runtime) = Returns (None, (Example.factory, Example.runtime))
  /\ exists d1,
       DefaultExtensionFactory.RegistryExtSerialization "7" 3 Example.make_object
         (Example.factory, Example.runtime) = Returns (tt, (d1, Example.runtime))
       /\ outside (DefaultExtensionFactory.GetSerialization EmptyString 7
                     (d1, Example.runtime)) =
            Returns (Some 1%positive,
                     @Build_Runtime Example.urls Example.plugins 1%nat
                       [Invoked RSerialization "7" None] []).
Proof.
  destruct (serialization_id_lookup "7" 3 Example.make_object Example.factory
              Example.runtime Example.runtime)
    as (H1 & _ & _ & d1 & H2 & _ & H3).
  split; [apply H1; lia|].
  exists d1. split; [exact H2|]. rewrite (H3 7%Z); [reflexivity | lia | reflexivity].
Defined.

(** After [Initialize] the provider registered as default is gone. *)
Lemma Initialize_forgets_witness :
  exists d0 entries,
    DefaultExtensionFactory.Initialize (Example.factory, Example.runtime) =
      Returns (tt, (d0, Example.runtime))
    /\ DefaultExtensionFactory.GetProvider (Example.zookeeper []) (d0, Example.runtime) =
         Returns (None, (d0, @Build_Runtime Example.urls Example.plugins 0%nat [] entries)).
Proof.
  destruct (Initialize_forgets Example.factory Example.runtime) as (d0 & H1 & _ & H2 & _).
  destruct (H2 (@AskProvider Example.urls (Example.zookeeper [])) Example.runtime)
    as [entries Hq].
  exists d0, entries. split; [exact H1 | exact Hq].
Defined.
